(** * meribel-api: avalanche bulletin, warnings and forecast server

    A shallow embedding of [server.js].  The source file holds three
    successive revisions of the server; the last one is the deployed
    program and is embedded at top level, the pieces of the two earlier
    revisions that the specification still refers to live in the modules
    [Rev1] and [Rev2], and the server of the second revision, with its
    three-stage avalanche endpoint, in [Rev2Server].

    Conventions of the embedding:
    - a JavaScript number that carries a risk level or a day count is a
      [JS.number]: [NaN], an infinity or an integer, the integers being
      rounded to doubles where [parseInt] and the arithmetic produce them;
    - a forecast measurement is an [option Q]: a finite number, or [None]
      for [null], [undefined] and [NaN], which lose every comparison the
      program makes;
    - strings are byte strings holding UTF-8;
    - handlers run in a monad over a [World] (cache, clock, upstream
      replies still to come, log of outbound requests) in which a thrown
      exception keeps the world as it was when thrown;
    - synchronous code takes no time: the clock moves only while a handler
      awaits an upstream reply and between two requests;
    - requests are handled one after the other: no request arrives while
      another one awaits its upstream reply. *)

From Stdlib Require Import ZArith QArith Bool List String Ascii Lia.
From Stdlib Require Import DecimalString DecimalPos DecimalZ.
Import ListNotations.
Local Open Scope string_scope.
Local Open Scope Z_scope.

(** ** JavaScript primitives used by the server *)

Module JS.

(** The numbers the server computes with where it reads a risk level or a
    day count: [NaN], an integer, or an infinity ([Infinity true] is
    [-Infinity]).  The integers it holds are doubles ([isDouble] below).
    The two zeros are one here: no comparison and no printing the server
    does tells [-0] from [0]. *)
Inductive number : Type :=
| NaN
| Int (z : Z)
| Infinity (negative : bool).

(** The double nearest to an integer, ties going to the even significand
    (the rounding of IEEE 754): an integer of at most 53 bits is a double;
    a longer one keeps its 53 leading bits, rounded on the bits it drops;
    what rounds to 2^1024 or more is an infinity. *)
Definition toDouble (z : Z) : number :=
  let a := Z.abs z in
  let e := Z.log2 a - 52 in
  if e <=? 0 then Int z
  else
    let q := a / 2 ^ e in
    let r := a mod 2 ^ e in
    let half := 2 ^ (e - 1) in
    let m := if (half <? r) || ((r =? half) && Z.odd q) then q + 1 else q in
    if 1024 <=? Z.log2 (m * 2 ^ e) then Infinity (z <? 0)
    else Int (Z.sgn z * (m * 2 ^ e)).

(** A number JavaScript can hold: an integer has to be its own nearest
    double. *)
Definition isDouble (n : number) : bool :=
  match n with
  | Int z => match toDouble z with Int d => d =? z | _ => false end
  | _ => true
  end.

(** [!n] is true for [NaN] and for zero. *)
Definition truthy (n : number) : bool :=
  match n with
  | NaN => false
  | Int z => negb (z =? 0)
  | Infinity _ => true
  end.

(** [a || b] on numbers. *)
Definition or (a b : number) : number :=
  if truthy a then a else b.

(** [s || d] on strings: the empty string is falsy, and so is an absent
    attribute or query parameter. *)
Definition or_string (s : option string) (d : string) : string :=
  match s with
  | Some (String c r) => String c r
  | Some EmptyString | None => d
  end.

(** [a >= b] and [a > b]: false as soon as one side is [NaN]. *)
Definition ge (a b : number) : bool :=
  match a, b with
  | Int x, Int y => y <=? x
  | Infinity false, Int _ | Int _, Infinity true => true
  | Infinity negative, Infinity negative' => negb negative || negative'
  | _, _ => false
  end.

Definition gt (a b : number) : bool :=
  match a, b with
  | Int x, Int y => y <? x
  | Infinity false, Int _ | Int _, Infinity true => true
  | Infinity negative, Infinity negative' => negb negative && negative'
  | _, _ => false
  end.

(** [a - b] and [a + b]: the exact result, rounded to a double. *)
Definition sub (a b : number) : number :=
  match a, b with
  | Int x, Int y => toDouble (x - y)
  | Infinity negative, Int _ => Infinity negative
  | Int _, Infinity negative => Infinity (negb negative)
  | Infinity negative, Infinity negative' =>
      if Bool.eqb negative negative' then NaN else Infinity negative
  | _, _ => NaN
  end.

Definition add (a b : number) : number :=
  match a, b with
  | Int x, Int y => toDouble (x + y)
  | Infinity negative, Int _ | Int _, Infinity negative => Infinity negative
  | Infinity negative, Infinity negative' =>
      if Bool.eqb negative negative' then Infinity negative else NaN
  | _, _ => NaN
  end.

(** [Math.max] and [Math.min] answer [NaN] as soon as one argument is. *)
Definition max (a b : number) : number :=
  match a, b with
  | Int x, Int y => Int (Z.max x y)
  | NaN, _ | _, NaN => NaN
  | Infinity false, _ | _, Infinity false => Infinity false
  | Infinity true, c | c, Infinity true => c
  end.

Definition min (a b : number) : number :=
  match a, b with
  | Int x, Int y => Int (Z.min x y)
  | NaN, _ | _, NaN => NaN
  | Infinity true, _ | _, Infinity true => Infinity true
  | Infinity false, c | c, Infinity false => c
  end.

(** The decimal numeral of an integer. *)
Definition decimal (z : Z) : string :=
  NilZero.string_of_int (Z.to_int z).

(** The integer [c] reads as the double [a]. *)
Definition roundsTo (a c : Z) : bool :=
  match toDouble c with
  | Int d => d =? a
  | _ => false
  end.

(** The integer with the fewest significant digits that reads as the
    double [a], and the nearest to [a] among those: the multiples of 10,
    of 100 and so on next to [a] are tried as long as one of them reads as
    [a].  [power] is the power of ten at hand, [best] the integer found
    for the power before. *)
Fixpoint shortest (fuel : nat) (a power best : Z) : Z :=
  match fuel with
  | O => best
  | S fuel' =>
      let below := a / power * power in
      let above := below + power in
      match roundsTo a below, roundsTo a above with
      | true, true =>
          let nearer :=
            if a - below <? above - a then below
            else if above - a <? a - below then above
            else if Z.even (below / power) then below else above in
          shortest fuel' a (10 * power) nearer
      | true, false => shortest fuel' a (10 * power) below
      | false, true => shortest fuel' a (10 * power) above
      | false, false => best
      end
  end.

(** A numeral without its zeros at the end. *)
Fixpoint significant (numeral : string) : string :=
  match numeral with
  | EmptyString => EmptyString
  | String c rest =>
      match c, significant rest with
      | "0"%char, EmptyString => EmptyString
      | _, digits => String c digits
      end
  end.

(** The numeral of a positive integer in exponent form, as in [1.25e+21]. *)
Definition exponential (numeral : string) : string :=
  match significant numeral with
  | String d EmptyString => String d "e+"
  | String d more => String d ("." ++ more ++ "e+")
  | EmptyString => "0e+"
  end ++ decimal (Z.of_nat (String.length numeral) - 1).

(** Number to string, as in a template literal or an object key: the
    shortest numeral that reads back as the number.  Below 2^53 that is
    the numeral of the integer itself, every other integer there being a
    double of its own; from 10^21 on the numeral is in exponent form. *)
Definition toString (n : number) : string :=
  match n with
  | NaN => "NaN"
  | Infinity negative => if negative then "-Infinity" else "Infinity"
  | Int z =>
      if Z.log2 (Z.abs z) <? 53 then decimal z
      else
        let a := Z.abs z in
        let numeral := decimal (shortest (Z.to_nat (Z.log2 a)) a 10 a) in
        (if z <? 0 then "-" else "")
        ++ (if (String.length numeral <=? 21)%nat then numeral
            else exponential numeral)
  end.

(** [hay.includes(needle)].  Searching the UTF-8 bytes finds what
    searching the UTF-16 units finds, as both are well-formed encodings of
    the same characters. *)
Fixpoint includes (needle hay : string) : bool :=
  prefix needle hay ||
  match hay with
  | EmptyString => false
  | String _ rest => includes needle rest
  end.

Definition lowerAscii (c : ascii) : ascii :=
  let n := nat_of_ascii c in
  if ((65 <=? n) && (n <=? 90))%nat then ascii_of_nat (n + 32) else c.

(** [s.toLowerCase()] on UTF-8 bytes, for the Basic Latin and Latin-1
    Supplement blocks (the letters of French): A-Z, and the two-byte
    sequences C3 80 .. C3 9E other than the multiplication sign C3 97.
    Capitals of other blocks are outside the model and pass unchanged. *)
Fixpoint toLowerCase (s : string) : string :=
  match s with
  | EmptyString => EmptyString
  | String c rest =>
      if (nat_of_ascii c =? 195)%nat then
        match rest with
        | EmptyString => String c EmptyString
        | String d rest' =>
            let n := nat_of_ascii d in
            if ((128 <=? n) && (n <=? 158) && negb (n =? 151))%nat
            then String c (String (ascii_of_nat (n + 32)) (toLowerCase rest'))
            else String c (String d (toLowerCase rest'))
        end
      else String (lowerAscii c) (toLowerCase rest)
  end.

(** The white space of ECMAScript (WhiteSpace and LineTerminator) in
    UTF-8.  One byte: U+0009 to U+000D and U+0020. *)
Definition isWhiteSpace (c : ascii) : bool :=
  let n := nat_of_ascii c in
  ((n =? 32) || ((9 <=? n) && (n <=? 13)))%nat.

(** Two bytes: U+00A0, the no-break space. *)
Definition isWhiteSpace2 (c1 c2 : ascii) : bool :=
  ((nat_of_ascii c1 =? 194) && (nat_of_ascii c2 =? 160))%nat.

(** Three bytes: U+1680; U+2000 to U+200A, U+2028, U+2029 and U+202F;
    U+205F; U+3000; U+FEFF. *)
Definition isWhiteSpace3 (c1 c2 c3 : ascii) : bool :=
  let n1 := nat_of_ascii c1 in
  let n2 := nat_of_ascii c2 in
  let n3 := nat_of_ascii c3 in
  (((n1 =? 225) && (n2 =? 154) && (n3 =? 128))
   || ((n1 =? 226) && (n2 =? 128)
       && (((128 <=? n3) && (n3 <=? 138)) || (n3 =? 168) || (n3 =? 169) || (n3 =? 175)))
   || ((n1 =? 226) && (n2 =? 129) && (n3 =? 159))
   || ((n1 =? 227) && (n2 =? 128) && (n3 =? 128))
   || ((n1 =? 239) && (n2 =? 187) && (n3 =? 191)))%nat.

Fixpoint trimStart (s : string) : string :=
  match s with
  | EmptyString => EmptyString
  | String c1 rest1 =>
      if isWhiteSpace c1 then trimStart rest1
      else
        match rest1 with
        | EmptyString => s
        | String c2 rest2 =>
            if isWhiteSpace2 c1 c2 then trimStart rest2
            else
              match rest2 with
              | EmptyString => s
              | String c3 rest3 =>
                  if isWhiteSpace3 c1 c2 c3 then trimStart rest3 else s
              end
        end
  end.

(** Value of a character as a digit, letters counting from ten. *)
Definition digitValue (c : ascii) : option Z :=
  let n := Z.of_nat (nat_of_ascii c) in
  if (48 <=? n) && (n <=? 57) then Some (n - 48)
  else if (97 <=? n) && (n <=? 122) then Some (n - 87)
  else if (65 <=? n) && (n <=? 90) then Some (n - 55)
  else None.

(** Longest prefix of digits below [radix]; [None] when it is empty. *)
Fixpoint digits (radix : Z) (s : string) (acc : option Z) : option Z :=
  match s with
  | EmptyString => acc
  | String c rest =>
      match digitValue c with
      | Some d =>
          if d <? radix
          then digits radix rest
                 (Some (radix * match acc with Some a => a | None => 0 end + d))
          else acc
      | None => acc
      end
  end.

(** [parseInt(s)] without a radix argument: leading white space, a sign,
    a [0x] prefix for base sixteen, then digits; [NaN] without digits.  The
    result is the double nearest to the integer the digits spell. *)
Definition parseInt (s : string) : number :=
  let s1 := trimStart s in
  let '(sign, s2) :=
    match s1 with
    | String "-" r => (-1, r)
    | String "+" r => (1, r)
    | _ => (1, s1)
    end in
  let '(radix, s3) :=
    match s2 with
    | String "0" (String "x" r) => (16, r)
    | String "0" (String "X" r) => (16, r)
    | _ => (10, s2)
    end in
  match digits radix s3 None with
  | Some v => toDouble (sign * v)
  | None => NaN
  end.

(** [parseInt] of a value that may be [undefined]. *)
Definition parseInt_opt (s : option string) : number :=
  match s with
  | Some s => parseInt s
  | None => NaN
  end.

(** [text.replace(/pattern/gi, replacement)] for a pattern of lower-case
    Latin letters and spaces and a replacement without [$]: from left to
    right, each occurrence of the pattern, in any case, gives way to the
    replacement, and the search resumes behind it.  [skip] counts the bytes
    of a found occurrence still to pass. *)
Fixpoint replaceAll_from (skip : nat) (pattern replacement text : string) : string :=
  match text with
  | EmptyString => EmptyString
  | String c rest =>
      match skip with
      | S k => replaceAll_from k pattern replacement rest
      | O =>
          if prefix pattern (toLowerCase text)
          then replacement ++ replaceAll_from (String.length pattern - 1) pattern replacement rest
          else String c (replaceAll_from 0 pattern replacement rest)
      end
  end.

Definition replaceAll_ci (pattern replacement text : string) : string :=
  replaceAll_from 0 pattern replacement text.

(** What [table[key]] finds in an object literal with text values: an own
    entry, or a member inherited from [Object.prototype] (a function or an
    object, which [JSON.stringify] does not render as text), or nothing. *)
Inductive Member : Type :=
| Text (s : string)
| Inherited (name : string).

Definition objectPrototype : list string :=
  [ "constructor"; "__defineGetter__"; "__defineSetter__"; "hasOwnProperty";
    "__lookupGetter__"; "__lookupSetter__"; "isPrototypeOf";
    "propertyIsEnumerable"; "toString"; "valueOf"; "__proto__"; "toLocaleString" ].

Fixpoint own (key : string) (table : list (string * string)) : option string :=
  match table with
  | [] => None
  | (k, v) :: rest => if (k =? key)%string then Some v else own key rest
  end.

Definition member (key : string) (table : list (string * string)) : option Member :=
  match own key table with
  | Some v => Some (Text v)
  | None =>
      if existsb (String.eqb key) objectPrototype then Some (Inherited key) else None
  end.

End JS.

Import JS.

(** ** Data model: the JSON resources *)

Record ElevationBand : Type := {
  elevation : string;
  risk : number;
  aspects : list string;
  description : string
}.

Record Problem : Type := {
  type : string;
  severity : string;
  distribution : string;
  sensitivity : string;
  icon : string
}.

Record Snowpack : Type := {
  recentSnow : string;
  totalDepth : string;
  quality : string
}.

Record Weather : Type := {
  forecast : string;
  temperature : string;
  wind : string
}.

(** A date rendered by [toLocaleDateString('en-GB')]: of the text found in
    the document, or of an instant in milliseconds.  The rendering itself
    is left symbolic. *)
Inductive LocaleDate : Type :=
| DateOfText (text : string)
| DateOfInstant (ms : Z).

(** [updateTime] holds the instant whose ISO-8601 rendering the program
    stores. *)
Record Bulletin : Type := {
  massif : string;
  updateTime : Z;
  validUntil : LocaleDate;
  overallRisk : number;
  summary : string;
  elevationBands : list ElevationBand;
  problems : list Problem;
  snowpack : Snowpack;
  weather : Weather;
  tendency : string;
  source : string;
  dataSource : string;
  bulletin_error : option string;
  bulletin_note : option string
}.

Record Alert : Type := {
  alert_type : string;
  level : string;
  levelNumber : Z;
  title : string;
  alert_description : string
}.

Record WarningsResource : Type := {
  department : string;
  warnings_updateTime : Z;
  alerts : list Alert;
  warnings_source : string;
  warnings_note : option string
}.

(** ** Tables keyed by risk level *)

(** [table[level]]: the entry under the key a number turns into. *)
Fixpoint lookup (level : Z) (table : list (Z * string)) : option string :=
  match table with
  | [] => None
  | (k, v) :: rest => if k =? level then Some v else lookup level rest
  end.

Definition property (level : number) (table : list (Z * string)) : option string :=
  match level with
  | Int z => lookup z table
  | NaN | Infinity _ => None
  end.

(** [table[level] || table[3]]; every entry is a non-empty string. *)
Definition entry_or_3 (level : number) (table : list (Z * string)) : string :=
  match property level table with
  | Some v => v
  | None => match lookup 3 table with Some v => v | None => "undefined" end
  end.

(** [array.push(x)] *)
Definition push {A : Type} (array : list A) (x : A) : list A :=
  (array ++ [x])%list.

(** ** First revision: the keyword scan of the scraped page *)

Module Rev1.

(** [extractOverallRisk($)].  The argument is the text of the nodes that
    match ['.risk-level, .risque-global'], as cheerio's [text()] gives it. *)
Definition extractOverallRisk (selectedText : string) : number :=
  let riskText := toLowerCase selectedText in
  if includes "fort" riskText || includes "4" riskText then Int 4
  else if includes "marqué" riskText || includes "3" riskText then Int 3
  else if includes "limité" riskText || includes "2" riskText then Int 2
  else if includes "faible" riskText || includes "1" riskText then Int 1
  else Int 3.

End Rev1.

(** ** Second revision: web scraping fallback and its default bands *)

Module Rev2.

Definition descriptions : list (Z * string) :=
  [ (1, "Generally safe conditions. Natural avalanches unlikely.");
    (2, "Heightened avalanche conditions on specific terrain. Careful evaluation needed.");
    (3, "Dangerous avalanche conditions. Careful snowpack evaluation required.");
    (4, "Very dangerous conditions. Travel in avalanche terrain not recommended.");
    (5, "Extraordinary avalanche situation. Avoid all avalanche terrain.") ].

Definition translateRiskDescription (level : number) : string :=
  entry_or_3 level descriptions.

(** The first statements of [scrapeMeteoFranceWeb($)]: the risk level read
    off the text of the nodes matching
    ['.risk-level, .risque, [class*="risque"]']. *)
Definition scrapeMeteoFranceWeb_riskLevel (selectedText : string) : number :=
  let riskText := toLowerCase selectedText in
  if includes "4" riskText || includes "fort" riskText then Int 4
  else if includes "3" riskText || includes "marqué" riskText then Int 3
  else if includes "2" riskText || includes "limité" riskText then Int 2
  else if includes "1" riskText || includes "faible" riskText then Int 1
  else Int 3.

Definition getDefaultElevationBands (riskLevel : number) : list ElevationBand :=
  [ {| elevation := "Above 2500m";
       risk := JS.min (add riskLevel (Int 1)) (Int 5);
       aspects := ["N"; "NE"; "E"; "NW"];
       description := translateRiskDescription (JS.min (add riskLevel (Int 1)) (Int 5)) |};
    {| elevation := "2000m - 2500m";
       risk := riskLevel;
       aspects := ["N"; "NE"; "E"];
       description := translateRiskDescription riskLevel |};
    {| elevation := "Below 2000m";
       risk := JS.max (sub riskLevel (Int 1)) (Int 1);
       aspects := ["S"; "SE"; "SW"; "W"];
       description := translateRiskDescription (JS.max (sub riskLevel (Int 1)) (Int 1)) |} ].


Definition summaries : list (Z * string) :=
  [ (1, "Low avalanche risk. Generally safe conditions in most terrain.");
    (2, "Moderate avalanche risk. Evaluate terrain and snowpack carefully, especially on steep slopes.");
    (3, "Considerable avalanche risk. Dangerous conditions exist. Careful snowpack evaluation and conservative terrain choices essential.");
    (4, "High avalanche risk. Very dangerous conditions. Travel in avalanche terrain should be avoided.");
    (5, "Very high avalanche risk. Extraordinary avalanche situation. Avoid all avalanche terrain.") ].

Definition generateSummary (riskLevel : number) : string :=
  entry_or_3 riskLevel summaries.

(** A problem as the second revision lists it: [type] and [icon] come out
    of table lookups on scraped text. *)
Record Problem : Type := {
  type : Member;
  severity : string;
  distribution : string;
  sensitivity : string;
  icon : Member
}.

Definition getDefaultProblems (riskLevel : number) : list Problem :=
  let problems := [] in
  let problems :=
    if ge riskLevel (Int 3) then
      push problems
        {| type := Text "Wind Slab";
           severity := "High";
           distribution := "Widespread above 2200m";
           sensitivity := "High - easily triggered";
           icon := Text "💨" |}
    else problems in
  let problems :=
    if ge riskLevel (Int 2) then
      push problems
        {| type := Text "Persistent Weak Layers";
           severity := if ge riskLevel (Int 3) then "Moderate" else "Low";
           distribution := "Specific aspects (N, NE, E)";
           sensitivity := "Moderate - careful snowpack tests needed";
           icon := Text "⚠️" |}
    else problems in
  problems.

Definition translations : list (string * string) :=
  [ ("neige_ventee", "Wind Slab");
    ("plaques", "Wind Slab");
    ("neige_fraiche", "New Snow");
    ("neige_humide", "Wet Snow");
    ("sous-couche", "Persistent Weak Layers");
    ("fond", "Glide Avalanches") ].

(** [translations[frenchType.toLowerCase()] || frenchType] *)
Definition translateProblemType (frenchType : string) : Member :=
  match member (toLowerCase frenchType) translations with
  | Some found => found
  | None => Text frenchType
  end.

Definition icons : list (string * string) :=
  [ ("neige_ventee", "💨");
    ("plaques", "💨");
    ("neige_fraiche", "❄️");
    ("neige_humide", "💧");
    ("sous-couche", "⚠️");
    ("fond", "🏔️") ].

(** [icons[type.toLowerCase()] || '⚠️'] *)
Definition getProblemIcon (type : string) : Member :=
  match member (toLowerCase type) icons with
  | Some found => found
  | None => Text "⚠️"
  end.

Definition translateText (text : string) : string :=
  let text := replaceAll_ci "risque fort" "high risk" text in
  let text := replaceAll_ci "risque marqué" "considerable risk" text in
  let text := replaceAll_ci "risque limité" "moderate risk" text in
  let text := replaceAll_ci "risque faible" "low risk" text in
  let text := replaceAll_ci "plaques" "slabs" text in
  let text := replaceAll_ci "accumulations" "accumulations" text in
  replaceAll_ci "versants" "slopes" text.

End Rev2.

(** ** Final revision: the risk-rule engine *)

(** A forecast measurement compared with a constant: [x > c]. *)
Definition exceeds (x : option Q) (c : Q) : bool :=
  match x with
  | Some q => negb (Qle_bool q c)
  | None => false
  end.

Definition estimateAvalancheRisk (snowfall windSpeed temp : option Q) : string :=
  let risk := "low" in
  let risk :=
    if exceeds snowfall 20 then "considerable"
    else if exceeds snowfall 10 then "moderate"
    else risk in
  let risk :=
    if exceeds windSpeed 40 then
      if (risk =? "moderate")%string then "considerable"
      else if (risk =? "low")%string then "moderate"
      else risk
    else risk in
  let risk :=
    if exceeds temp 0 && exceeds snowfall 5 then
      if (risk =? "low")%string then "moderate" else risk
    else risk in
  risk.

Definition summaries : list (Z * string) :=
  [ (1, "Low avalanche risk across all elevations. Snow is generally well bonded and stable. Natural avalanches are unlikely. Human-triggered avalanches are possible only in isolated areas on very steep terrain.");
    (2, "Moderate avalanche risk. Unstable snow exists in specific areas, particularly on steep slopes at higher elevations. Careful route selection and snowpack evaluation are recommended. Natural avalanches are unlikely, but human-triggered avalanches are possible.");
    (3, "Considerable avalanche risk. Dangerous avalanche conditions exist on many slopes, especially at higher elevations. Careful snowpack evaluation, cautious route-finding, and conservative decision-making are essential. Natural avalanches are possible, and human-triggered avalanches are likely in many areas.");
    (4, "High avalanche risk. Very dangerous avalanche conditions across most terrain. Natural and human-triggered avalanches are likely on many slopes. Travel in avalanche terrain should be avoided. Only experts with extensive experience should consider backcountry travel.");
    (5, "Very high avalanche risk. Extraordinary avalanche situation with widespread instability. Large natural avalanches are expected. All avalanche terrain should be avoided, regardless of experience level.") ].

Definition generateDetailedSummary (overall high low : number) : string :=
  let summary := entry_or_3 overall summaries in
  let summary :=
    if gt high low
    then summary ++ " Conditions are particularly dangerous at higher elevations (above 2500m) where the risk is elevated to level "
                 ++ toString high ++ "."
    else summary in
  summary ++ " Always check the official Météo-France bulletin before heading into the backcountry.".

Definition descriptions : list (Z * string) :=
  [ (1, "Generally safe conditions.");
    (2, "Heightened avalanche conditions on specific terrain features. Careful evaluation needed.");
    (3, "Dangerous avalanche conditions. Careful snowpack evaluation required.");
    (4, "Very dangerous conditions. Travel in avalanche terrain not recommended.");
    (5, "Extraordinary conditions. Avoid all avalanche terrain.") ].

Definition getRiskDescription (level : number) : string :=
  entry_or_3 level descriptions.

Definition generateElevationBands (highRisk lowRisk : number) : list ElevationBand :=
  [ {| elevation := "Above 2500m";
       risk := highRisk;
       aspects := if ge highRisk (Int 3) then ["N"; "NE"; "E"; "NW"] else ["N"; "NE"];
       description := getRiskDescription highRisk
                      ++ " Wind-loaded slopes and shaded aspects are most critical." |};
    {| elevation := "2000m - 2500m";
       risk := JS.max (sub highRisk (Int 1)) lowRisk;
       aspects := ["N"; "NE"; "E"];
       description := getRiskDescription (JS.max (sub highRisk (Int 1)) lowRisk)
                      ++ " Evaluate conditions carefully on steep north-facing terrain." |};
    {| elevation := "Below 2000m";
       risk := lowRisk;
       aspects := if ge lowRisk (Int 3) then ["All"] else ["S"; "SE"; "SW"];
       description := getRiskDescription lowRisk
                      ++ (if ge lowRisk (Int 2)
                          then " Warming temperatures may cause wet snow instabilities on sunny slopes."
                          else "") |} ].

Definition generateProblems (riskLevel : number) : list Problem :=
  let problems := [] in
  let problems :=
    if ge riskLevel (Int 2) then
      push problems
        {| type := "Wind Slab";
           severity := if ge riskLevel (Int 3) then "High" else "Moderate";
           distribution := if ge riskLevel (Int 3) then "Widespread above 2200m"
                           else "Specific lee slopes above 2500m";
           sensitivity := if ge riskLevel (Int 4) then "Very High - remote triggering possible"
                          else if ge riskLevel (Int 3) then "High - easily triggered by skiers"
                          else "Moderate - triggering possible with high additional load";
           icon := "💨" |}
    else problems in
  let problems :=
    if ge riskLevel (Int 3) then
      push problems
        {| type := "Persistent Weak Layers";
           severity := if ge riskLevel (Int 4) then "High" else "Moderate";
           distribution := "Specific aspects, particularly shaded slopes";
           sensitivity := if ge riskLevel (Int 4)
                          then "High - persistent problem requiring careful evaluation"
                          else "Moderate - identifiable with snowpack tests";
           icon := "⚠️" |}
    else problems in
  let problems :=
    if ge riskLevel (Int 2) then
      push problems
        {| type := "Wet Snow";
           severity := "Low to Moderate";
           distribution := "Sunny aspects below 2500m, especially in afternoon";
           sensitivity := "Increases with warming temperatures and solar radiation";
           icon := "💧" |}
    else problems in
  if (0 <? Z.of_nat (List.length problems)) then problems
  else [ {| type := "Generally stable conditions";
            severity := "Low";
            distribution := "Most terrain";
            sensitivity := "Low";
            icon := "✔" |} ].

Definition generateSnowpackInfo (riskLevel : number) : Snowpack :=
  {| recentSnow := if ge riskLevel (Int 3) then "Significant recent snowfall (20-40cm in last 48h)"
                   else if ge riskLevel (Int 2) then "Moderate recent snowfall (10-20cm)"
                   else "Minimal recent snowfall";
     totalDepth := "Depth varies by elevation: 180-220cm at 2500m, less at lower elevations";
     quality := if ge riskLevel (Int 3)
                then "Wind-affected and variable at higher elevations. Surface hoar and weak layers present in some areas."
                else if ge riskLevel (Int 2)
                then "Generally well-bonded with some wind effect at ridgelines"
                else "Well-consolidated and stable across most elevations" |}.

Definition generateWeatherInfo (riskLevel : number) : Weather :=
  {| forecast := if ge riskLevel (Int 3)
                 then "Unsettled conditions with periods of snowfall. Strong winds at altitude."
                 else if ge riskLevel (Int 2)
                 then "Variable conditions with occasional snow showers possible"
                 else "Generally stable weather with improving conditions";
     temperature := "Cold at altitude (-8°C to -12°C at 2500m). Gradual warming trend expected in coming days.";
     wind := if ge riskLevel (Int 3)
             then "Strong NW winds 60-80 km/h at ridgelines, causing significant snow transport"
             else if ge riskLevel (Int 2)
             then "Moderate winds 30-50 km/h, some snow transport at exposed areas"
             else "Light to moderate winds, minimal snow transport" |}.

Definition generateTendency (riskLevel : number) : string :=
  if ge riskLevel (Int 4) then
    "Risk will remain high over the next 24-48 hours. Gradual improvement expected after mid-week as snowfall decreases and snowpack begins to consolidate."
  else if ge riskLevel (Int 3) then
    "Risk will gradually decrease over the next 48 hours as new snow consolidates and winds diminish. Continue to exercise caution and monitor conditions closely."
  else if ge riskLevel (Int 2) then
    "Conditions expected to gradually improve as recent snow stabilizes. Continued monitoring recommended, especially on steep shaded slopes."
  else
    "Conditions expected to remain generally stable. Standard precautions apply for backcountry travel.".

Definition day_ms : Z := 24 * 60 * 60 * 1000.

(** [getFallbackBulletin()], reading the clock at [now]. *)
Definition getFallbackBulletin (now : Z) : Bulletin :=
  {| massif := "Vanoise";
     updateTime := now;
     validUntil := DateOfInstant (now + day_ms);
     overallRisk := Int 3;
     summary := "Unable to fetch current data from Météo-France. Please visit the official bulletin for today's avalanche forecast. As a general guideline, exercise considerable caution in the backcountry.";
     elevationBands := generateElevationBands (Int 3) (Int 2);
     problems := generateProblems (Int 3);
     snowpack := {| recentSnow := "Check Météo-France for current snowfall data";
                    totalDepth := "Variable by location and elevation";
                    quality := "Refer to official bulletin for snowpack analysis" |};
     weather := {| forecast := "See Météo-France for current mountain weather forecast";
                   temperature := "Refer to official forecast";
                   wind := "Check current conditions on Météo-France" |};
     tendency := "Monitor daily bulletins from Météo-France for trend information";
     source := "https://meteofrance.com/meteo-montagne/alpes-du-nord/risques-avalanche";
     dataSource := "Fallback - Unable to connect to Météo-France";
     bulletin_error := Some "Connection to Météo-France failed. Please check the official bulletin.";
     bulletin_note := Some "⚠️ This is fallback data. Always consult the official Météo-France bulletin before backcountry travel." |}.

(** ** Final revision: the freshness cache *)

Definition CACHE_DURATION : Z := 6 * 60 * 60 * 1000.

(** One slot of [cache].  [cacheKey] exists only on the forecast slot once
    it has been written; elsewhere the property is [undefined]. *)
Record CacheEntry (A : Type) : Type := {
  data : option A;
  timestamp : option Z;
  cacheKey : option string
}.

Arguments data {A} _.
Arguments timestamp {A} _.
Arguments cacheKey {A} _.

Definition emptyEntry {A : Type} : CacheEntry A :=
  {| data := None; timestamp := None; cacheKey := None |}.

(** [!x] for a payload (an object or [null]) and for a time stamp (a number
    or [null]): zero is falsy like [null]. *)
Definition not_data {A : Type} (d : option A) : bool :=
  match d with
  | Some _ => false
  | None => true
  end.

Definition not_timestamp (t : option Z) : bool :=
  match t with
  | Some t => t =? 0
  | None => true
  end.

(** [isCacheValid(cacheEntry)], with [Date.now()] reading [now]. *)
Definition isCacheValid {A : Type} (now : Z) (cacheEntry : CacheEntry A) : bool :=
  if not_data (data cacheEntry) || not_timestamp (timestamp cacheEntry) then false
  else
    match timestamp cacheEntry with
    | Some t => now - t <? CACHE_DURATION
    | None => false
    end.

(** ** Final revision: the world a handler runs in *)

(** What cheerio reads in the bulletin document:
    [$('RISQUE').attr('LOC1')], [$('RISQUE').attr('LOC2')] ([None] for
    [undefined]) and [$('DateValidite').text()] (empty when absent). *)
Record BRA : Type := {
  LOC1 : option string;
  LOC2 : option string;
  DateValidite : string
}.

(** The answer to one [axios.get]: the promise rejects (network error,
    HTTP error status, or the 10000 ms timeout) or resolves with a
    document, [latency] milliseconds after the request. *)
Inductive Reply (D : Type) : Type :=
| Rejects (latency : N) (message : string)
| Resolves (latency : N) (document : D).

Arguments Rejects {D} _ _.
Arguments Resolves {D} _ _.

Inductive Outbound : Type :=
| GET_BRA_VANOISE_xml
| GET_open_meteo_forecast (latitude longitude : string) (forecast_days : number).

Record Query : Type := {
  lat : option string;
  lon : option string;
  days : option string
}.

Inductive Request : Type :=
| GET_avalanche_vanoise
| GET_warnings_savoie
| GET_forecast_extended (query : Query)
| GET_health
| GET_root.

(** Outcome of running a piece of JavaScript: a value, or an exception,
    kept as its [message]. *)
Inductive Result (A : Type) : Type :=
| Ok (a : A)
| Throw (message : string).

Arguments Ok {A} _.
Arguments Throw {A} _.

Section Server.

(** The forecast endpoint passes an Open-Meteo document through a
    reshaping loop that lies outside the specified core: the document, the
    reshaped resource and the loop are parameters.  [reshape latitude
    longitude forecastDays now data] is the block from
    [const data = response.data] to the construction of [forecastData]; it
    may throw (a [TypeError] on a document without the expected arrays). *)
Context {OpenMeteo ForecastData : Type}.
Variable reshape : string -> string -> number -> Z -> OpenMeteo -> Result ForecastData.

Record Cache : Type := {
  avalanche : CacheEntry Bulletin;
  warnings : CacheEntry WarningsResource;
  extendedForecast : CacheEntry ForecastData
}.

Record World : Type := {
  cache : Cache;
  clock : Z;
  meteoFrance : list (Reply BRA);
  openMeteo : list (Reply OpenMeteo);
  outbound : list Outbound
}.

(** The process at start-up. *)
Definition boot (clock0 : Z) (bra : list (Reply BRA)) (om : list (Reply OpenMeteo)) : World :=
  {| cache := {| avalanche := emptyEntry; warnings := emptyEntry;
                 extendedForecast := emptyEntry |};
     clock := clock0;
     meteoFrance := bra;
     openMeteo := om;
     outbound := [] |}.

Definition tick (elapsed : N) (w : World) : World :=
  {| cache := cache w; clock := clock w + Z.of_N elapsed;
     meteoFrance := meteoFrance w; openMeteo := openMeteo w;
     outbound := outbound w |}.

Definition M (A : Type) : Type := World -> Result A * World.

Definition ret {A : Type} (a : A) : M A :=
  fun w => (Ok a, w).

Definition bind {A B : Type} (m : M A) (k : A -> M B) : M B :=
  fun w =>
    match m w with
    | (Ok a, w') => k a w'
    | (Throw e, w') => (Throw e, w')
    end.

Definition throw {A : Type} (message : string) : M A :=
  fun w => (Throw message, w).

(** [try { body } catch (error) { handler }] *)
Definition try_catch {A : Type} (body : M A) (handler : string -> M A) : M A :=
  fun w =>
    match body w with
    | (Ok a, w') => (Ok a, w')
    | (Throw e, w') => handler e w'
    end.

Notation "x <- m ;; k" := (bind m (fun x => k))
  (at level 61, m at next level, right associativity).
Notation "m ;;; k" := (bind m (fun _ => k))
  (at level 61, right associativity).

Definition Date_now : M Z :=
  fun w => (Ok (clock w), w).

Definition readCache : M Cache :=
  fun w => (Ok (cache w), w).

Definition writeCache (update : Cache -> Cache) : M unit :=
  fun w =>
    (Ok tt,
     {| cache := update (cache w); clock := clock w;
        meteoFrance := meteoFrance w; openMeteo := openMeteo w;
        outbound := outbound w |}).

Definition set_avalanche (e : CacheEntry Bulletin) (c : Cache) : Cache :=
  {| avalanche := e; warnings := warnings c; extendedForecast := extendedForecast c |}.

Definition set_warnings (e : CacheEntry WarningsResource) (c : Cache) : Cache :=
  {| avalanche := avalanche c; warnings := e; extendedForecast := extendedForecast c |}.

Definition set_extendedForecast (e : CacheEntry ForecastData) (c : Cache) : Cache :=
  {| avalanche := avalanche c; warnings := warnings c; extendedForecast := e |}.

(** Settling of an awaited request: the time it took and its outcome.  A
    request for which no reply is scripted fails at once. *)
Definition settle {D : Type} (replies : list (Reply D)) : N * Result D * list (Reply D) :=
  match replies with
  | [] => (0%N, Throw "Network Error", [])
  | Rejects latency message :: rest => (latency, Throw message, rest)
  | Resolves latency document :: rest => (latency, Ok document, rest)
  end.

(** [await axios.get('https://donneespubliques.meteofrance.fr/.../BRA.VANOISE.xml', ...)]
    followed by [cheerio.load(apiResponse.data, { xmlMode: true })]. *)
Definition axios_get_BRA : M BRA :=
  fun w =>
    let '(latency, outcome, rest) := settle (meteoFrance w) in
    (outcome,
     {| cache := cache w; clock := clock w + Z.of_N latency;
        meteoFrance := rest; openMeteo := openMeteo w;
        outbound := push (outbound w) GET_BRA_VANOISE_xml |}).

(** [await axios.get('https://api.open-meteo.com/v1/forecast', { params, timeout })] *)
Definition axios_get_open_meteo (latitude longitude : string) (forecast_days : number)
  : M OpenMeteo :=
  fun w =>
    let '(latency, outcome, rest) := settle (openMeteo w) in
    (outcome,
     {| cache := cache w; clock := clock w + Z.of_N latency;
        meteoFrance := meteoFrance w; openMeteo := rest;
        outbound := push (outbound w)
                      (GET_open_meteo_forecast latitude longitude forecast_days) |}).

(** Lifting of a synchronous computation that may throw. *)
Definition lift {A : Type} (r : Result A) : M A :=
  fun w => (r, w).

(** ** Final revision: responses *)

Inductive Json : Type :=
| JNull
| JBulletin (bulletin : Bulletin)
| JWarnings (warnings : WarningsResource)
| JForecast (forecastData : ForecastData)
| JError (error message : string)
| JHealth (timestamp : Z) (avalanche warnings extendedForecast : option Z)
| JRoot.

Record Response : Type := {
  status : Z;
  body : Json
}.

(** [res.json(x)] answers with status 200. *)
Definition res_json (x : Json) : Response :=
  {| status := 200; body := x |}.

(** [res.status(code).json(x)] *)
Definition res_status_json (code : Z) (x : Json) : Response :=
  {| status := code; body := x |}.

Definition orNull {A : Type} (inject : A -> Json) (d : option A) : Json :=
  match d with
  | Some a => inject a
  | None => JNull
  end.

(** ** Final revision: the endpoints *)

(** [app.get('/api/forecast/extended', ...)] *)
Definition get_api_forecast_extended (query : Query) : M Response :=
  try_catch
    (let latitude := or_string (lat query) "45.4" in
     let longitude := or_string (lon query) "6.57" in
     let forecastDays := JS.min (JS.or (parseInt_opt (days query)) (Int 7)) (Int 16) in
     let key := latitude ++ "_" ++ longitude ++ "_" ++ toString forecastDays in
     c <- readCache ;;
     now <- Date_now ;;
     if isCacheValid now (extendedForecast c)
        && match cacheKey (extendedForecast c) with
           | Some k => (k =? key)%string
           | None => false
           end
     then ret (res_json (orNull JForecast (data (extendedForecast c))))
     else
       (data <- axios_get_open_meteo latitude longitude forecastDays ;;
        now <- Date_now ;;
        forecastData <- lift (reshape latitude longitude forecastDays now data) ;;
        writeCache (set_extendedForecast
                      {| data := Some forecastData; timestamp := Some now;
                         cacheKey := Some key |}) ;;;
        ret (res_json (JForecast forecastData))))
    (fun error =>
       ret (res_status_json 500 (JError "Failed to fetch extended forecast" error))).

(** [app.get('/api/avalanche/vanoise', ...)] *)
Definition get_api_avalanche_vanoise : M Response :=
  try_catch
    (c <- readCache ;;
     now <- Date_now ;;
     if isCacheValid now (avalanche c)
     then ret (res_json (orNull JBulletin (data (avalanche c))))
     else
       try_catch
         (xml <- axios_get_BRA ;;
          let loc1 := parseInt (or_string (LOC1 xml) "3") in
          let loc2 := parseInt (or_string (LOC2 xml) "2") in
          let overallRisk := JS.max loc1 loc2 in
          let dateValidite := DateValidite xml in
          now <- Date_now ;;
          let validUntil :=
            match dateValidite with
            | String _ _ => DateOfText dateValidite
            | EmptyString => DateOfInstant (now + day_ms)
            end in
          let bulletin :=
            {| massif := "Vanoise";
               updateTime := now;
               validUntil := validUntil;
               overallRisk := overallRisk;
               summary := generateDetailedSummary overallRisk loc1 loc2;
               elevationBands := generateElevationBands loc1 loc2;
               problems := generateProblems overallRisk;
               snowpack := generateSnowpackInfo overallRisk;
               weather := generateWeatherInfo overallRisk;
               tendency := generateTendency overallRisk;
               source := "https://meteofrance.com/meteo-montagne/alpes-du-nord/risques-avalanche";
               dataSource := "Météo-France XML (Risk levels) + Enhanced descriptions";
               bulletin_error := None;
               bulletin_note := Some "Risk levels from Météo-France. Visit the official bulletin for complete details including snowpack analysis and weather forecast." |} in
          writeCache (set_avalanche
                        {| data := Some bulletin; timestamp := Some now;
                           cacheKey := None |}) ;;;
          ret (res_json (JBulletin bulletin)))
         (fun error => throw error))
    (fun error =>
       now <- Date_now ;;
       let fallback := getFallbackBulletin now in
       ret (res_json (JBulletin fallback))).

(** [app.get('/api/warnings/savoie', ...)] *)
Definition get_api_warnings_savoie : M Response :=
  try_catch
    (c <- readCache ;;
     now <- Date_now ;;
     if isCacheValid now (warnings c)
     then ret (res_json (orNull JWarnings (data (warnings c))))
     else
       (let warnings :=
          {| department := "Savoie";
             warnings_updateTime := now;
             alerts := [];
             warnings_source := "https://vigilance.meteofrance.fr/fr/savoie";
             warnings_note := Some "Check Météo-France Vigilance for current weather warnings" |} in
        writeCache (set_warnings
                      {| data := Some warnings; timestamp := Some now;
                         cacheKey := None |}) ;;;
        ret (res_json (JWarnings warnings))))
    (fun error =>
       now <- Date_now ;;
       ret (res_json (JWarnings
              {| department := "Savoie";
                 warnings_updateTime := now;
                 alerts := [];
                 warnings_source := "https://vigilance.meteofrance.fr/fr/savoie";
                 warnings_note := None |}))).

(** [t ? new Date(t).toISOString() : null] *)
Definition isoOrNull (t : option Z) : option Z :=
  if not_timestamp t then None else t.

(** [app.get('/api/health', ...)] *)
Definition get_api_health : M Response :=
  c <- readCache ;;
  now <- Date_now ;;
  ret (res_json (JHealth now
                   (isoOrNull (timestamp (avalanche c)))
                   (isoOrNull (timestamp (warnings c)))
                   (isoOrNull (timestamp (extendedForecast c))))).

(** [app.get('/', ...)] *)
Definition get_root : M Response :=
  ret (res_json JRoot).

Definition handle (request : Request) : M Response :=
  match request with
  | GET_avalanche_vanoise => get_api_avalanche_vanoise
  | GET_warnings_savoie => get_api_warnings_savoie
  | GET_forecast_extended query => get_api_forecast_extended query
  | GET_health => get_api_health
  | GET_root => get_root
  end.

(** The server handling requests one after the other, each arriving
    [delay] milliseconds after the previous response. *)
Fixpoint run (requests : list (N * Request)) (w : World)
  : list (Request * Result Response) * World :=
  match requests with
  | [] => ([], w)
  | (delay, request) :: rest =>
      let '(result, w1) := handle request (tick delay w) in
      let '(results, w2) := run rest w1 in
      ((request, result) :: results, w2)
  end.

(** ** Vocabulary of the properties of the server *)

(** The key under which the forecast for a query is cached. *)
Definition forecastDaysOf (query : Query) : number :=
  JS.min (JS.or (parseInt_opt (days query)) (Int 7)) (Int 16).

Definition cacheKeyOf (query : Query) : string :=
  or_string (lat query) "45.4" ++ "_" ++ or_string (lon query) "6.57" ++ "_"
  ++ toString (forecastDaysOf query).

Definition forecastHit (query : Query) (w : World) : bool :=
  isCacheValid (clock w) (extendedForecast (cache w))
  && match cacheKey (extendedForecast (cache w)) with
     | Some k => (k =? cacheKeyOf query)%string
     | None => false
     end.

Definition axios_get_forecast (query : Query) : M OpenMeteo :=
  axios_get_open_meteo
    (or_string (lat query) "45.4") (or_string (lon query) "6.57") (forecastDaysOf query).

(** A response that signals failure in its payload: a bulletin carrying an
    [error] text, or the forecast endpoint's error body. *)
Definition degraded (r : Response) : bool :=
  match body r with
  | JBulletin b => match bulletin_error b with Some _ => true | None => false end
  | JError _ _ => true
  | _ => false
  end.

(** The time stamp of the cache slot an endpoint consults. *)
Definition slotTimestamp (request : Request) (c : Cache) : option Z :=
  match request with
  | GET_avalanche_vanoise => timestamp (avalanche c)
  | GET_warnings_savoie => timestamp (warnings c)
  | GET_forecast_extended _ => timestamp (extendedForecast c)
  | GET_health | GET_root => None
  end.

(** Whatever warnings resource the cache holds has no alerts. *)
Definition noAlertsCached (c : Cache) : Prop :=
  forall r, data (warnings c) = Some r -> alerts r = [].

Definition warningsWithoutAlerts (entry : Request * Result Response) : Prop :=
  match entry with
  | (GET_warnings_savoie, result) =>
      exists r, result = Ok {| status := 200; body := JWarnings r |} /\ alerts r = []
  | _ => True
  end.

(** ** Vocabulary of the further properties of the server *)

(** A slot as the handlers leave it: empty, or holding a payload stamped
    between the start of the process and now.  [keyed] tells whether the
    slot carries a [cacheKey] once written. *)
Definition slotWritten {A : Type} (keyed : bool) (start now : Z) (e : CacheEntry A)
  : Prop :=
  match data e, timestamp e with
  | None, None => cacheKey e = None
  | Some _, Some t =>
      start <= t <= now /\
      (if keyed then cacheKey e <> None else cacheKey e = None)
  | _, _ => False
  end.

Definition worldSound (start : Z) (w : World) : Prop :=
  start <= clock w /\
  slotWritten false start (clock w) (avalanche (cache w)) /\
  slotWritten false start (clock w) (warnings (cache w)) /\
  slotWritten true start (clock w) (extendedForecast (cache w)).

(** The endpoints that have an upstream service. *)
Definition hasUpstream (request : Request) : bool :=
  match request with
  | GET_avalanche_vanoise | GET_forecast_extended _ => true
  | GET_warnings_savoie | GET_health | GET_root => false
  end.

(** A bulletin laid out by the final revision: its bands and its overall
    risk come from one pair of zone risks, the high one a double, its
    problems from the overall risk. *)
Definition bulletinShaped (b : Bulletin) : Prop :=
  exists high low,
    isDouble high = true /\
    overallRisk b = JS.max high low /\
    elevationBands b = generateElevationBands high low /\
    problems b = generateProblems (overallRisk b).

(** Whatever bulletin the cache holds is laid out so. *)
Definition cachedShaped (c : Cache) : Prop :=
  forall b, data (avalanche c) = Some b -> bulletinShaped b.

(** What a reader of a bulletin can rely on: the three bands, at least
    one problem, and an overall risk that is the highest band risk (or not
    a number, with a band risk that is not a number either). *)
Definition bulletinCoherent (b : Bulletin) : Prop :=
  map elevation (elevationBands b) = ["Above 2500m"; "2000m - 2500m"; "Below 2000m"] /\
  problems b <> [] /\
  match overallRisk b with
  | NaN => In NaN (map risk (elevationBands b))
  | overall =>
      Forall (fun r => ge overall r = true) (map risk (elevationBands b)) /\
      In overall (map risk (elevationBands b))
  end.

Definition avalancheAnswerCoherent (entry : Request * Result Response) : Prop :=
  match entry with
  | (GET_avalanche_vanoise, result) =>
      exists b, result = Ok {| status := 200; body := JBulletin b |} /\
                bulletinCoherent b
  | _ => True
  end.

End Server.

Arguments Cache : clear implicits.
Arguments World : clear implicits.
Arguments Json : clear implicits.
Arguments Response : clear implicits.

(** ** Second revision: the server *)

Module Rev2Server.

Import Rev2.

(** [validUntil] as the second revision fills it: the text of the
    document as found, or an instant rendered by [toISOString()] or by
    [toLocaleDateString('en-GB')]. *)
Inductive ValidUntil : Type :=
| Verbatim (text : string)
| IsoOfInstant (ms : Z)
| LocaleOfInstant (ms : Z).

Record Bulletin : Type := {
  massif : string;
  updateTime : Z;
  validUntil : ValidUntil;
  overallRisk : number;
  summary : string;
  elevationBands : list ElevationBand;
  problems : list Problem;
  snowpack : Snowpack;
  weather : Weather;
  tendency : string;
  source : string;
  dataSource : string;
  error : option string;
  isMockData : bool
}.

Record Warnings : Type := {
  resource : WarningsResource;
  warnings_isMockData : bool
}.

(** What cheerio reads in the bulletin document: the two attributes of
    [RISQUE], the text of each [TypeAvalanche] element, and the text of the
    other elements (empty when absent). *)
Record Xml : Type := {
  LOC1 : option string;
  LOC2 : option string;
  DateValidite : string;
  RisqueComment : string;
  TypeAvalanche : list string;
  NeigeFraiche24h : string;
  Enneigement : string;
  QualiteNeige : string;
  PrevisionMeteo : string;
  Temperature : string;
  Vent : string;
  TendanceComment : string
}.

(** What cheerio reads in the web page: the text of the nodes matching
    ['.risk-level, .risque, [class*="risque"]'], and the trimmed text of
    the first node matching ['.resume, .synthesis, [class*="resume"]']. *)
Record WebPage : Type := {
  riskNodes : string;
  resume : string
}.

(** One node matching ['.alert, .vigilance-item, [class*="vigilance"]']:
    the trimmed text of its title nodes, its [data-level] attribute, the
    trimmed text of its description nodes. *)
Record AlertNode : Type := {
  node_title : string;
  node_level : option string;
  node_description : string
}.

Inductive Outbound : Type :=
| GET_BRA_VANOISE_xml
| GET_risques_avalanche
| GET_vigilance_savoie.

Record Cache : Type := {
  avalanche : CacheEntry Bulletin;
  warnings : CacheEntry Warnings
}.

Record World : Type := {
  cache : Cache;
  clock : Z;
  bulletinService : list (Reply Xml);
  webSite : list (Reply WebPage);
  vigilance : list (Reply (list AlertNode));
  outbound : list Outbound
}.

Definition boot (clock0 : Z) (xml : list (Reply Xml)) (web : list (Reply WebPage))
    (vig : list (Reply (list AlertNode))) : World :=
  {| cache := {| avalanche := emptyEntry; warnings := emptyEntry |};
     clock := clock0; bulletinService := xml; webSite := web; vigilance := vig;
     outbound := [] |}.

Definition tick (elapsed : N) (w : World) : World :=
  {| cache := cache w; clock := clock w + Z.of_N elapsed;
     bulletinService := bulletinService w; webSite := webSite w;
     vigilance := vigilance w; outbound := outbound w |}.

Definition M (A : Type) : Type := World -> Result A * World.

Definition ret {A : Type} (a : A) : M A :=
  fun w => (Ok a, w).

Definition bind {A B : Type} (m : M A) (k : A -> M B) : M B :=
  fun w =>
    match m w with
    | (Ok a, w') => k a w'
    | (Throw e, w') => (Throw e, w')
    end.

Definition try_catch {A : Type} (body : M A) (handler : string -> M A) : M A :=
  fun w =>
    match body w with
    | (Ok a, w') => (Ok a, w')
    | (Throw e, w') => handler e w'
    end.

Notation "x <- m ;; k" := (bind m (fun x => k))
  (at level 61, m at next level, right associativity).
Notation "m ;;; k" := (bind m (fun _ => k))
  (at level 61, right associativity).

Definition Date_now : M Z :=
  fun w => (Ok (clock w), w).

Definition readCache : M Cache :=
  fun w => (Ok (cache w), w).

Definition writeCache (update : Cache -> Cache) : M unit :=
  fun w =>
    (Ok tt,
     {| cache := update (cache w); clock := clock w;
        bulletinService := bulletinService w; webSite := webSite w;
        vigilance := vigilance w; outbound := outbound w |}).

Definition set_avalanche (e : CacheEntry Bulletin) (c : Cache) : Cache :=
  {| avalanche := e; warnings := warnings c |}.

Definition set_warnings (e : CacheEntry Warnings) (c : Cache) : Cache :=
  {| avalanche := avalanche c; warnings := e |}.

(** Settling of an awaited request, as in the final revision. *)
Definition settle {D : Type} (replies : list (Reply D)) : N * Result D * list (Reply D) :=
  match replies with
  | [] => (0%N, Throw "Network Error", [])
  | Rejects latency message :: rest => (latency, Throw message, rest)
  | Resolves latency document :: rest => (latency, Ok document, rest)
  end.

Definition axios_get_xml : M Xml :=
  fun w =>
    let '(latency, outcome, rest) := settle (bulletinService w) in
    (outcome,
     {| cache := cache w; clock := clock w + Z.of_N latency;
        bulletinService := rest; webSite := webSite w; vigilance := vigilance w;
        outbound := push (outbound w) GET_BRA_VANOISE_xml |}).

Definition axios_get_web : M WebPage :=
  fun w =>
    let '(latency, outcome, rest) := settle (webSite w) in
    (outcome,
     {| cache := cache w; clock := clock w + Z.of_N latency;
        bulletinService := bulletinService w; webSite := rest;
        vigilance := vigilance w;
        outbound := push (outbound w) GET_risques_avalanche |}).

Definition axios_get_vigilance : M (list AlertNode) :=
  fun w =>
    let '(latency, outcome, rest) := settle (vigilance w) in
    (outcome,
     {| cache := cache w; clock := clock w + Z.of_N latency;
        bulletinService := bulletinService w; webSite := webSite w;
        vigilance := rest;
        outbound := push (outbound w) GET_vigilance_savoie |}).

(** [text || fallback] for a text read in a document. *)
Definition orElse (text fallback : string) : string :=
  or_string (Some text) fallback.

Definition extractSnowpackInfo (xml : Xml) : Snowpack :=
  let enneigement := Enneigement xml in
  let qualite := QualiteNeige xml in
  {| recentSnow := orElse (NeigeFraiche24h xml) "See current conditions";
     totalDepth := orElse enneigement "Variable by elevation";
     quality := orElse qualite "Wind affected at altitude" |}.

Definition extractWeatherInfo (xml : Xml) : Weather :=
  {| forecast := orElse (PrevisionMeteo xml) "Check Météo-France for current forecast";
     temperature := orElse (Temperature xml) "Variable";
     wind := orElse (Vent xml) "Check current conditions" |}.

(** [parseMeteoFranceXML($)], reading the clock at [now].  Nothing in it
    throws, so its [try]/[catch] is left out. *)
Definition parseMeteoFranceXML (now : Z) (xml : Xml) : Bulletin :=
  let riskLevel := parseInt (or_string (LOC1 xml) "3") in
  let dateValidite :=
    match DateValidite xml with
    | String _ _ => Verbatim (DateValidite xml)
    | EmptyString => IsoOfInstant now
    end in
  let risqueComment := orElse (RisqueComment xml) "" in
  let loc1 := parseInt (or_string (LOC1 xml) "3") in
  let loc2 := parseInt (or_string (LOC2 xml) "2") in
  let elevationBands :=
    [ {| elevation := "Above 2500m";
         risk := loc1;
         aspects := ["N"; "NE"; "E"; "NW"];
         description := translateRiskDescription loc1 |};
      {| elevation := "2000m - 2500m";
         risk := JS.max (sub loc1 (Int 1)) loc2;
         aspects := ["N"; "NE"; "E"];
         description := translateRiskDescription (JS.max (sub loc1 (Int 1)) loc2) |};
      {| elevation := "Below 2000m";
         risk := loc2;
         aspects := ["S"; "SE"; "SW"; "W"];
         description := translateRiskDescription loc2 |} ] in
  let problems :=
    map (fun type =>
           {| type := translateProblemType type;
              severity := if ge riskLevel (Int 3) then "High" else "Moderate";
              distribution := if ge riskLevel (Int 4) then "Widespread" else "Specific areas";
              sensitivity := if ge riskLevel (Int 3) then "High - easily triggered"
                             else "Moderate";
              icon := getProblemIcon type |})
        (TypeAvalanche xml) in
  let problems :=
    if (Z.of_nat (List.length problems) =? 0)
    then if ge riskLevel (Int 3)
         then push problems
                {| type := Text "Wind Slab";
                   severity := "High";
                   distribution := "Widespread above 2200m";
                   sensitivity := "High - easily triggered";
                   icon := Text "💨" |}
         else problems
    else problems in
  {| massif := "Vanoise";
     updateTime := now;
     validUntil := dateValidite;
     overallRisk := riskLevel;
     summary := orElse risqueComment (generateSummary riskLevel);
     elevationBands := elevationBands;
     problems := if (0 <? Z.of_nat (List.length problems)) then problems
                 else getDefaultProblems riskLevel;
     snowpack := extractSnowpackInfo xml;
     weather := extractWeatherInfo xml;
     tendency := orElse (TendanceComment xml) "Conditions expected to stabilize gradually";
     source := "https://meteofrance.com/meteo-montagne/alpes-du-nord/risques-avalanche";
     dataSource := "Météo-France XML";
     error := None;
     isMockData := false |}.

(** [scrapeMeteoFranceWeb($)], reading the clock at [now]; its
    [try]/[catch] is left out for the same reason. *)
Definition scrapeMeteoFranceWeb (now : Z) (page : WebPage) : Bulletin :=
  let riskLevel := scrapeMeteoFranceWeb_riskLevel (riskNodes page) in
  let summary := orElse (resume page) (generateSummary riskLevel) in
  {| massif := "Vanoise";
     updateTime := now;
     validUntil := LocaleOfInstant (now + day_ms);
     overallRisk := riskLevel;
     summary := orElse (translateText summary) (generateSummary riskLevel);
     elevationBands := getDefaultElevationBands riskLevel;
     problems := getDefaultProblems riskLevel;
     snowpack := {| recentSnow := "Check Météo-France for details";
                    totalDepth := "Variable by elevation";
                    quality := "Wind affected at altitude" |};
     weather := {| forecast := "See Météo-France for current forecast";
                   temperature := "Variable";
                   wind := "Check current conditions" |};
     tendency := "Monitor daily updates from Météo-France";
     source := "https://meteofrance.com/meteo-montagne/alpes-du-nord/risques-avalanche";
     dataSource := "Météo-France Web Scraping";
     error := None;
     isMockData := false |}.

Definition getMockAvalancheBulletin (now : Z) : Bulletin :=
  {| massif := "Vanoise";
     updateTime := now;
     validUntil := LocaleOfInstant (now + day_ms);
     overallRisk := Int 3;
     summary := "Recent snowfall and wind transport have created unstable wind slabs above 2200m. Natural and human-triggered avalanches are possible on steep slopes. Persistent weak layers exist in shadowed aspects.";
     elevationBands := getDefaultElevationBands (Int 3);
     problems := getDefaultProblems (Int 3);
     snowpack := {| recentSnow := "30 cm in last 48 hours";
                    totalDepth := "185 cm at 2500m";
                    quality := "Wind affected above 2200m, powder in sheltered areas" |};
     weather := {| forecast := "Light snow showers continuing. Strong NW winds decreasing.";
                   temperature := "Cold at altitude, slight warming trend from tomorrow";
                   wind := "NW 60-80 km/h at ridges, decreasing to 40-50 km/h" |};
     tendency := "Risk will gradually decrease over next 48 hours as snowpack consolidates and winds decrease.";
     source := "https://meteofrance.com/meteo-montagne/alpes-du-nord/risques-avalanche";
     dataSource := "Mock Data (Scraping Failed)";
     error := None;
     isMockData := true |}.

(** [mockData.error = message] *)
Definition set_error (message : string) (b : Bulletin) : Bulletin :=
  {| massif := massif b; updateTime := updateTime b; validUntil := validUntil b;
     overallRisk := overallRisk b; summary := summary b;
     elevationBands := elevationBands b; problems := problems b;
     snowpack := snowpack b; weather := weather b; tendency := tendency b;
     source := source b; dataSource := dataSource b;
     error := Some message; isMockData := isMockData b |}.

Definition getMockWeatherWarnings (now : Z) : Warnings :=
  {| resource := {| department := "Savoie";
                    warnings_updateTime := now;
                    alerts := [];
                    warnings_source := "https://vigilance.meteofrance.fr/fr/savoie";
                    warnings_note := None |};
     warnings_isMockData := true |}.

Inductive Json : Type :=
| JNull
| JBulletin (bulletin : Bulletin)
| JWarnings (warnings : Warnings).

Record Response : Type := {
  status : Z;
  body : Json
}.

Definition res_json (x : Json) : Response :=
  {| status := 200; body := x |}.

Definition orNull {A : Type} (inject : A -> Json) (d : option A) : Json :=
  match d with
  | Some a => inject a
  | None => JNull
  end.

(** [app.get('/api/avalanche/vanoise', ...)] of the second revision *)
Definition get_api_avalanche_vanoise : M Response :=
  try_catch
    (c <- readCache ;;
     now <- Date_now ;;
     if isCacheValid now (avalanche c)
     then ret (res_json (orNull JBulletin (data (avalanche c))))
     else
       try_catch
         (xml <- axios_get_xml ;;
          now <- Date_now ;;
          let bulletin := parseMeteoFranceXML now xml in
          writeCache (set_avalanche
                        {| data := Some bulletin; timestamp := Some now;
                           cacheKey := None |}) ;;;
          ret (res_json (JBulletin bulletin)))
         (fun xmlError =>
            page <- axios_get_web ;;
            now <- Date_now ;;
            let bulletin := scrapeMeteoFranceWeb now page in
            writeCache (set_avalanche
                          {| data := Some bulletin; timestamp := Some now;
                             cacheKey := None |}) ;;;
            ret (res_json (JBulletin bulletin))))
    (fun error =>
       now <- Date_now ;;
       let mockData := getMockAvalancheBulletin now in
       let mockData :=
         set_error "Using mock data - scraping temporarily unavailable" mockData in
       ret (res_json (JBulletin mockData))).

(** The loop over the alert nodes: a node with a title gives an alert. *)
Definition scrapeAlerts (nodes : list AlertNode) : list Alert :=
  flat_map
    (fun elem =>
       let title := node_title elem in
       let level := or_string (node_level elem) "orange" in
       match title with
       | String _ _ =>
           [ {| alert_type := "avalanche";
                level := level;
                levelNumber := 3;
                title := title;
                alert_description :=
                  orElse (node_description elem) "Check Météo-France for details" |} ]
       | EmptyString => []
       end)
    nodes.

(** [app.get('/api/warnings/savoie', ...)] of the second revision *)
Definition get_api_warnings_savoie : M Response :=
  try_catch
    (c <- readCache ;;
     now <- Date_now ;;
     if isCacheValid now (warnings c)
     then ret (res_json (orNull JWarnings (data (warnings c))))
     else
       (nodes <- axios_get_vigilance ;;
        let alerts := scrapeAlerts nodes in
        now <- Date_now ;;
        let warnings :=
          {| resource :=
               {| department := "Savoie";
                  warnings_updateTime := now;
                  alerts := if (0 <? Z.of_nat (List.length alerts)) then alerts
                            else [ {| alert_type := "avalanche";
                                      level := "orange";
                                      levelNumber := 3;
                                      title := "Avalanche Risk - Level 3";
                                      alert_description := "Considerable avalanche risk in mountain areas. Check Météo-France for current details." |} ];
                  warnings_source := "https://vigilance.meteofrance.fr/fr/savoie";
                  warnings_note := None |};
             warnings_isMockData := false |} in
        writeCache (set_warnings
                      {| data := Some warnings; timestamp := Some now;
                         cacheKey := None |}) ;;;
        ret (res_json (JWarnings warnings))))
    (fun error =>
       now <- Date_now ;;
       ret (res_json (JWarnings (getMockWeatherWarnings now)))).

(** Vocabulary of the properties: a node that yields an alert, and the
    alert every alert looks like. *)
Definition hasTitle (elem : AlertNode) : bool :=
  match node_title elem with
  | String _ _ => true
  | EmptyString => false
  end.

Definition avalancheAlert (a : Alert) : Prop :=
  alert_type a = "avalanche" /\ levelNumber a = 3 /\ title a <> "".

(** Sample documents and worlds. *)
Definition sampleXml : Xml :=
  {| LOC1 := Some "2"; LOC2 := Some "3";
     DateValidite := "2025-01-15T16:00:00";
     RisqueComment := "";
     TypeAvalanche := ["plaques"; "Neige_Humide"];
     NeigeFraiche24h := ""; Enneigement := ""; QualiteNeige := "";
     PrevisionMeteo := ""; Temperature := ""; Vent := "";
     TendanceComment := "" |}.

Definition samplePage : WebPage :=
  {| riskNodes := "Risque marqué"; resume := "Plaques sur les versants nord" |}.

(** The bulletin service is down, the web site answers. *)
Definition xmlDown : World :=
  boot 1700000000000
    [ Rejects 10000 "timeout of 10000ms exceeded" ]
    [ Resolves 300 samplePage ]
    [ Resolves 200 [ {| node_title := "Vigilance orange avalanches";
                        node_level := None;
                        node_description := "" |};
                     {| node_title := ""; node_level := Some "jaune";
                        node_description := "Vent" |} ] ].

End Rev2Server.

(** ** Vocabulary of the properties of the risk rules and the scan *)

(** A level the threshold tests all reject: below 1, [-Infinity]
    included, or not a number. *)
Definition belowScale (level : number) : Prop :=
  match level with
  | NaN => True
  | Int z => z < 1
  | Infinity negative => negative = true
  end.

Definition aboveScale (level : number) : Prop :=
  match level with
  | NaN => False
  | Int z => 5 < z
  | Infinity negative => negative = false
  end.

Definition outsideScale (level : number) : Prop :=
  belowScale level \/ aboveScale level.

Definition inScale (level : number) : Prop :=
  match level with
  | Int z => 1 <= z <= 5
  | NaN | Infinity _ => False
  end.

(** Risks listed from the highest band down never go up. *)
Fixpoint nonIncreasing (risks : list number) : bool :=
  match risks with
  | [] => true
  | a :: rest =>
      match rest with
      | [] => true
      | b :: _ => ge a b && nonIncreasing rest
      end
  end.

(** A byte that [toLowerCase] never changes, wherever it stands. *)
Definition stable (c : ascii) : bool :=
  let n := nat_of_ascii c in
  (negb ((65 <=? n) && (n <=? 90)) &&
   negb ((128 <=? n) && (n <=? 158) && negb (n =? 151)))%nat.

Fixpoint allStable (s : string) : bool :=
  match s with
  | EmptyString => true
  | String c rest => stable c && allStable rest
  end.

(** Two strings of one length that agree on the stable bytes of the first. *)
Inductive agree : string -> string -> Prop :=
| agree_nil : agree EmptyString EmptyString
| agree_cons (c c' : ascii) (s s' : string) :
    (stable c = true -> c' = c) -> agree s s' -> agree (String c s) (String c' s').

(** The scanned text mentions one of the keywords, whatever the case. *)
Definition mentions (keywords : list string) (text : string) : bool :=
  existsb (fun keyword => includes keyword (toLowerCase text)) keywords.

(** ** Vocabulary of the further properties *)

(** The buckets of [estimateAvalancheRisk] in order of severity. *)
Definition bucketRank (bucket : string) : nat :=
  if (bucket =? "considerable")%string then 2
  else if (bucket =? "moderate")%string then 1
  else 0.

(** ** Sample runs *)

(** A reshaping loop to run the server with: the upstream document is a
    list of day labels, passed on as it is; it throws on an empty one. *)
Definition sampleReshape (latitude longitude : string) (forecastDays : number)
    (now : Z) (document : list string) : Result (list string) :=
  match document with
  | [] => Throw "Cannot read properties of undefined (reading 'time')"
  | _ :: _ => Ok document
  end.

Definition SampleWorld : Type := World (list string) (list string).

(** A server started while both upstream services fail. *)
Definition upstreamDown : SampleWorld :=
  boot 1700000000000
    [ Rejects 10000 "timeout of 10000ms exceeded";
      Rejects 10000 "timeout of 10000ms exceeded" ]
    [ Rejects 120 "Request failed with status code 502";
      Rejects 120 "Request failed with status code 502" ].

(** A server started while the bulletin service answers, with risk 4 at
    high altitude and 2 at low altitude. *)
Definition upstreamUp : SampleWorld :=
  boot 1700000000000
    [ Resolves 70 {| LOC1 := Some "4"; LOC2 := Some "2";
                     DateValidite := "2025-01-15T16:00:00" |} ]
    [ Resolves 90 ["2025-01-15"; "2025-01-16"] ].

(** The answer to a first avalanche request on [upstreamUp]. *)
Definition firstAnswer : Response (list string) :=
  match fst (handle sampleReshape GET_avalanche_vanoise upstreamUp) with
  | Ok r => r
  | Throw _ => res_json JNull
  end.

Definition defaultQuery : Query :=
  {| lat := None; lon := None; days := None |}.

(** * Properties *)

(** ** Integers as doubles *)

Lemma pow2_pos (e : Z) : 0 <= e -> 0 < 2 ^ e.
Proof. intros H. apply Z.pow_pos_nonneg; lia. Qed.

(** An integer whose bits below the 53 leading ones are zero, and which is
    below 2^1024, is a double. *)
Lemma toDouble_multiple (z : Z) :
  0 < Z.log2 (Z.abs z) - 52 ->
  Z.abs z mod 2 ^ (Z.log2 (Z.abs z) - 52) = 0 ->
  Z.log2 (Z.abs z) < 1024 ->
  toDouble z = Int z.
Proof.
  intros He Hmod Hfin. unfold toDouble.
  set (a := Z.abs z) in *. set (e := Z.log2 a - 52) in *.
  destruct (Z.leb_spec e 0); [lia|]. cbv zeta.
  pose proof (pow2_pos e ltac:(lia)) as Hu.
  pose proof (pow2_pos (e - 1) ltac:(lia)) as Hh.
  rewrite Hmod.
  destruct (Z.ltb_spec (2 ^ (e - 1)) 0); [lia|].
  destruct (Z.eqb_spec 0 (2 ^ (e - 1))); [lia|]. cbn [orb andb].
  assert (Hv : a / 2 ^ e * 2 ^ e = a).
  { pose proof (Z.div_mod a (2 ^ e) ltac:(lia)). lia. }
  rewrite Hv. destruct (Z.leb_spec 1024 (Z.log2 a)); [lia|].
  f_equal. unfold a. rewrite Z.mul_comm. apply Z.abs_sgn.
Qed.

(** The integers up to 2^53 are doubles. *)
Lemma toDouble_exact (z : Z) : Z.abs z <= 2 ^ 53 -> toDouble z = Int z.
Proof.
  intros H. destruct (Z.eq_dec (Z.abs z) (2 ^ 53)) as [E|E].
  - apply toDouble_multiple; rewrite E; reflexivity.
  - unfold toDouble.
    assert (Hl : Z.log2 (Z.abs z) < 53).
    { destruct (Z.eq_dec (Z.abs z) 0) as [E0|E0]; [rewrite E0; cbn; lia|].
      apply Z.log2_lt_pow2; lia. }
    destruct (Z.leb_spec (Z.log2 (Z.abs z) - 52) 0); [reflexivity | lia].
Qed.

(** What [toDouble] keeps of an integer of more than 53 bits. *)
Lemma toDouble_rounded (z : Z) :
  0 < Z.log2 (Z.abs z) - 52 ->
  exists m,
    let e := Z.log2 (Z.abs z) - 52 in
    let q := Z.abs z / 2 ^ e in
    (m = q \/ m = q + 1) /\
    (m = q -> Z.abs z mod 2 ^ e <= 2 ^ (e - 1)) /\
    2 ^ 52 <= q < 2 ^ 53 /\
    (toDouble z = Infinity (z <? 0) /\ 1024 <= Z.log2 (m * 2 ^ e)
     \/ toDouble z = Int (Z.sgn z * (m * 2 ^ e)) /\ Z.log2 (m * 2 ^ e) < 1024).
Proof.
  intros He. unfold toDouble.
  set (a := Z.abs z) in *. set (e := Z.log2 a - 52) in *.
  destruct (Z.leb_spec e 0); [lia|]. cbv zeta.
  set (q := a / 2 ^ e). set (r := a mod 2 ^ e). set (half := 2 ^ (e - 1)).
  set (m := if (half <? r) || ((r =? half) && Z.odd q) then q + 1 else q).
  exists m. split; [|split; [|split]].
  - unfold m. destruct ((half <? r) || ((r =? half) && Z.odd q)); [right|left]; reflexivity.
  - unfold m. destruct (Z.ltb_spec half r); cbn [orb]; [lia|]. intros _. lia.
  - assert (Ha : 0 < a).
    { destruct (Z.eq_dec a 0) as [E|E]; [|unfold a in *; lia].
      unfold e in He. rewrite E in He. cbn in He. lia. }
    pose proof (Z.log2_spec a Ha) as [Hlo Hhi].
    pose proof (pow2_pos e ltac:(lia)) as Hu.
    replace (Z.log2 a) with (52 + e) in Hlo by (unfold e; lia).
    replace (Z.succ (Z.log2 a)) with (53 + e) in Hhi by (unfold e; lia).
    rewrite Z.pow_add_r in Hlo, Hhi by lia.
    unfold q. split.
    + apply Z.div_le_lower_bound; lia.
    + apply Z.div_lt_upper_bound; lia.
  - destruct (Z.leb_spec 1024 (Z.log2 (m * 2 ^ e))); [left | right]; split;
      (reflexivity || assumption).
Qed.

Lemma log2_scaled (m e : Z) :
  0 <= e -> 2 ^ 52 <= m < 2 ^ 53 -> Z.log2 (m * 2 ^ e) = 52 + e.
Proof.
  intros He Hm. pose proof (pow2_pos e He) as Hu.
  apply Z.log2_unique; [lia|].
  replace (Z.succ (52 + e)) with (53 + e) by lia.
  rewrite !Z.pow_add_r by lia. nia.
Qed.

(** The result of [toDouble] is a double. *)
Lemma toDouble_idempotent (z d : Z) : toDouble z = Int d -> toDouble d = Int d.
Proof.
  intros H. destruct (Z.leb_spec (Z.log2 (Z.abs z) - 52) 0) as [Hs|Hs].
  - unfold toDouble in H. destruct (Z.leb_spec (Z.log2 (Z.abs z) - 52) 0); [|lia].
    inversion H. subst d. unfold toDouble.
    destruct (Z.leb_spec (Z.log2 (Z.abs z) - 52) 0); [reflexivity | lia].
  - destruct (toDouble_rounded z Hs) as (m & Hm & _ & Hq & Hres). cbv zeta in *.
    set (e := Z.log2 (Z.abs z) - 52) in *. set (q := Z.abs z / 2 ^ e) in *.
    destruct Hres as [[Hinf _]|[Hint Hfin]]; [rewrite Hinf in H; discriminate|].
    rewrite Hint in H. inversion H as [Hd]. clear H Hd.
    pose proof (pow2_pos e ltac:(lia)) as Hu.
    assert (Hz : Z.abs z <> 0).
    { intros E. unfold e in Hs. rewrite E in Hs. cbn in Hs. lia. }
    assert (Habs : Z.abs (Z.sgn z * (m * 2 ^ e)) = m * 2 ^ e).
    { rewrite Z.abs_mul.
      assert (Hsgn : Z.abs (Z.sgn z) = 1) by (destruct z; cbn in *; lia).
      rewrite Hsgn. nia. }
    assert (Hcase : m < 2 ^ 53 \/ m = 2 ^ 53) by lia.
    destruct Hcase as [Hlt|Heq].
    + assert (Hl : Z.log2 (m * 2 ^ e) = 52 + e) by (apply log2_scaled; lia).
      apply toDouble_multiple; rewrite Habs, Hl.
      * lia.
      * replace (52 + e - 52) with e by lia. apply Z_mod_mult.
      * rewrite Hl in Hfin. exact Hfin.
    + assert (Hv : m * 2 ^ e = 2 ^ 52 * 2 ^ (e + 1)).
      { rewrite Heq, Z.pow_add_r by lia. lia. }
      assert (Hl : Z.log2 (m * 2 ^ e) = 52 + (e + 1)).
      { rewrite Hv. apply log2_scaled; lia. }
      apply toDouble_multiple; rewrite Habs, Hl.
      * lia.
      * replace (52 + (e + 1) - 52) with (e + 1) by lia. rewrite Hv. apply Z_mod_mult.
      * rewrite Hl in Hfin. exact Hfin.
Qed.

Lemma abs_sgn_mul (z v : Z) : z <> 0 -> 0 <= v -> Z.abs (Z.sgn z * v) = v.
Proof. intros Hz Hv. destruct z; cbn [Z.sgn]; lia. Qed.

(** What a double of more than 53 bits looks like. *)
Lemma double_multiple (d : Z) :
  toDouble d = Int d ->
  0 < Z.log2 (Z.abs d) - 52 ->
  Z.abs d mod 2 ^ (Z.log2 (Z.abs d) - 52) = 0 /\ Z.log2 (Z.abs d) < 1024.
Proof.
  intros H Hs. destruct (toDouble_rounded d Hs) as (m & Hm & _ & Hq & Hres).
  cbv zeta in *. set (e := Z.log2 (Z.abs d) - 52) in *.
  destruct Hres as [[Hinf _]|[Hint Hfin]]; [rewrite Hinf in H; discriminate|].
  rewrite Hint in H. injection H as Hd.
  pose proof (pow2_pos e ltac:(lia)) as Hu.
  assert (Hz : d <> 0).
  { intros E. unfold e in Hs. rewrite E in Hs. cbn in Hs. lia. }
  assert (Habs : Z.abs d = m * 2 ^ e).
  { rewrite <- Hd at 1. apply abs_sgn_mul; [exact Hz | nia]. }
  rewrite Habs. split; [apply Z_mod_mult | exact Hfin].
Qed.

Lemma log2_pred (a : Z) : 1 < a -> Z.log2 (a - 1) = Z.log2 a \/ a = 2 ^ Z.log2 a.
Proof.
  intros Ha. pose proof (Z.log2_spec a ltac:(lia)) as [Hlo Hhi].
  destruct (Z.eq_dec a (2 ^ Z.log2 a)) as [E|E]; [right; exact E|left].
  apply Z.log2_unique; [apply Z.log2_nonneg | lia].
Qed.

(** Subtracting one from a double never gives more. *)
Lemma sub_one_le (d : Z) : toDouble d = Int d -> ge (Int d) (sub (Int d) (Int 1)) = true.
Proof.
  intros Hd. cbn [sub].
  destruct (Z.leb_spec (Z.log2 (Z.abs (d - 1)) - 52) 0) as [Hs|Hs].
  { unfold toDouble. destruct (Z.leb_spec (Z.log2 (Z.abs (d - 1)) - 52) 0); [|lia].
    cbn [ge]. apply Z.leb_le. lia. }
  destruct (toDouble_rounded (d - 1) Hs) as (m & Hm & Hdown & Hq & Hres).
  cbv zeta in *. set (a := Z.abs (d - 1)) in *. set (e := Z.log2 a - 52) in *.
  pose proof (pow2_pos e ltac:(lia)) as Hu.
  assert (Ha : 2 ^ 53 <= a).
  { assert (Hl : 53 <= Z.log2 a) by lia.
    destruct (Z.eq_dec a 0) as [E|E]; [rewrite E in Hl; cbn in Hl; lia|].
    pose proof (Z.log2_spec a ltac:(unfold a in *; lia)) as [Hlo _].
    pose proof (Z.pow_le_mono_r 2 53 (Z.log2 a) ltac:(lia) Hl). lia. }
  pose proof (Z.div_mod a (2 ^ e) ltac:(lia)) as Hdm.
  pose proof (Z.mod_pos_bound a (2 ^ e) Hu) as Hr.
  destruct (Z.ltb_spec (d - 1) 0) as [Hneg|Hpos].
  - (* d - 1 is negative: its magnitude is that of d, plus one *)
    destruct Hres as [[Hinf _]|[Hint _]].
    + rewrite Hinf. destruct (Z.ltb_spec (d - 1) 0); [reflexivity | lia].
    + rewrite Hint. cbn [ge]. apply Z.leb_le.
      replace (Z.sgn (d - 1)) with (-1) by lia.
      assert (Hmag : Z.abs d = a - 1) by (unfold a; lia).
      assert (Hrem : a mod 2 ^ e <= 1).
      { destruct (log2_pred a ltac:(lia)) as [Hsame|Hpow].
        - assert (Hd' : 0 < Z.log2 (Z.abs d) - 52) by (rewrite Hmag, Hsame; fold e; lia).
          destruct (double_multiple d Hd Hd') as [Hmod _].
          rewrite Hmag, Hsame in Hmod. fold e in Hmod.
          apply Z.mod_divide in Hmod; [|lia]. destruct Hmod as [k Hk].
          assert (Hone : a mod 2 ^ e = 1).
          { symmetry. apply (Z.mod_unique_pos a (2 ^ e) k 1).
            - assert (2 <= 2 ^ e).
              { pose proof (Z.pow_le_mono_r 2 1 e ltac:(lia) ltac:(lia)). lia. }
              lia.
            - lia. }
          lia.
        - assert (Hzero : a mod 2 ^ e = 0).
          { rewrite Hpow at 1. replace (Z.log2 a) with (52 + e) by (unfold e; lia).
            rewrite Z.pow_add_r by lia. apply Z_mod_mult. }
          lia. }
      nia.
  - (* d - 1 is positive: d is a multiple of the unit of d - 1 *)
    assert (Hda : d = a + 1) by (unfold a; lia).
    assert (Hle : Z.log2 a <= Z.log2 (Z.abs d)) by (apply Z.log2_le_mono; lia).
    assert (Hd' : 0 < Z.log2 (Z.abs d) - 52) by lia.
    destruct (double_multiple d Hd Hd') as [Hmod Hfin].
    set (e' := Z.log2 (Z.abs d) - 52) in *.
    assert (Hdiv : exists k, d = k * 2 ^ e).
    { apply Z.mod_divide in Hmod; [|pose proof (pow2_pos e' ltac:(lia)); lia].
      destruct Hmod as [k Hk]. exists (k * 2 ^ (e' - e)).
      replace (Z.abs d) with d in Hk by lia. rewrite Hk.
      replace e' with ((e' - e) + e) at 1 by lia.
      rewrite Z.pow_add_r by lia. lia. }
    destruct Hdiv as [k Hk].
    assert (Hv : m * 2 ^ e <= d).
    { assert (Hqk : a / 2 ^ e < k) by nia.
      rewrite Hk. apply Z.mul_le_mono_nonneg_r; lia. }
    destruct Hres as [[_ Hover]|[Hint _]].
    + exfalso.
      assert (Z.log2 (m * 2 ^ e) <= Z.log2 d) by (apply Z.log2_le_mono; exact Hv).
      replace (Z.abs d) with d in Hfin by lia. lia.
    + rewrite Hint. cbn [ge]. apply Z.leb_le.
      replace (Z.sgn (d - 1)) with 1 by lia. lia.
Qed.


(** ** The forecast avalanche-risk bucket *)

Lemma snowfall_above_20_is_considerable (snowfall windSpeed temp : option Q) :
  exceeds snowfall 20 = true ->
  estimateAvalancheRisk snowfall windSpeed temp = "considerable".
Proof.
  intros H. unfold estimateAvalancheRisk. rewrite H.
  destruct (exceeds windSpeed 40), (exceeds temp 0), (exceeds snowfall 5); reflexivity.
Qed.

Lemma wind_above_40_escalates_low (snowfall windSpeed temp : option Q) :
  exceeds snowfall 10 = false ->
  exceeds windSpeed 40 = true ->
  estimateAvalancheRisk snowfall windSpeed temp = "moderate".
Proof.
  intros Hs Hw. unfold estimateAvalancheRisk.
  assert (H20 : exceeds snowfall 20 = false).
  { destruct snowfall as [q|]; [|reflexivity]. unfold exceeds in *.
    apply negb_false_iff in Hs. apply negb_false_iff.
    apply Qle_bool_iff in Hs. apply Qle_bool_iff.
    eapply Qle_trans; [exact Hs|]. unfold Qle; simpl; lia. }
  rewrite H20, Hs, Hw.
  destruct (exceeds temp 0), (exceeds snowfall 5); reflexivity.
Qed.

(** C7: the bucket function answers "considerable" for snowfall 25, wind
    10, temperature -5, where the snowfall > 20 rule fires, and "moderate"
    for snowfall 5, wind 45, temperature -5, where the wind > 40 rule
    raises "low" to "moderate". *)
Theorem estimateAvalancheRisk_scenarios :
  estimateAvalancheRisk (Some 25%Q) (Some 10%Q) (Some (-5)%Q) = "considerable" /\
  exceeds (Some 25%Q) 20 = true /\
  estimateAvalancheRisk (Some 5%Q) (Some 45%Q) (Some (-5)%Q) = "moderate" /\
  exceeds (Some 5%Q) 10 = false /\
  exceeds (Some 45%Q) 40 = true.
Proof.
  split; [apply snowfall_above_20_is_considerable; reflexivity|].
  split; [reflexivity|].
  split; [apply wind_above_40_escalates_low; reflexivity|].
  split; reflexivity.
Qed.

(** C9: whatever the snowfall, wind speed and temperature (numbers or
    missing values), the bucket function answers "low", "moderate" or
    "considerable", each of which some input reaches, and never "high". *)
Theorem estimateAvalancheRisk_range :
  (forall snowfall windSpeed temp : option Q,
     let r := estimateAvalancheRisk snowfall windSpeed temp in
     (r = "low" \/ r = "moderate" \/ r = "considerable") /\ r <> "high") /\
  estimateAvalancheRisk (Some 0%Q) (Some 0%Q) (Some 0%Q) = "low" /\
  estimateAvalancheRisk (Some 15%Q) (Some 0%Q) (Some 0%Q) = "moderate" /\
  estimateAvalancheRisk (Some 15%Q) (Some 50%Q) (Some 0%Q) = "considerable".
Proof.
  split; [|repeat split].
  intros snowfall windSpeed temp. cbv zeta. unfold estimateAvalancheRisk.
  destruct (exceeds snowfall 20), (exceeds snowfall 10), (exceeds windSpeed 40),
    (exceeds temp 0), (exceeds snowfall 5); cbn;
    (split; [tauto | discriminate]).
Qed.

(** ** The risk-rule engine outside the scale *)

Lemma entry_or_3_outside (level : number) (table : list (Z * string)) :
  (forall k v, In (k, v) table -> 1 <= k <= 5) ->
  outsideScale level ->
  entry_or_3 level table = entry_or_3 (Int 3) table.
Proof.
  intros Hkeys Hout. unfold entry_or_3.
  assert (Hnone : property level table = None).
  { destruct level as [|z|negative]; [reflexivity| |reflexivity]. simpl.
    assert (Hz : z < 1 \/ 5 < z) by (destruct Hout as [H|H]; simpl in H; lia).
    clear Hout. induction table as [|[k v] rest IH]; [reflexivity|].
    simpl. destruct (Z.eqb_spec k z) as [->|_].
    - specialize (Hkeys z v (or_introl eq_refl)). lia.
    - apply IH. intros k' v' Hin. apply (Hkeys k' v'). right. exact Hin. }
  rewrite Hnone. simpl. destruct (lookup 3 table); reflexivity.
Qed.

Lemma ge_below (level : number) (k : Z) :
  belowScale level -> 1 <= k -> ge level (Int k) = false.
Proof.
  destruct level as [|z|negative]; simpl; intros Hb Hk;
    [reflexivity | apply Z.leb_gt; lia | subst negative; reflexivity].
Qed.

Lemma ge_above (level : number) (k : Z) :
  aboveScale level -> k <= 5 -> ge level (Int k) = true.
Proof.
  destruct level as [|z|negative]; simpl; intros Ha Hk;
    [contradiction | apply Z.leb_le; lia | subst negative; reflexivity].
Qed.

(** C5, as the code has it: for a level outside 1..5 the description and
    the summary answer with their level-3 entry; problems, snowpack,
    weather and tendency compare the level with thresholds, so a level
    below 1 (or not a number) gets the level-1 answer and a level above 5
    the level-5 answer, which for snowpack and weather is also the level-3
    answer.  All six are total. *)
Theorem risk_rules_outside_scale (level : number) :
  outsideScale level ->
  getRiskDescription level = getRiskDescription (Int 3) /\
  (forall high low,
     generateDetailedSummary level high low = generateDetailedSummary (Int 3) high low) /\
  (belowScale level ->
     generateProblems level = generateProblems (Int 1) /\
     generateSnowpackInfo level = generateSnowpackInfo (Int 1) /\
     generateWeatherInfo level = generateWeatherInfo (Int 1) /\
     generateTendency level = generateTendency (Int 1)) /\
  (aboveScale level ->
     generateProblems level = generateProblems (Int 5) /\
     generateSnowpackInfo level = generateSnowpackInfo (Int 3) /\
     generateWeatherInfo level = generateWeatherInfo (Int 3) /\
     generateTendency level = generateTendency (Int 5)).
Proof.
  intros Hout.
  assert (Hdesc : forall k v, In (k, v) descriptions -> 1 <= k <= 5).
  { intros k v Hin. simpl in Hin.
    repeat (destruct Hin as [Hin|Hin]; [inversion Hin; lia|]). contradiction. }
  assert (Hsum : forall k v, In (k, v) summaries -> 1 <= k <= 5).
  { intros k v Hin. simpl in Hin.
    repeat (destruct Hin as [Hin|Hin]; [inversion Hin; lia|]). contradiction. }
  split; [|split; [|split]].
  - unfold getRiskDescription. apply entry_or_3_outside; assumption.
  - intros high low. unfold generateDetailedSummary.
    rewrite (entry_or_3_outside level summaries Hsum Hout). reflexivity.
  - intros Hb.
    unfold generateProblems, generateSnowpackInfo, generateWeatherInfo, generateTendency.
    rewrite !(ge_below level) by (assumption || lia).
    repeat split.
  - intros Ha.
    unfold generateProblems, generateSnowpackInfo, generateWeatherInfo, generateTendency.
    rewrite !(ge_above level) by (assumption || lia).
    repeat split.
Qed.

Lemma risk_rules_outside_scale_witness :
  outsideScale (Int 6) /\
  getRiskDescription (Int 6) = getRiskDescription (Int 3).
Proof.
  assert (H : outsideScale (Int 6)) by (right; simpl; lia).
  split; [exact H | exact (proj1 (risk_rules_outside_scale (Int 6) H))].
Defined.

(** C5 as the specification words it fails: at level 0 and at level 6 the
    threshold functions do not give their level-3 answer. *)
Lemma risk_rules_not_all_level_3 :
  outsideScale (Int 0) /\ outsideScale (Int 6) /\
  generateProblems (Int 0) <> generateProblems (Int 3) /\
  generateSnowpackInfo (Int 0) <> generateSnowpackInfo (Int 3) /\
  generateWeatherInfo (Int 0) <> generateWeatherInfo (Int 3) /\
  generateTendency (Int 0) <> generateTendency (Int 3) /\
  generateProblems (Int 6) <> generateProblems (Int 3) /\
  generateTendency (Int 6) <> generateTendency (Int 3).
Proof.
  split; [left; simpl; lia|]. split; [right; simpl; lia|].
  repeat split; cbv; discriminate.
Qed.

(** ** Elevation bands *)

(** C4, as the code has it: for high and low risk levels in 1..5 the
    builder returns three bands, from the highest altitude to the lowest,
    each with a risk in 1..5; the risks do not increase on the way down
    exactly when the low-altitude level is at most the high-altitude one. *)
Theorem generateElevationBands_shape (high low : Z) :
  1 <= high <= 5 ->
  1 <= low <= 5 ->
  let bands := generateElevationBands (Int high) (Int low) in
  List.length bands = 3%nat /\
  map elevation bands = ["Above 2500m"; "2000m - 2500m"; "Below 2000m"] /\
  map risk bands = [Int high; Int (Z.max (high - 1) low); Int low] /\
  Forall inScale (map risk bands) /\
  (nonIncreasing (map risk bands) = true <-> low <= high).
Proof.
  intros Hh Hl bands. subst bands. unfold generateElevationBands.
  cbn [List.length map elevation risk sub].
  rewrite (toDouble_exact (high - 1)) by lia. cbn [JS.max].
  split; [reflexivity|]. split; [reflexivity|]. split; [reflexivity|]. split.
  - repeat constructor; simpl; lia.
  - cbn [nonIncreasing ge]. rewrite andb_true_r, andb_true_iff, !Z.leb_le. lia.
Qed.

Lemma generateElevationBands_shape_witness :
  map risk (generateElevationBands (Int 4) (Int 2)) = [Int 4; Int 3; Int 2].
Proof.
  exact (proj1 (proj2 (proj2
    (generateElevationBands_shape 4 2 ltac:(lia) ltac:(lia))))).
Defined.

(** C4 as the specification words it fails: with level 2 above and level 3
    below, both in 1..5, the risk goes up from the top band to the next. *)
Lemma generateElevationBands_may_increase :
  inScale (Int 2) /\ inScale (Int 3) /\
  map risk (generateElevationBands (Int 2) (Int 3)) = [Int 2; Int 3; Int 3] /\
  nonIncreasing (map risk (generateElevationBands (Int 2) (Int 3))) = false.
Proof.
  repeat split; simpl; lia.
Qed.

(** The single-level builder of the second revision does clamp, and its
    bands never go up. *)
Lemma getDefaultElevationBands_shape (riskLevel : Z) :
  1 <= riskLevel <= 5 ->
  let bands := Rev2.getDefaultElevationBands (Int riskLevel) in
  List.length bands = 3%nat /\
  map elevation bands = ["Above 2500m"; "2000m - 2500m"; "Below 2000m"] /\
  Forall inScale (map risk bands) /\
  nonIncreasing (map risk bands) = true.
Proof.
  intros Hr bands. subst bands. unfold Rev2.getDefaultElevationBands.
  cbn [List.length map elevation risk sub add].
  rewrite (toDouble_exact (riskLevel + 1)), (toDouble_exact (riskLevel - 1)) by lia.
  cbn [JS.max JS.min].
  split; [reflexivity|]. split; [reflexivity|]. split.
  - repeat constructor; simpl; lia.
  - cbn [nonIncreasing ge]. rewrite andb_true_r, andb_true_iff, !Z.leb_le. lia.
Qed.

(** ** The keyword scan *)

Lemma string_pair_ind (P : string -> Prop) :
  P EmptyString ->
  (forall c, P (String c EmptyString)) ->
  (forall c d s, P s -> P (String d s) -> P (String c (String d s))) ->
  forall s, P s.
Proof.
  intros H0 H1 H2 s.
  enough (H : P s /\ forall c, P (String c s)) by apply H.
  induction s as [|d s [IHs IHc]].
  - split; [exact H0 | exact H1].
  - split; [apply IHc|]. intros c. apply H2; [exact IHs | apply IHc].
Qed.

Lemma stable_lowerAscii (c : ascii) : stable c = true -> lowerAscii c = c.
Proof.
  unfold stable, lowerAscii. cbv zeta.
  destruct ((65 <=? nat_of_ascii c)%nat && (nat_of_ascii c <=? 90)%nat);
    [discriminate | reflexivity].
Qed.

Lemma agree_toLowerCase (s : string) : agree s (toLowerCase s).
Proof.
  induction s as [|c|c d s IHs IHd] using string_pair_ind.
  - constructor.
  - simpl. destruct (nat_of_ascii c =? 195)%nat.
    + constructor; [reflexivity | constructor].
    + constructor; [intros H; apply stable_lowerAscii, H | constructor].
  - cbn [toLowerCase]. destruct (nat_of_ascii c =? 195)%nat.
    + cbv zeta.
      destruct ((128 <=? nat_of_ascii d)%nat && (nat_of_ascii d <=? 158)%nat
                && negb (nat_of_ascii d =? 151)%nat) eqn:Hd.
      * constructor; [reflexivity|]. constructor; [|exact IHs].
        unfold stable. cbv zeta. rewrite Hd, andb_false_r. discriminate.
      * constructor; [reflexivity|]. constructor; [reflexivity | exact IHs].
    + constructor; [intros H; apply stable_lowerAscii, H | exact IHd].
Qed.

Lemma agree_prefix (needle s s' : string) :
  allStable needle = true -> agree s s' ->
  prefix needle s = true -> prefix needle s' = true.
Proof.
  revert s s'. induction needle as [|c needle IH]; intros s s' Hst Hag Hp.
  - destruct s'; reflexivity.
  - simpl in Hst. apply andb_true_iff in Hst as [Hc Hrest].
    destruct Hag as [|d d' s s' Hd Hag]; [discriminate Hp|].
    simpl in Hp |- *. destruct (ascii_dec c d) as [->|]; [|discriminate].
    rewrite (Hd Hc). destruct (ascii_dec d d) as [_|Hne]; [|contradiction].
    eapply IH; eassumption.
Qed.

(** A keyword made of stable bytes that occurs in a text still occurs in
    its lower-case form. *)
Lemma includes_toLowerCase (needle text : string) :
  allStable needle = true ->
  includes needle text = true -> includes needle (toLowerCase text) = true.
Proof.
  intros Hst. generalize (agree_toLowerCase text).
  generalize (toLowerCase text) as text'. intros text' Hag.
  induction Hag as [|c c' s s' Hc Hag IH]; intros Hin.
  - exact Hin.
  - cbn [includes] in Hin |- *. apply orb_true_iff in Hin as [Hp|Hin].
    + apply orb_true_iff. left.
      apply (agree_prefix needle (String c s) (String c' s') Hst); [|exact Hp].
      constructor; assumption.
    + apply orb_true_iff. right. apply IH, Hin.
Qed.

(** A text that contains a phrase contains the end of the phrase. *)
Lemma includes_suffix (before needle text : string) :
  includes (before ++ needle) text = true -> includes needle text = true.
Proof.
  assert (Hp : forall a s, prefix (a ++ needle) s = true -> includes needle s = true).
  { induction a as [|c a IH]; intros s H.
    - destruct s; simpl in *; rewrite H; reflexivity.
    - destruct s as [|d s]; [discriminate|]. simpl in H.
      destruct (ascii_dec c d); [|discriminate].
      cbn [includes]. rewrite (IH s H). apply orb_true_r. }
  induction text as [|d text IH]; intros H.
  - apply (Hp before). cbn [includes] in H. rewrite orb_false_r in H. exact H.
  - cbn [includes] in H. apply orb_true_iff in H as [H|H].
    + apply (Hp before), H.
    + cbn [includes]. rewrite (IH H). apply orb_true_r.
Qed.

Lemma scrapeMeteoFranceWeb_riskLevel_cascade (text : string) :
  Rev2.scrapeMeteoFranceWeb_riskLevel text =
  if mentions ["4"; "fort"] text then Int 4
  else if mentions ["3"; "marqué"] text then Int 3
  else if mentions ["2"; "limité"] text then Int 2
  else if mentions ["1"; "faible"] text then Int 1
  else Int 3.
Proof.
  unfold Rev2.scrapeMeteoFranceWeb_riskLevel, mentions. cbn [existsb].
  rewrite !orb_false_r. reflexivity.
Qed.

Lemma extractOverallRisk_same_scan (text : string) :
  Rev1.extractOverallRisk text = Rev2.scrapeMeteoFranceWeb_riskLevel text.
Proof.
  unfold Rev1.extractOverallRisk, Rev2.scrapeMeteoFranceWeb_riskLevel. cbv zeta.
  rewrite (orb_comm (includes "fort" _)), (orb_comm (includes "marqué" _)),
    (orb_comm (includes "limité" _)), (orb_comm (includes "faible" _)).
  reflexivity.
Qed.

(** C6: the keyword scan, in the second revision's [scrapeMeteoFranceWeb]
    and the first revision's [extractOverallRisk] alike, checks the
    keywords of the higher level first: a text containing "fort" gives 4;
    a text containing "risque marqué" gives 3 unless a level-4 keyword
    occurs as well; a text without any keyword gives the default 3. *)
Theorem keyword_scan_levels (text : string) :
  Rev1.extractOverallRisk text = Rev2.scrapeMeteoFranceWeb_riskLevel text /\
  (includes "fort" text = true ->
     Rev2.scrapeMeteoFranceWeb_riskLevel text = Int 4) /\
  (includes "risque marqué" text = true ->
     mentions ["4"; "fort"] text = false ->
     Rev2.scrapeMeteoFranceWeb_riskLevel text = Int 3) /\
  (mentions ["4"; "fort"; "3"; "marqué"; "2"; "limité"; "1"; "faible"] text = false ->
     Rev2.scrapeMeteoFranceWeb_riskLevel text = Int 3) /\
  (Rev2.scrapeMeteoFranceWeb_riskLevel text =
     if mentions ["4"; "fort"] text then Int 4
     else if mentions ["3"; "marqué"] text then Int 3
     else if mentions ["2"; "limité"] text then Int 2
     else if mentions ["1"; "faible"] text then Int 1
     else Int 3) /\
  Rev2.scrapeMeteoFranceWeb_riskLevel "risque marqué" = Int 3 /\
  Rev2.scrapeMeteoFranceWeb_riskLevel "fort" = Int 4 /\
  Rev2.scrapeMeteoFranceWeb_riskLevel "Bulletin indisponible" = Int 3.
Proof.
  split; [apply extractOverallRisk_same_scan|].
  split; [|split; [|split; [|split; [apply scrapeMeteoFranceWeb_riskLevel_cascade|]]]].
  - intros H. apply (includes_toLowerCase "fort") in H; [|reflexivity].
    rewrite scrapeMeteoFranceWeb_riskLevel_cascade. unfold mentions. cbn [existsb].
    rewrite H, !orb_true_r. reflexivity.
  - intros H H4. apply (includes_suffix "risque " "marqué") in H.
    apply (includes_toLowerCase "marqué") in H; [|reflexivity].
    rewrite scrapeMeteoFranceWeb_riskLevel_cascade, H4. unfold mentions. cbn [existsb].
    rewrite H, !orb_true_r. reflexivity.
  - intros H. rewrite scrapeMeteoFranceWeb_riskLevel_cascade.
    unfold mentions in *. cbn [existsb] in *.
    repeat (apply orb_false_iff in H; destruct H as [?H H]).
    repeat match goal with Hk : includes _ _ = false |- _ => rewrite Hk; clear Hk end.
    reflexivity.
  - split; [|split]; reflexivity.
Qed.

Lemma keyword_scan_levels_witness :
  includes "fort" "Risque fort au-dessus de 2000 m" = true /\
  Rev2.scrapeMeteoFranceWeb_riskLevel "Risque fort au-dessus de 2000 m" = Int 4.
Proof.
  split; [reflexivity|].
  exact (proj1 (proj2 (keyword_scan_levels "Risque fort au-dessus de 2000 m")) eq_refl).
Defined.

(** ** Numerals *)

(** Reads the next character of a numeral in [digits]. *)
Ltac read_digit :=
  cbn [NilEmpty.string_of_uint digits];
  match goal with
  | |- context [digitValue ?c] =>
      let v := eval vm_compute in (digitValue c) in
      change (digitValue c) with v
  end;
  cbv iota beta;
  match goal with
  | |- context [?d <? 10] => change (d <? 10) with true
  end;
  cbv iota.

Lemma digits_acc (u : Decimal.uint) (acc : positive) :
  digits 10 (NilEmpty.string_of_uint u) (Some (Z.pos acc))
  = Some (Z.pos (Pos.of_uint_acc u acc)).
Proof.
  revert acc. induction u; intros acc; [reflexivity | ..];
    read_digit; cbn [Pos.of_uint_acc]; rewrite <- IHu; do 2 f_equal; lia.
Qed.

Lemma digits_zero (u : Decimal.uint) :
  digits 10 (NilEmpty.string_of_uint u) (Some 0) = Some (Z.of_N (Pos.of_uint u)).
Proof.
  induction u;
    [ reflexivity
    | read_digit; cbn [Pos.of_uint]; exact IHu
    | read_digit; cbn [Pos.of_uint]; apply (digits_acc u) .. ].
Qed.

Lemma digits_none (u : Decimal.uint) :
  u <> Decimal.Nil ->
  digits 10 (NilEmpty.string_of_uint u) None = Some (Z.of_N (Pos.of_uint u)).
Proof.
  destruct u; intros H;
    [ contradiction
    | read_digit; cbn [Pos.of_uint]; apply (digits_zero u)
    | read_digit; cbn [Pos.of_uint]; apply (digits_acc u) .. ].
Qed.


(** Nothing is trimmed in front of a character of the Basic Latin block
    that is not white space. *)
Lemma trimStart_ascii (c : ascii) (r : string) :
  isWhiteSpace c = false -> (nat_of_ascii c <? 128)%nat = true ->
  trimStart (String c r) = String c r.
Proof.
  intros Hw Hc. apply Nat.ltb_lt in Hc. cbn [trimStart]. rewrite Hw.
  destruct r as [|c2 [|c3 r3]]; [reflexivity | ..].
  - unfold isWhiteSpace2.
    destruct (Nat.eqb_spec (nat_of_ascii c) 194); [lia | reflexivity].
  - unfold isWhiteSpace2, isWhiteSpace3.
    destruct (Nat.eqb_spec (nat_of_ascii c) 194); [lia|].
    destruct (Nat.eqb_spec (nat_of_ascii c) 225); [lia|].
    destruct (Nat.eqb_spec (nat_of_ascii c) 226); [lia|].
    destruct (Nat.eqb_spec (nat_of_ascii c) 227); [lia|].
    destruct (Nat.eqb_spec (nat_of_ascii c) 239); [lia|].
    reflexivity.
Qed.

(** A decimal numeral starts with a digit: nothing to trim and, after a
    leading zero, no x. *)
Lemma parseInt_numeral (negative : bool) (u : Decimal.uint) :
  u <> Decimal.Nil ->
  parseInt ((if negative then "-" else "") ++ NilEmpty.string_of_uint u)
  = toDouble ((if negative then -1 else 1) * Z.of_N (Pos.of_uint u)).
Proof.
  intros H. pose proof (digits_none u H) as Hd. unfold parseInt.
  assert (Htrim : trimStart ((if negative then "-" else "") ++ NilEmpty.string_of_uint u)
                  = (if negative then "-" else "") ++ NilEmpty.string_of_uint u).
  { destruct negative; cbn [append]; [apply trimStart_ascii; reflexivity|].
    destruct u; [contradiction | ..]; cbn [NilEmpty.string_of_uint];
      apply trimStart_ascii; reflexivity. }
  rewrite Htrim. clear Htrim.
  destruct negative; cbn [append]; cbv iota.
  all: destruct u as [|u|u|u|u|u|u|u|u|u|u]; [contradiction | ..].
  all: try (cbn [NilEmpty.string_of_uint] in *; cbv iota; rewrite Hd; reflexivity).
  all: destruct u as [|u|u|u|u|u|u|u|u|u|u];
    cbn [NilEmpty.string_of_uint] in *; cbv iota; rewrite Hd; reflexivity.
Qed.

Lemma to_uint_nonnil (p : positive) : Pos.to_uint p <> Decimal.Nil.
Proof.
  intros H. pose proof (DecimalPos.Unsigned.of_to p) as Hp.
  rewrite H in Hp. discriminate.
Qed.

Lemma string_of_uint_nonnil (u : Decimal.uint) :
  u <> Decimal.Nil -> NilZero.string_of_uint u = NilEmpty.string_of_uint u.
Proof.
  destruct u; intros H; [contradiction | reflexivity ..].
Qed.

(** [parseInt] reads the decimal numeral of an integer as the double
    nearest to it. *)
Lemma parseInt_decimal (z : Z) : parseInt (decimal z) = toDouble z.
Proof.
  unfold decimal. rewrite <- (DecimalZ.of_to z) at 2.
  destruct z as [|p|p]; [reflexivity | ..];
    cbn [Z.to_int NilZero.string_of_int Z.of_int];
    rewrite (string_of_uint_nonnil _ (to_uint_nonnil p)).
  - pose proof (parseInt_numeral false _ (to_uint_nonnil p)) as Hq.
    cbn [append] in Hq. rewrite Hq. f_equal; try (unfold Z.of_uint; lia).
  - pose proof (parseInt_numeral true _ (to_uint_nonnil p)) as Hq.
    cbn [append] in Hq. rewrite Hq. f_equal; try (unfold Z.of_uint; lia).
Qed.

(** Below 2^53 a number prints as the numeral of the integer. *)
Lemma toString_exact (z : Z) : Z.abs z < 2 ^ 53 -> toString (Int z) = decimal z.
Proof.
  intros H. unfold toString.
  assert (Hl : Z.log2 (Z.abs z) < 53).
  { destruct (Z.eq_dec (Z.abs z) 0) as [E|E]; [rewrite E; cbn; lia|].
    apply Z.log2_lt_pow2; lia. }
  destruct (Z.ltb_spec (Z.log2 (Z.abs z)) 53); [reflexivity | lia].
Qed.

(** Below 2^53 [parseInt] reads back what [toString] prints. *)
Lemma parseInt_toString (z : Z) :
  Z.abs z < 2 ^ 53 -> parseInt (toString (Int z)) = Int z.
Proof.
  intros H. rewrite (toString_exact z H), parseInt_decimal. apply toDouble_exact. lia.
Qed.

Lemma or_string_decimal (z : Z) (d : string) :
  or_string (Some (decimal z)) d = decimal z.
Proof.
  unfold decimal. destruct z as [|p|p]; try reflexivity.
  cbn [Z.to_int NilZero.string_of_int].
  rewrite (string_of_uint_nonnil _ (to_uint_nonnil p)).
  pose proof (to_uint_nonnil p) as Hn.
  destruct (Pos.to_uint p); [contradiction | reflexivity ..].
Qed.

(** What [parseInt] returns is a double. *)
Lemma parseInt_isDouble (s : string) : isDouble (parseInt s) = true.
Proof.
  unfold parseInt.
  destruct (trimStart s) as [|c r] eqn:E;
    [reflexivity|].
  set (signed := match String c r with
                 | String "-" r' => (-1, r')
                 | String "+" r' => (1, r')
                 | _ => (1, String c r)
                 end).
  destruct signed as [sign s2].
  set (based := match s2 with
                | String "0" (String "x" r') => (16, r')
                | String "0" (String "X" r') => (16, r')
                | _ => (10, s2)
                end).
  destruct based as [radix s3].
  destruct (digits radix s3 None) as [v|]; [|reflexivity].
  destruct (toDouble (sign * v)) as [|d|negative] eqn:Hd; [reflexivity | | reflexivity].
  cbn [isDouble]. rewrite (toDouble_idempotent _ _ Hd). apply Z.eqb_refl.
Qed.

(** The numerals on samples: a numeral beyond 2^53 is read as the nearest
    double, a very long one as an infinity; a no-break space in front is
    skipped; one is subtracted in doubles; from 10^21 on numbers print in
    exponent form. *)
Lemma numerals_on_samples :
  parseInt "9007199254740993" = Int 9007199254740992 /\
  parseInt "-9007199254740993" = Int (-9007199254740992) /\
  parseInt (decimal (10 ^ 309)) = Infinity false /\
  parseInt (String (ascii_of_nat 194) (String (ascii_of_nat 160) "4")) = Int 4 /\
  parseInt "0x1F" = Int 31 /\
  sub (Int 9007199254740992) (Int 1) = Int 9007199254740991 /\
  sub (Int 9007199254740994) (Int 1) = Int 9007199254740992 /\
  toString (Int (2 ^ 60)) = "1152921504606847000" /\
  toString (toDouble (10 ^ 21)) = "1e+21" /\
  toString (toDouble (- 2 ^ 70)) = "-1.1805916207174113e+21".
Proof.
  repeat split; vm_compute; reflexivity.
Qed.

(** ** The freshness cache *)

Lemma isCacheValid_iff {A : Type} (now : Z) (e : CacheEntry A) :
  isCacheValid now e = true <->
  exists d t, data e = Some d /\ timestamp e = Some t /\ t <> 0 /\
              now - t < CACHE_DURATION.
Proof.
  unfold isCacheValid, not_data, not_timestamp.
  destruct (data e) as [d|], (timestamp e) as [t|]; cbn [orb].
  - destruct (Z.eqb_spec t 0) as [Ht|Ht].
    + split; [discriminate|]. intros (d' & t' & _ & Ht' & Hne & _).
      inversion Ht'. subst. contradiction.
    + rewrite Z.ltb_lt. split.
      * intros H. exists d, t. repeat split; assumption.
      * intros (d' & t' & _ & Ht' & _ & H). inversion Ht'. subst. exact H.
  - split; [discriminate|]. intros (d' & t' & _ & Ht' & _). discriminate.
  - split; [discriminate|]. intros (d' & t' & Hd' & _). discriminate.
  - split; [discriminate|]. intros (d' & t' & Hd' & _). discriminate.
Qed.

(** An entry found stale or empty stays so as time passes. *)
Lemma isCacheValid_false_later {A : Type} (now later : Z) (e : CacheEntry A) :
  now <= later -> isCacheValid now e = false -> isCacheValid later e = false.
Proof.
  intros Hle Hnow. destruct (isCacheValid later e) eqn:Hlater; [|reflexivity].
  apply isCacheValid_iff in Hlater as (d & t & Hd & Ht & Hne & Hlt).
  assert (Hv : isCacheValid now e = true).
  { apply isCacheValid_iff. exists d, t. repeat split; try assumption. lia. }
  congruence.
Qed.

Lemma isCacheValid_data {A : Type} (now : Z) (e : CacheEntry A) :
  isCacheValid now e = true -> exists d, data e = Some d.
Proof.
  intros H. apply isCacheValid_iff in H as (d & _ & Hd & _). exists d. exact Hd.
Qed.

Section ServerProperties.

Context {OpenMeteo ForecastData : Type}.
Variable reshape : string -> string -> number -> Z -> OpenMeteo -> Result ForecastData.

Local Abbreviation World' := (World OpenMeteo ForecastData).
Local Abbreviation avalancheVanoise :=
  (@get_api_avalanche_vanoise OpenMeteo ForecastData).
Local Abbreviation warningsSavoie :=
  (@get_api_warnings_savoie OpenMeteo ForecastData).
Local Abbreviation forecastExtended :=
  (@get_api_forecast_extended OpenMeteo ForecastData reshape).

Ltac run_monad :=
  cbv [try_catch bind ret throw lift readCache writeCache Date_now].

(** *** The avalanche endpoint, case by case *)

Lemma avalanche_hit (w : World') :
  isCacheValid (clock w) (avalanche (cache w)) = true ->
  avalancheVanoise w =
  (Ok (res_json (orNull JBulletin (data (avalanche (cache w))))), w).
Proof.
  intros H. unfold get_api_avalanche_vanoise. run_monad. rewrite H. reflexivity.
Qed.

Lemma avalanche_miss_rejected (w : World') (message : string) :
  isCacheValid (clock w) (avalanche (cache w)) = false ->
  fst (axios_get_BRA w) = Throw message ->
  avalancheVanoise w =
  (Ok (res_json (JBulletin (getFallbackBulletin (clock (snd (axios_get_BRA w)))))),
   snd (axios_get_BRA w)).
Proof.
  intros H Hget. unfold get_api_avalanche_vanoise. run_monad. rewrite H.
  destruct (axios_get_BRA w) as [[xml|e] w1]; [discriminate|]. reflexivity.
Qed.

Lemma avalanche_miss_resolved (w : World') (xml : BRA) :
  isCacheValid (clock w) (avalanche (cache w)) = false ->
  fst (axios_get_BRA w) = Ok xml ->
  exists b w1,
    avalancheVanoise w = (Ok (res_json (JBulletin b)), w1) /\
    overallRisk b =
      JS.max (parseInt (or_string (LOC1 xml) "3")) (parseInt (or_string (LOC2 xml) "2")) /\
    elevationBands b =
      generateElevationBands (parseInt (or_string (LOC1 xml) "3"))
                             (parseInt (or_string (LOC2 xml) "2")) /\
    bulletin_error b = None /\
    cache w1 =
      set_avalanche {| data := Some b; timestamp := Some (clock w1); cacheKey := None |}
                    (cache w) /\
    clock w1 = clock (snd (axios_get_BRA w)) /\
    outbound w1 = outbound (snd (axios_get_BRA w)).
Proof.
  intros H Hget. unfold get_api_avalanche_vanoise. run_monad. rewrite H.
  destruct (axios_get_BRA w) as [[xml'|e] w1] eqn:Hw1; [|discriminate].
  cbn [fst] in Hget. inversion Hget. subst xml'.
  eexists. eexists. split; [reflexivity|].
  cbn [overallRisk elevationBands bulletin_error cache clock outbound snd].
  assert (Hc : cache w1 = cache w).
  { unfold axios_get_BRA in Hw1. destruct (settle (meteoFrance w)) as [[l o] rest].
    inversion Hw1. reflexivity. }
  rewrite Hc. repeat split.
Qed.

Lemma axios_get_BRA_world (w : World') :
  cache (snd (axios_get_BRA w)) = cache w /\
  clock w <= clock (snd (axios_get_BRA w)) /\
  outbound (snd (axios_get_BRA w)) = push (outbound w) GET_BRA_VANOISE_xml.
Proof.
  unfold axios_get_BRA. destruct (settle (meteoFrance w)) as [[l o] rest].
  cbn [snd cache clock outbound]. repeat split. lia.
Qed.

Lemma axios_get_BRA_rejects (w : World') :
  (forall latency xml rest, meteoFrance w <> Resolves latency xml :: rest) ->
  exists message, fst (axios_get_BRA w) = Throw message.
Proof.
  intros H. unfold axios_get_BRA.
  destruct (meteoFrance w) as [|[l m|l xml] rest] eqn:Hm; cbn [settle fst].
  - eexists. reflexivity.
  - eexists. reflexivity.
  - exfalso. eapply H. reflexivity.
Qed.

Lemma axios_get_BRA_resolves (w : World') latency xml rest :
  meteoFrance w = Resolves latency xml :: rest ->
  fst (axios_get_BRA w) = Ok xml /\
  clock (snd (axios_get_BRA w)) = clock w + Z.of_N latency.
Proof.
  intros H. unfold axios_get_BRA. rewrite H. cbn. split; reflexivity.
Qed.

(** A request that misses the cache goes upstream, whatever comes back. *)
Lemma avalanche_miss_outbound (w : World') :
  isCacheValid (clock w) (avalanche (cache w)) = false ->
  outbound (snd (avalancheVanoise w)) = push (outbound w) GET_BRA_VANOISE_xml.
Proof.
  intros H. destruct (fst (axios_get_BRA w)) as [xml|message] eqn:Hget.
  - destruct (avalanche_miss_resolved w xml H Hget) as (b & w1 & Heq & _ & _ & _ & _ & _ & Ho).
    rewrite Heq. cbn [snd]. rewrite Ho. apply axios_get_BRA_world.
  - rewrite (avalanche_miss_rejected w message H Hget). cbn [snd].
    apply axios_get_BRA_world.
Qed.

(** *** The warnings endpoint, case by case *)

Lemma warnings_hit (w : World') :
  isCacheValid (clock w) (warnings (cache w)) = true ->
  warningsSavoie w =
  (Ok (res_json (orNull JWarnings (data (warnings (cache w))))), w).
Proof.
  intros H. unfold get_api_warnings_savoie. run_monad. rewrite H. reflexivity.
Qed.

Lemma warnings_miss (w : World') :
  isCacheValid (clock w) (warnings (cache w)) = false ->
  exists r w1,
    warningsSavoie w = (Ok (res_json (JWarnings r)), w1) /\
    alerts r = [] /\
    cache w1 =
      set_warnings {| data := Some r; timestamp := Some (clock w); cacheKey := None |}
                   (cache w) /\
    clock w1 = clock w /\
    outbound w1 = outbound w.
Proof.
  intros H. unfold get_api_warnings_savoie. run_monad. rewrite H.
  eexists. eexists. split; [reflexivity|]. repeat split.
Qed.

(** *** The forecast endpoint, case by case *)

Lemma forecast_hit (query : Query) (w : World') :
  forecastHit query w = true ->
  forecastExtended query w =
  (Ok (res_json (orNull JForecast (data (extendedForecast (cache w))))), w).
Proof.
  unfold forecastHit, cacheKeyOf, forecastDaysOf. intros H.
  unfold get_api_forecast_extended. run_monad. rewrite H. reflexivity.
Qed.

Lemma forecast_miss_rejected (query : Query) (w : World') (message : string) :
  forecastHit query w = false ->
  fst (axios_get_forecast query w) = Throw message ->
  forecastExtended query w =
  (Ok (res_status_json 500 (JError "Failed to fetch extended forecast" message)),
   snd (axios_get_forecast query w)).
Proof.
  unfold forecastHit, cacheKeyOf, forecastDaysOf, axios_get_forecast. intros H Hget.
  unfold get_api_forecast_extended. run_monad. rewrite H.
  destruct (axios_get_open_meteo _ _ _ w) as [[d|e] w1]; [discriminate|].
  cbn [fst] in Hget. inversion Hget. reflexivity.
Qed.

Lemma forecast_miss_resolved (query : Query) (w : World') (document : OpenMeteo) :
  forecastHit query w = false ->
  fst (axios_get_forecast query w) = Ok document ->
  let w1 := snd (axios_get_forecast query w) in
  forecastExtended query w =
  match reshape (or_string (lat query) "45.4") (or_string (lon query) "6.57")
                (forecastDaysOf query) (clock w1) document with
  | Ok forecastData =>
      (Ok (res_json (JForecast forecastData)),
       {| cache := set_extendedForecast
                     {| data := Some forecastData; timestamp := Some (clock w1);
                        cacheKey := Some (cacheKeyOf query) |} (cache w1);
          clock := clock w1; meteoFrance := meteoFrance w1;
          openMeteo := openMeteo w1; outbound := outbound w1 |})
  | Throw message =>
      (Ok (res_status_json 500 (JError "Failed to fetch extended forecast" message)), w1)
  end.
Proof.
  unfold forecastHit, cacheKeyOf, forecastDaysOf, axios_get_forecast. intros H Hget.
  unfold get_api_forecast_extended. run_monad. rewrite H.
  destruct (axios_get_open_meteo _ _ _ w) as [[d|e] w1]; [|discriminate].
  cbn [fst] in Hget. inversion Hget. subst d. cbn [snd].
  destruct (reshape _ _ _ _ document); reflexivity.
Qed.

Lemma axios_get_forecast_world (query : Query) (w : World') :
  cache (snd (axios_get_forecast query w)) = cache w /\
  clock w <= clock (snd (axios_get_forecast query w)) /\
  (List.length (outbound (snd (axios_get_forecast query w)))
   = S (List.length (outbound w)))%nat.
Proof.
  unfold axios_get_forecast, axios_get_open_meteo.
  destruct (settle (openMeteo w)) as [[l o] rest].
  cbn [snd cache clock outbound]. repeat split; [lia|].
  unfold push. rewrite length_app. simpl. lia.
Qed.

(** *** No exception escapes a handler *)

Lemma handle_answers (request : Request) (w : World') :
  exists r w1, handle reshape request w = (Ok r, w1).
Proof.
  destruct request as [| |query| |]; cbn [handle].
  - destruct (isCacheValid (clock w) (avalanche (cache w))) eqn:Hv.
    + eexists. eexists. apply (avalanche_hit w Hv).
    + destruct (fst (axios_get_BRA w)) as [xml|message] eqn:Hget.
      * destruct (avalanche_miss_resolved w xml Hv Hget) as (b & w1 & Heq & _).
        eexists. eexists. exact Heq.
      * eexists. eexists. apply (avalanche_miss_rejected w message Hv Hget).
  - destruct (isCacheValid (clock w) (warnings (cache w))) eqn:Hv.
    + eexists. eexists. apply (warnings_hit w Hv).
    + destruct (warnings_miss w Hv) as (r & w1 & Heq & _).
      eexists. eexists. exact Heq.
  - destruct (forecastHit query w) eqn:Hv.
    + eexists. eexists. apply (forecast_hit query w Hv).
    + destruct (fst (axios_get_forecast query w)) as [document|message] eqn:Hget.
      * rewrite (forecast_miss_resolved query w document Hv Hget). cbv zeta.
        destruct (reshape _ _ _ _ document); eexists; eexists; reflexivity.
      * eexists. eexists. apply (forecast_miss_rejected query w message Hv Hget).
  - eexists. eexists. reflexivity.
  - eexists. eexists. reflexivity.
Qed.

(** A document the reshaping loop chokes on is answered like a failed
    request. *)
Lemma forecast_reshape_failure (query : Query) (w : World') (document : OpenMeteo)
    (message : string) :
  forecastHit query w = false ->
  fst (axios_get_forecast query w) = Ok document ->
  reshape (or_string (lat query) "45.4") (or_string (lon query) "6.57")
          (forecastDaysOf query) (clock (snd (axios_get_forecast query w))) document
  = Throw message ->
  fst (forecastExtended query w)
  = Ok (res_status_json 500 (JError "Failed to fetch extended forecast" message)).
Proof.
  intros Hv Hget Hthrow.
  rewrite (forecast_miss_resolved query w document Hv Hget). cbv zeta.
  rewrite Hthrow. reflexivity.
Qed.

(** *** The structured parser *)

(** C3: on a cache miss with the bulletin document at hand, the handler
    reads the high-altitude and low-altitude risks ([LOC1], [LOC2],
    defaulting to 3 and 2 when absent), reports [max(high, low)] as the
    overall risk and [max(high - 1, low)] as the risk of the middle band.
    When the two attributes spell integers in decimal, high and low are the
    doubles nearest to them, that is, the integers themselves below 2^53,
    where the subtraction is exact as well; high 4 and low 2 give overall 4
    and middle band 3, and a high risk spelled 9007199254740993 (2^53 + 1)
    gives overall 9007199254740992 and middle band 9007199254740991. *)
Theorem structured_parser_risks (w : World') (latency : N) (xml : BRA)
    (rest : list (Reply BRA)) :
  isCacheValid (clock w) (avalanche (cache w)) = false ->
  meteoFrance w = Resolves latency xml :: rest ->
  let high := parseInt (or_string (LOC1 xml) "3") in
  let low := parseInt (or_string (LOC2 xml) "2") in
  exists b w1,
    avalancheVanoise w = (Ok (res_json (JBulletin b)), w1) /\
    overallRisk b = JS.max high low /\
    map risk (elevationBands b) = [high; JS.max (sub high (Int 1)) low; low] /\
    (LOC1 xml = None -> high = Int 3) /\
    (LOC2 xml = None -> low = Int 2) /\
    (forall h l : Z,
       LOC1 xml = Some (decimal h) -> LOC2 xml = Some (decimal l) ->
       high = toDouble h /\ low = toDouble l /\
       (Z.abs h < 2 ^ 53 -> Z.abs l < 2 ^ 53 ->
        overallRisk b = Int (Z.max h l) /\
        map risk (elevationBands b) = [Int h; Int (Z.max (h - 1) l); Int l])) /\
    (LOC1 xml = Some "4" -> LOC2 xml = Some "2" ->
       overallRisk b = Int 4 /\
       map risk (elevationBands b) = [Int 4; Int 3; Int 2]) /\
    (LOC1 xml = Some "9007199254740993" -> LOC2 xml = Some "2" ->
       overallRisk b = Int 9007199254740992 /\
       map risk (elevationBands b)
       = [Int 9007199254740992; Int 9007199254740991; Int 2]).
Proof.
  intros Hmiss Hreply high low.
  destruct (axios_get_BRA_resolves w latency xml rest Hreply) as [Hget _].
  destruct (avalanche_miss_resolved w xml Hmiss Hget)
    as (b & w1 & Heq & Hrisk & Hbands & _).
  exists b, w1. fold high low in Hrisk, Hbands.
  split; [exact Heq|]. split; [exact Hrisk|].
  rewrite Hrisk, Hbands. unfold generateElevationBands. cbn [map risk].
  split; [reflexivity|].
  split; [intros H; subst high; rewrite H; reflexivity|].
  split; [intros H; subst low; rewrite H; reflexivity|].
  split.
  - intros h l Hh Hl. subst high low.
    rewrite Hh, Hl, !or_string_decimal, !parseInt_decimal.
    split; [reflexivity|]. split; [reflexivity|]. intros Hsafe Hsafe'.
    rewrite (toDouble_exact h), (toDouble_exact l) by lia. cbn [sub].
    rewrite (toDouble_exact (h - 1)) by lia. split; reflexivity.
  - split; intros H1 H2; subst high low; rewrite H1, H2; split; vm_compute; reflexivity.
Qed.

(** *** What the client sees *)

(** C8: the avalanche and the warnings endpoints always answer 200 with a
    bulletin, respectively a warnings resource, as JSON body; when the
    upstream request fails the bulletin is the fallback one, labelled as
    such and carrying an [error] text.  The extended-forecast endpoint
    answers 500 with [error] and [message] fields when its upstream
    request fails. *)
Theorem endpoints_failure_contract :
  (forall w : World', exists b w1,
     avalancheVanoise w = (Ok {| status := 200; body := JBulletin b |}, w1)) /\
  (forall w : World',
     isCacheValid (clock w) (avalanche (cache w)) = false ->
     (forall latency xml rest, meteoFrance w <> Resolves latency xml :: rest) ->
     exists b w1,
       avalancheVanoise w = (Ok {| status := 200; body := JBulletin b |}, w1) /\
       dataSource b = "Fallback - Unable to connect to Météo-France" /\
       bulletin_error b
       = Some "Connection to Météo-France failed. Please check the official bulletin.") /\
  (forall w : World', exists r w1,
     warningsSavoie w = (Ok {| status := 200; body := JWarnings r |}, w1)) /\
  (forall (query : Query) (w : World') latency message rest,
     forecastHit query w = false ->
     openMeteo w = Rejects latency message :: rest ->
     exists w1,
       forecastExtended query w =
       (Ok {| status := 500;
              body := JError "Failed to fetch extended forecast" message |}, w1)).
Proof.
  split; [|split; [|split]].
  - intros w. destruct (isCacheValid (clock w) (avalanche (cache w))) eqn:Hv.
    + destruct (isCacheValid_data _ _ Hv) as [d Hd].
      exists d, w. rewrite (avalanche_hit w Hv), Hd. reflexivity.
    + destruct (fst (axios_get_BRA w)) as [xml|message] eqn:Hget.
      * destruct (avalanche_miss_resolved w xml Hv Hget) as (b & w1 & Heq & _).
        exists b, w1. exact Heq.
      * eexists. eexists. rewrite (avalanche_miss_rejected w message Hv Hget).
        reflexivity.
  - intros w Hv Hrej. destruct (axios_get_BRA_rejects w Hrej) as [message Hget].
    eexists. eexists. rewrite (avalanche_miss_rejected w message Hv Hget).
    split; [reflexivity|]. split; reflexivity.
  - intros w. destruct (isCacheValid (clock w) (warnings (cache w))) eqn:Hv.
    + destruct (isCacheValid_data _ _ Hv) as [d Hd].
      exists d, w. rewrite (warnings_hit w Hv), Hd. reflexivity.
    + destruct (warnings_miss w Hv) as (r & w1 & Heq & _).
      exists r, w1. exact Heq.
  - intros query w latency message rest Hmiss Hreply.
    eexists. apply (forecast_miss_rejected query w message Hmiss).
    unfold axios_get_forecast, axios_get_open_meteo. rewrite Hreply. reflexivity.
Qed.

(** *** The fallback bulletin and the cache *)

(** C1, as the code has it: when the upstream request fails, the handler
    answers with the fallback bulletin and leaves the cache as it was; the
    next request, however soon it comes, goes upstream again. *)
Theorem fallback_bulletin_not_cached (w : World') :
  isCacheValid (clock w) (avalanche (cache w)) = false ->
  (forall latency xml rest, meteoFrance w <> Resolves latency xml :: rest) ->
  exists w1,
    avalancheVanoise w
    = (Ok (res_json (JBulletin (getFallbackBulletin (clock w1)))), w1) /\
    cache w1 = cache w /\
    outbound w1 = push (outbound w) GET_BRA_VANOISE_xml /\
    forall delay : N,
      outbound (snd (avalancheVanoise (tick delay w1)))
      = push (outbound w1) GET_BRA_VANOISE_xml.
Proof.
  intros Hv Hrej. destruct (axios_get_BRA_rejects w Hrej) as [message Hget].
  destruct (axios_get_BRA_world w) as (Hc & Ht & Ho).
  exists (snd (axios_get_BRA w)).
  split; [apply (avalanche_miss_rejected w message Hv Hget)|].
  split; [exact Hc|]. split; [exact Ho|].
  intros delay. apply (avalanche_miss_outbound (tick delay (snd (axios_get_BRA w)))).
  cbn [tick cache clock]. rewrite Hc.
  apply (isCacheValid_false_later (clock w)); [lia | exact Hv].
Qed.

(** *** Two requests within the time to live *)

Lemma isCacheValid_intro {A : Type} (now t : Z) (d : A) (e : CacheEntry A) :
  data e = Some d -> timestamp e = Some t -> t <> 0 ->
  now - t < CACHE_DURATION -> isCacheValid now e = true.
Proof.
  intros Hd Ht Hne Hlt. apply isCacheValid_iff. exists d, t.
  repeat split; assumption.
Qed.

Lemma avalanche_again (w : World') (r1 : Response ForecastData) (w1 : World')
    (t : Z) (delay : N) :
  avalancheVanoise w = (Ok r1, w1) ->
  degraded r1 = false ->
  timestamp (avalanche (cache w1)) = Some t -> t <> 0 ->
  clock w1 + Z.of_N delay - t < CACHE_DURATION ->
  avalancheVanoise (tick delay w1) = (Ok r1, tick delay w1) /\
  (List.length (outbound w1) <= S (List.length (outbound w)))%nat.
Proof.
  intros Hrun Hdeg Ht Hne Hlt.
  destruct (isCacheValid (clock w) (avalanche (cache w))) eqn:Hv.
  - rewrite (avalanche_hit w Hv) in Hrun. inversion Hrun. subst w1.
    destruct (isCacheValid_data _ _ Hv) as [d Hd]. split; [|lia].
    rewrite (avalanche_hit (tick delay w)); [reflexivity|].
    apply (isCacheValid_intro _ t d); assumption.
  - destruct (fst (axios_get_BRA w)) as [xml|message] eqn:Hget.
    + destruct (avalanche_miss_resolved w xml Hv Hget)
        as (b & w1' & Heq & _ & _ & _ & Hc & _ & Ho).
      rewrite Heq in Hrun. inversion Hrun. subst w1' r1. split.
      * rewrite (avalanche_hit (tick delay w1)).
        -- cbn [tick cache]. rewrite Hc. reflexivity.
        -- cbn [tick cache clock]. apply (isCacheValid_intro _ t b);
             try assumption. rewrite Hc. reflexivity.
      * rewrite Ho. destruct (axios_get_BRA_world w) as (_ & _ & Hpush).
        rewrite Hpush. unfold push. rewrite length_app. simpl. lia.
    + rewrite (avalanche_miss_rejected w message Hv Hget) in Hrun.
      inversion Hrun. subst r1. discriminate Hdeg.
Qed.

Lemma warnings_again (w : World') (r1 : Response ForecastData) (w1 : World')
    (t : Z) (delay : N) :
  warningsSavoie w = (Ok r1, w1) ->
  timestamp (warnings (cache w1)) = Some t -> t <> 0 ->
  clock w1 + Z.of_N delay - t < CACHE_DURATION ->
  warningsSavoie (tick delay w1) = (Ok r1, tick delay w1) /\
  (List.length (outbound w1) <= S (List.length (outbound w)))%nat.
Proof.
  intros Hrun Ht Hne Hlt.
  destruct (isCacheValid (clock w) (warnings (cache w))) eqn:Hv.
  - rewrite (warnings_hit w Hv) in Hrun. inversion Hrun. subst w1.
    destruct (isCacheValid_data _ _ Hv) as [d Hd]. split; [|lia].
    rewrite (warnings_hit (tick delay w)); [reflexivity|].
    apply (isCacheValid_intro _ t d); assumption.
  - destruct (warnings_miss w Hv) as (r & w1' & Heq & _ & Hc & _ & Ho).
    rewrite Heq in Hrun. inversion Hrun. subst w1' r1. split; [|rewrite Ho; lia].
    rewrite (warnings_hit (tick delay w1)).
    + cbn [tick cache]. rewrite Hc. reflexivity.
    + cbn [tick cache clock]. apply (isCacheValid_intro _ t r);
        try assumption. rewrite Hc. reflexivity.
Qed.

Lemma forecast_again (query : Query) (w : World') (r1 : Response ForecastData)
    (w1 : World') (t : Z) (delay : N) :
  forecastExtended query w = (Ok r1, w1) ->
  degraded r1 = false ->
  timestamp (extendedForecast (cache w1)) = Some t -> t <> 0 ->
  clock w1 + Z.of_N delay - t < CACHE_DURATION ->
  forecastExtended query (tick delay w1) = (Ok r1, tick delay w1) /\
  (List.length (outbound w1) <= S (List.length (outbound w)))%nat.
Proof.
  intros Hrun Hdeg Ht Hne Hlt.
  destruct (forecastHit query w) eqn:Hv.
  - rewrite (forecast_hit query w Hv) in Hrun. inversion Hrun. subst w1.
    split; [|lia]. rewrite (forecast_hit query (tick delay w)); [reflexivity|].
    unfold forecastHit in *. cbn [tick cache clock].
    apply andb_true_iff in Hv as [Hvalid Hkey]. rewrite Hkey, andb_true_r.
    destruct (isCacheValid_data _ _ Hvalid) as [d Hd].
    apply (isCacheValid_intro _ t d); assumption.
  - destruct (fst (axios_get_forecast query w)) as [document|message] eqn:Hget.
    + pose proof (forecast_miss_resolved query w document Hv Hget) as Heq.
      cbv zeta in Heq. destruct (axios_get_forecast_world query w) as (_ & _ & Hlen).
      destruct (reshape _ _ _ _ document) as [forecastData|message].
      * rewrite Heq in Hrun. inversion Hrun. subst w1 r1. cbn [outbound].
        split; [|rewrite Hlen; lia].
        rewrite (forecast_hit query); [reflexivity|].
        unfold forecastHit. cbn [tick cache clock extendedForecast
          set_extendedForecast cacheKey] in *.
        rewrite String.eqb_refl, andb_true_r.
        apply (isCacheValid_intro _ t forecastData); try assumption; reflexivity.
      * rewrite Heq in Hrun. inversion Hrun. subst r1. discriminate Hdeg.
    + rewrite (forecast_miss_rejected query w message Hv Hget) in Hrun.
      inversion Hrun. subst r1. discriminate Hdeg.
Qed.

(** C2, as the code has it: a cache lookup is a hit exactly when the entry
    has a payload and a time stamp other than zero, and now minus the time
    stamp is below the six hours of [CACHE_DURATION].  When a call to the
    avalanche, warnings or forecast endpoint was answered without signalling
    failure, a second call (same query) within that window of the slot's
    time stamp goes nowhere upstream and gets the identical response; the
    two calls together made at most one outbound request. *)
Theorem cache_hit_within_ttl :
  CACHE_DURATION = 21600000 /\
  (forall (A : Type) (now : Z) (e : CacheEntry A),
     isCacheValid now e = true <->
     exists d t, data e = Some d /\ timestamp e = Some t /\ t <> 0 /\
                 now - t < 21600000) /\
  (forall (request : Request) (w : World') (r1 : Response ForecastData)
          (w1 : World') (t : Z) (delay : N),
     handle reshape request w = (Ok r1, w1) ->
     degraded r1 = false ->
     slotTimestamp request (cache w1) = Some t -> t <> 0 ->
     clock w1 + Z.of_N delay - t < 21600000 ->
     handle reshape request (tick delay w1) = (Ok r1, tick delay w1) /\
     (List.length (outbound w1) <= S (List.length (outbound w)))%nat).
Proof.
  split; [reflexivity|]. split; [intros A now e; apply isCacheValid_iff|].
  intros request w r1 w1 t delay Hrun Hdeg Ht Hne Hlt.
  destruct request as [| |query| |]; cbn [handle slotTimestamp] in *.
  - eapply avalanche_again; eassumption.
  - eapply warnings_again; eassumption.
  - eapply forecast_again; eassumption.
  - discriminate Ht.
  - discriminate Ht.
Qed.

(** *** Alerts *)

Lemma warnings_noAlerts (w : World') :
  noAlertsCached (cache w) ->
  exists r w1,
    warningsSavoie w = (Ok {| status := 200; body := JWarnings r |}, w1) /\
    alerts r = [] /\ noAlertsCached (cache w1).
Proof.
  intros Hinv. destruct (isCacheValid (clock w) (warnings (cache w))) eqn:Hv.
  - destruct (isCacheValid_data _ _ Hv) as [d Hd].
    exists d, w. rewrite (warnings_hit w Hv), Hd.
    split; [reflexivity|]. split; [apply Hinv, Hd | exact Hinv].
  - destruct (warnings_miss w Hv) as (r & w1 & Heq & Hr & Hc & _).
    exists r, w1. split; [exact Heq|]. split; [exact Hr|].
    intros r' Hr'. rewrite Hc in Hr'. cbn in Hr'. inversion Hr'. subst r'. exact Hr.
Qed.

Lemma handle_keeps_noAlerts (request : Request) (w : World') :
  noAlertsCached (cache w) ->
  noAlertsCached (cache (snd (handle reshape request w))).
Proof.
  intros Hinv. destruct request as [| |query| |]; cbn [handle].
  - destruct (isCacheValid (clock w) (avalanche (cache w))) eqn:Hv.
    + rewrite (avalanche_hit w Hv). exact Hinv.
    + destruct (fst (axios_get_BRA w)) as [xml|message] eqn:Hget.
      * destruct (avalanche_miss_resolved w xml Hv Hget)
          as (b & w1 & Heq & _ & _ & _ & Hc & _).
        rewrite Heq. cbn [snd]. intros r Hr. rewrite Hc in Hr. apply Hinv, Hr.
      * rewrite (avalanche_miss_rejected w message Hv Hget). cbn [snd].
        destruct (axios_get_BRA_world w) as (Hc & _). rewrite Hc. exact Hinv.
  - destruct (warnings_noAlerts w Hinv) as (r & w1 & Heq & _ & Hinv1).
    rewrite Heq. exact Hinv1.
  - destruct (forecastHit query w) eqn:Hv.
    + rewrite (forecast_hit query w Hv). exact Hinv.
    + destruct (axios_get_forecast_world query w) as (Hc & _).
      destruct (fst (axios_get_forecast query w)) as [document|message] eqn:Hget.
      * rewrite (forecast_miss_resolved query w document Hv Hget). cbv zeta.
        destruct (reshape _ _ _ _ document); cbn [snd cache];
          intros r Hr; rewrite ?Hc in Hr; apply Hinv, Hr.
      * rewrite (forecast_miss_rejected query w message Hv Hget). cbn [snd].
        rewrite Hc. exact Hinv.
  - exact Hinv.
  - exact Hinv.
Qed.

Lemma run_noAlerts (requests : list (N * Request)) (w : World') :
  noAlertsCached (cache w) ->
  Forall warningsWithoutAlerts (fst (run reshape requests w)).
Proof.
  revert w. induction requests as [|[delay request] rest IH]; intros w Hinv.
  - constructor.
  - cbn [run].
    assert (Hinv0 : noAlertsCached (cache (tick delay w))) by exact Hinv.
    pose proof (handle_keeps_noAlerts request (tick delay w) Hinv0) as Hinv1.
    assert (Hhead : warningsWithoutAlerts
                      (request, fst (handle reshape request (tick delay w)))).
    { destruct request; cbn [warningsWithoutAlerts]; try exact I.
      cbn [handle]. destruct (warnings_noAlerts (tick delay w) Hinv0)
        as (r & w1 & Heq & Hr & _).
      rewrite Heq. exists r. split; [reflexivity | exact Hr]. }
    destruct (handle reshape request (tick delay w)) as [result w1].
    specialize (IH w1 Hinv1). destruct (run reshape rest w1) as [results w2].
    constructor; assumption.
Qed.

(** C10: in the final revision, whatever requests the server has handled
    since it started and whatever the upstream services replied, every
    answer of the warnings endpoint is a warnings resource with an empty
    list of alerts. *)
Theorem warnings_alerts_always_empty (clock0 : Z) (bra : list (Reply BRA))
    (om : list (Reply OpenMeteo)) (requests : list (N * Request)) :
  Forall warningsWithoutAlerts (fst (run reshape requests (boot clock0 bra om))).
Proof.
  apply run_noAlerts. intros r Hr. discriminate Hr.
Qed.

End ServerProperties.

(** ** The properties on sample runs *)

Lemma structured_parser_risks_witness :
  exists b w1,
    get_api_avalanche_vanoise upstreamUp = (Ok (res_json (JBulletin b)), w1) /\
    overallRisk b = Int 4 /\
    map risk (elevationBands b) = [Int 4; Int 3; Int 2].
Proof.
  destruct (structured_parser_risks upstreamUp 70
              {| LOC1 := Some "4"; LOC2 := Some "2";
                 DateValidite := "2025-01-15T16:00:00" |} [] eq_refl eq_refl)
    as (b & w1 & Heq & _ & _ & _ & _ & _ & H42 & _).
  exists b, w1. split; [exact Heq|]. exact (H42 eq_refl eq_refl).
Defined.

Lemma endpoints_failure_contract_witness :
  exists w1,
    get_api_forecast_extended sampleReshape defaultQuery upstreamDown =
    (Ok {| status := 500;
           body := JError "Failed to fetch extended forecast"
                          "Request failed with status code 502" |}, w1).
Proof.
  exact (proj2 (proj2 (proj2 (endpoints_failure_contract sampleReshape)))
           defaultQuery upstreamDown 120%N "Request failed with status code 502"
           [Rejects 120 "Request failed with status code 502"] eq_refl eq_refl).
Defined.

Lemma fallback_bulletin_not_cached_witness :
  exists w1 : SampleWorld,
    get_api_avalanche_vanoise upstreamDown
    = (Ok (res_json (JBulletin (getFallbackBulletin (clock w1)))), w1) /\
    cache w1 = cache upstreamDown.
Proof.
  destruct (fallback_bulletin_not_cached upstreamDown eq_refl
              ltac:(intros latency xml rest H; discriminate H))
    as (w1 & Heq & Hc & _).
  exists w1. split; [exact Heq | exact Hc].
Defined.

(** C1 as the specification words it fails: with the upstream service
    down, the first request leaves the avalanche slot empty, and a second
    request one second later goes upstream again. *)
Lemma fallback_is_fetched_again :
  map snd (fst (run sampleReshape
                  [(0%N, GET_avalanche_vanoise); (1000%N, GET_avalanche_vanoise)]
                  upstreamDown))
  = [ Ok (res_json (JBulletin (getFallbackBulletin 1700000010000)));
      Ok (res_json (JBulletin (getFallbackBulletin 1700000021000))) ] /\
  avalanche (cache (snd (get_api_avalanche_vanoise upstreamDown))) = emptyEntry /\
  outbound (snd (run sampleReshape
                   [(0%N, GET_avalanche_vanoise); (1000%N, GET_avalanche_vanoise)]
                   upstreamDown))
  = [GET_BRA_VANOISE_xml; GET_BRA_VANOISE_xml].
Proof.
  split; [vm_compute; reflexivity|]. split; vm_compute; reflexivity.
Qed.

Lemma cache_hit_within_ttl_witness :
  handle sampleReshape GET_avalanche_vanoise
    (tick 1000 (snd (handle sampleReshape GET_avalanche_vanoise upstreamUp)))
  = (Ok firstAnswer,
     tick 1000 (snd (handle sampleReshape GET_avalanche_vanoise upstreamUp))).
Proof.
  refine (proj1 (proj2 (proj2 (cache_hit_within_ttl sampleReshape))
                   GET_avalanche_vanoise upstreamUp firstAnswer
                   (snd (handle sampleReshape GET_avalanche_vanoise upstreamUp))
                   1700000000070 1000%N eq_refl eq_refl eq_refl _ _)).
  - discriminate.
  - reflexivity.
Defined.

(** C2 as the specification words it fails: an entry with a payload and
    the time stamp 0 is a miss one second later; and two forecast requests
    one second apart, the first of which failed, both go upstream. *)
Lemma cache_misses_within_ttl :
  isCacheValid 1000 {| data := Some "payload"; timestamp := Some 0; cacheKey := None |}
  = false /\
  1000 - 0 < 21600000 /\
  map (fun entry => match snd entry with
                    | Ok r => status r
                    | Throw _ => 0
                    end)
      (fst (run sampleReshape
              [(0%N, GET_forecast_extended defaultQuery);
               (1000%N, GET_forecast_extended defaultQuery)] upstreamDown))
  = [500; 500] /\
  outbound (snd (run sampleReshape
                   [(0%N, GET_forecast_extended defaultQuery);
                    (1000%N, GET_forecast_extended defaultQuery)] upstreamDown))
  = [ GET_open_meteo_forecast "45.4" "6.57" (Int 7);
      GET_open_meteo_forecast "45.4" "6.57" (Int 7) ] /\
  outbound (snd (run sampleReshape
                   [(0%N, GET_avalanche_vanoise); (1000%N, GET_avalanche_vanoise)]
                   upstreamDown))
  = [GET_BRA_VANOISE_xml; GET_BRA_VANOISE_xml].
Proof.
  split; [reflexivity|]. split; [lia|].
  split; [vm_compute; reflexivity|]. split; vm_compute; reflexivity.
Qed.

(** * Further properties *)

(** ** The forecast avalanche-risk bucket as a decision table *)

Lemma estimateAvalancheRisk_cases (snowfall windSpeed temp : option Q) :
  estimateAvalancheRisk snowfall windSpeed temp =
  if exceeds snowfall 20 || (exceeds snowfall 10 && exceeds windSpeed 40)
  then "considerable"
  else if exceeds snowfall 10 || exceeds windSpeed 40
          || (exceeds temp 0 && exceeds snowfall 5)
  then "moderate"
  else "low".
Proof.
  unfold estimateAvalancheRisk.
  destruct (exceeds snowfall 20), (exceeds snowfall 10), (exceeds windSpeed 40),
    (exceeds temp 0), (exceeds snowfall 5); reflexivity.
Qed.

Lemma exceeds_mono (x y c : Q) :
  (x <= y)%Q -> exceeds (Some x) c = true -> exceeds (Some y) c = true.
Proof.
  unfold exceeds. intros Hxy Hx.
  apply negb_true_iff in Hx. apply negb_true_iff.
  destruct (Qle_bool y c) eqn:Hy; [|reflexivity].
  apply Qle_bool_iff in Hy.
  assert (Hxc : Qle_bool x c = true)
    by (apply Qle_bool_iff; eapply Qle_trans; eassumption).
  congruence.
Qed.

(** X1: the bucket is "considerable" exactly when the snowfall is above 20,
    or above 10 with wind above 40; so wind and warmth without more than 10
    of snowfall never give more than "moderate".  It is "low" exactly when
    none of the three rules fires. *)
Theorem estimateAvalancheRisk_table (snowfall windSpeed temp : option Q) :
  (estimateAvalancheRisk snowfall windSpeed temp = "considerable" <->
     exceeds snowfall 20 = true \/
     (exceeds snowfall 10 = true /\ exceeds windSpeed 40 = true)) /\
  (estimateAvalancheRisk snowfall windSpeed temp = "low" <->
     exceeds snowfall 10 = false /\ exceeds windSpeed 40 = false /\
     (exceeds temp 0 = false \/ exceeds snowfall 5 = false)) /\
  (exceeds snowfall 10 = false ->
     estimateAvalancheRisk snowfall windSpeed temp <> "considerable").
Proof.
  assert (H20 : exceeds snowfall 20 = true -> exceeds snowfall 10 = true).
  { destruct snowfall as [q|]; [|discriminate]. unfold exceeds.
    rewrite !negb_true_iff. intros H.
    destruct (Qle_bool q 10) eqn:H10; [|reflexivity].
    apply Qle_bool_iff in H10.
    assert (Hc : Qle_bool q 20 = true).
    { apply Qle_bool_iff. eapply Qle_trans; [exact H10|].
      unfold Qle; simpl; lia. }
    congruence. }
  rewrite estimateAvalancheRisk_cases.
  destruct (exceeds snowfall 20), (exceeds snowfall 10), (exceeds windSpeed 40),
    (exceeds temp 0), (exceeds snowfall 5); cbn;
    try (specialize (H20 eq_refl); discriminate H20);
    (split; [|split]);
    try (split; intros H); try intros H;
    try discriminate; try reflexivity; try tauto;
    try (destruct H as [H|[H1 H2]]; discriminate);
    try (destruct H as (H1 & H2 & [H3|H3]); discriminate).
Qed.

(** X2: the bucket never goes down when the snowfall, the wind speed or
    the temperature goes up. *)
Theorem estimateAvalancheRisk_monotone (s s' w w' t t' : Q) :
  (s <= s')%Q -> (w <= w')%Q -> (t <= t')%Q ->
  (bucketRank (estimateAvalancheRisk (Some s) (Some w) (Some t))
   <= bucketRank (estimateAvalancheRisk (Some s') (Some w') (Some t')))%nat.
Proof.
  intros Hs Hw Ht. rewrite !estimateAvalancheRisk_cases.
  pose proof (exceeds_mono s s' 20 Hs) as M20.
  pose proof (exceeds_mono s s' 10 Hs) as M10.
  pose proof (exceeds_mono s s' 5 Hs) as M5.
  pose proof (exceeds_mono w w' 40 Hw) as M40.
  pose proof (exceeds_mono t t' 0 Ht) as M0.
  destruct (exceeds (Some s) 20) eqn:E20, (exceeds (Some s) 10) eqn:E10,
    (exceeds (Some s) 5) eqn:E5, (exceeds (Some w) 40) eqn:E40,
    (exceeds (Some t) 0) eqn:E0;
    try rewrite (M20 eq_refl); try rewrite (M10 eq_refl);
    try rewrite (M5 eq_refl); try rewrite (M40 eq_refl);
    try rewrite (M0 eq_refl);
    destruct (exceeds (Some s') 20), (exceeds (Some s') 10), (exceeds (Some s') 5),
      (exceeds (Some w') 40), (exceeds (Some t') 0); cbn; lia.
Qed.

Lemma estimateAvalancheRisk_monotone_witness :
  (bucketRank (estimateAvalancheRisk (Some 5%Q) (Some 30%Q) (Some (-5)%Q))
   <= bucketRank (estimateAvalancheRisk (Some 12%Q) (Some 45%Q) (Some 1%Q)))%nat.
Proof.
  apply estimateAvalancheRisk_monotone; unfold Qle; simpl; lia.
Defined.

(** ** The list of avalanche problems *)

Lemma ge_3_2 (level : number) : ge level (Int 3) = true -> ge level (Int 2) = true.
Proof.
  destruct level as [|z|[|]]; simpl; [discriminate | | discriminate | reflexivity].
  rewrite !Z.leb_le. lia.
Qed.

(** X7: the problems listed for a level are "Wind Slab", "Persistent Weak
    Layers" and "Wet Snow" from level 3 up, "Wind Slab" and "Wet Snow" at
    level 2, and the single entry "Generally stable conditions" below
    level 2 or for a level that is not a number; the list is never
    empty. *)
Theorem generateProblems_types (level : number) :
  map type (generateProblems level)
  = (if ge level (Int 3) then ["Wind Slab"; "Persistent Weak Layers"; "Wet Snow"]
     else if ge level (Int 2) then ["Wind Slab"; "Wet Snow"]
     else ["Generally stable conditions"]) /\
  generateProblems level <> [].
Proof.
  pose proof (ge_3_2 level) as H32. unfold generateProblems.
  destruct (ge level (Int 3)) eqn:H3, (ge level (Int 2)) eqn:H2;
    try (specialize (H32 eq_refl); discriminate H32);
    destruct (ge level (Int 4)); cbn; split; (reflexivity || discriminate).
Qed.

Lemma generateProblems_nonempty (level : number) : generateProblems level <> [].
Proof.
  pose proof (ge_3_2 level) as H32. unfold generateProblems.
  destruct (ge level (Int 3)) eqn:H3, (ge level (Int 2)) eqn:H2;
    destruct (ge level (Int 4)); cbn; discriminate.
Qed.

(** ** Levels 4 and 5 *)

(** X17: from level 4 up the problems, the snowpack, the weather and the
    tendency are those of level 4: only the description and the summary
    tell level 5 from level 4.  The snowpack and the weather are the same
    from level 3 up. *)
Theorem risk_rules_saturate (level : number) :
  (ge level (Int 4) = true ->
     generateProblems level = generateProblems (Int 4) /\
     generateSnowpackInfo level = generateSnowpackInfo (Int 4) /\
     generateWeatherInfo level = generateWeatherInfo (Int 4) /\
     generateTendency level = generateTendency (Int 4)) /\
  (ge level (Int 3) = true ->
     generateSnowpackInfo level = generateSnowpackInfo (Int 3) /\
     generateWeatherInfo level = generateWeatherInfo (Int 3)) /\
  getRiskDescription (Int 5) <> getRiskDescription (Int 4) /\
  (forall high low,
     generateDetailedSummary (Int 5) high low <> generateDetailedSummary (Int 4) high low).
Proof.
  split; [|split; [|split]].
  - intros H4.
    assert (H3 : ge level (Int 3) = true)
      by (destruct level as [|z|[|]]; simpl in *;
          [ discriminate | apply Z.leb_le; apply Z.leb_le in H4; lia
          | discriminate | reflexivity ]).
    pose proof (ge_3_2 level H3) as H2.
    unfold generateProblems, generateSnowpackInfo, generateWeatherInfo, generateTendency.
    rewrite H4, H3, H2. repeat split.
  - intros H3. pose proof (ge_3_2 level H3) as H2.
    unfold generateSnowpackInfo, generateWeatherInfo. rewrite H3. repeat split.
  - cbv. discriminate.
  - intros high low. unfold generateDetailedSummary.
    destruct (gt high low); cbn; discriminate.
Qed.

(** ** The default bands of the second revision *)

(** X18: the default bands of the second revision clamp the band above
    at 5 and the band below at 1 but leave the middle band as given: for an
    integer level the three risks are min(level + 1, 5), level and
    max(level - 1, 1), the sum and the difference being rounded to doubles,
    which leaves them as they are below 2^53; the risks all lie in 1..5
    exactly when the level does, and exactly then they never go up on the
    way down. *)
Theorem getDefaultElevationBands_clamps (riskLevel : Z) :
  let risks := map risk (Rev2.getDefaultElevationBands (Int riskLevel)) in
  risks = [JS.min (toDouble (riskLevel + 1)) (Int 5); Int riskLevel;
           JS.max (toDouble (riskLevel - 1)) (Int 1)] /\
  (Z.abs riskLevel < 2 ^ 53 ->
   risks = [Int (Z.min (riskLevel + 1) 5); Int riskLevel;
            Int (Z.max (riskLevel - 1) 1)]) /\
  (Forall inScale risks <-> 1 <= riskLevel <= 5) /\
  (nonIncreasing risks = true <-> 1 <= riskLevel <= 5).
Proof.
  cbv zeta. unfold Rev2.getDefaultElevationBands. cbn [map risk sub add].
  split; [reflexivity|]. split; [|split].
  - intros Hsafe.
    rewrite (toDouble_exact (riskLevel + 1)), (toDouble_exact (riskLevel - 1)) by lia.
    reflexivity.
  - split.
    + intros H. inversion H as [|? ? _ H']. inversion H' as [|? ? Hmid _].
      exact Hmid.
    + intros H.
      rewrite (toDouble_exact (riskLevel + 1)), (toDouble_exact (riskLevel - 1)) by lia.
      repeat constructor; simpl; lia.
  - cbn [nonIncreasing]. rewrite andb_true_r, andb_true_iff. split.
    + intros [Htop Hbottom].
      destruct (toDouble (riskLevel + 1)) as [|t|[|]];
        destruct (toDouble (riskLevel - 1)) as [|t'|[|]];
        cbn [JS.min JS.max ge] in Htop, Hbottom;
        try discriminate; rewrite ?Z.leb_le in *; lia.
    + intros H.
      rewrite (toDouble_exact (riskLevel + 1)), (toDouble_exact (riskLevel - 1)) by lia.
      cbn [JS.min JS.max ge]. rewrite !Z.leb_le. lia.
Qed.

Section ServerFurther.

Context {OpenMeteo ForecastData : Type}.
Variable reshape : string -> string -> number -> Z -> OpenMeteo -> Result ForecastData.

Local Abbreviation World' := (World OpenMeteo ForecastData).
Local Abbreviation avalancheVanoise :=
  (@get_api_avalanche_vanoise OpenMeteo ForecastData).
Local Abbreviation warningsSavoie :=
  (@get_api_warnings_savoie OpenMeteo ForecastData).
Local Abbreviation forecastExtended :=
  (@get_api_forecast_extended OpenMeteo ForecastData reshape).

(** ** What a handler does to the world *)

Lemma slotWritten_later {A : Type} (keyed : bool) (start now later : Z)
    (e : CacheEntry A) :
  now <= later -> slotWritten keyed start now e -> slotWritten keyed start later e.
Proof.
  unfold slotWritten. intros Hle H.
  destruct (data e), (timestamp e); try exact H.
  destruct H as [Ht Hk]. split; [lia | exact Hk].
Qed.

Lemma worldSound_later (start : Z) (w w1 : World') :
  cache w1 = cache w -> clock w <= clock w1 ->
  worldSound start w -> worldSound start w1.
Proof.
  unfold worldSound. intros Hc Ht (Hs & Ha & Hw & Hf). rewrite Hc.
  split; [lia|]. repeat split; eapply slotWritten_later; eassumption.
Qed.

Lemma axios_get_forecast_outbound (query : Query) (w : World') :
  outbound (snd (axios_get_forecast query w))
  = push (outbound w)
      (GET_open_meteo_forecast (or_string (lat query) "45.4")
         (or_string (lon query) "6.57") (forecastDaysOf query)).
Proof.
  unfold axios_get_forecast, axios_get_open_meteo.
  destruct (settle (openMeteo w)) as [[l o] rest]. reflexivity.
Qed.

(** The world after a forecast request that missed the cache: the world
    after the upstream request, with the slot rewritten if all went well. *)
Lemma forecast_miss_world (query : Query) (w : World') :
  forecastHit query w = false ->
  let w1 := snd (axios_get_forecast query w) in
  let w2 := snd (forecastExtended query w) in
  clock w2 = clock w1 /\ outbound w2 = outbound w1 /\
  (cache w2 = cache w \/
   exists forecastData,
     cache w2 = set_extendedForecast
                  {| data := Some forecastData; timestamp := Some (clock w1);
                     cacheKey := Some (cacheKeyOf query) |} (cache w)).
Proof.
  intros Hv w1 w2. subst w1 w2.
  destruct (axios_get_forecast_world query w) as (Hc & _ & _).
  destruct (fst (axios_get_forecast query w)) as [document|message] eqn:Hget.
  - rewrite (forecast_miss_resolved reshape query w document Hv Hget). cbv zeta.
    destruct (reshape _ _ _ _ document) as [forecastData|message]; cbn [snd clock outbound cache].
    + repeat split. right. exists forecastData. rewrite Hc. reflexivity.
    + repeat split. left. exact Hc.
  - rewrite (forecast_miss_rejected reshape query w message Hv Hget). cbn [snd].
    repeat split. left. exact Hc.
Qed.

Lemma handle_sound (start : Z) (request : Request) (w : World') :
  worldSound start w -> worldSound start (snd (handle reshape request w)).
Proof.
  intros Hs. destruct request as [| |query| |]; cbn [handle].
  - destruct (isCacheValid (clock w) (avalanche (cache w))) eqn:Hv.
    + rewrite (avalanche_hit w Hv). exact Hs.
    + destruct (axios_get_BRA_world w) as (Hc & Ht & _).
      destruct (fst (axios_get_BRA w)) as [xml|message] eqn:Hget.
      * destruct (avalanche_miss_resolved w xml Hv Hget)
          as (b & w1 & Heq & _ & _ & _ & Hc1 & Ht1 & _).
        rewrite Heq. cbn [snd].
        pose proof (worldSound_later start w (snd (axios_get_BRA w)) Hc Ht Hs)
          as (Hs1 & _ & Hw1 & Hf1).
        unfold worldSound. rewrite Hc1, Ht1, Hc in *. cbn [set_avalanche avalanche warnings extendedForecast].
        split; [exact Hs1|]. split; [|split; assumption].
        unfold slotWritten. cbn. split; [lia | reflexivity].
      * rewrite (avalanche_miss_rejected w message Hv Hget). cbn [snd].
        apply (worldSound_later start w); assumption.
  - destruct (isCacheValid (clock w) (warnings (cache w))) eqn:Hv.
    + rewrite (warnings_hit w Hv). exact Hs.
    + destruct (warnings_miss w Hv) as (r & w1 & Heq & _ & Hc1 & Ht1 & _).
      rewrite Heq. cbn [snd]. destruct Hs as (Hs & Ha & Hw & Hf).
      unfold worldSound. rewrite Hc1, Ht1. cbn [set_warnings avalanche warnings extendedForecast].
      split; [exact Hs|]. split; [exact Ha|]. split; [|exact Hf].
      unfold slotWritten. cbn. split; [lia | reflexivity].
  - destruct (forecastHit query w) eqn:Hv.
    + rewrite (forecast_hit reshape query w Hv). exact Hs.
    + destruct (forecast_miss_world query w Hv) as (Ht2 & _ & Hc2).
      destruct (axios_get_forecast_world query w) as (Hc & Ht & _).
      pose proof (worldSound_later start w (snd (axios_get_forecast query w)) Hc Ht Hs)
        as (Hs1 & Ha1 & Hw1 & Hf1).
      unfold worldSound. rewrite Ht2. rewrite Hc in *.
      destruct Hc2 as [Hc2|[forecastData Hc2]]; rewrite Hc2.
      * repeat split; assumption.
      * cbn [set_extendedForecast avalanche warnings extendedForecast].
        split; [exact Hs1|]. split; [exact Ha1|]. split; [exact Hw1|].
        unfold slotWritten. cbn. split; [lia | discriminate].
  - exact Hs.
  - exact Hs.
Qed.

Lemma tick_sound (start : Z) (delay : N) (w : World') :
  worldSound start w -> worldSound start (tick delay w).
Proof.
  apply worldSound_later; cbn [tick cache clock]; [reflexivity | lia].
Qed.

Lemma run_sound (start : Z) (requests : list (N * Request)) (w : World') :
  worldSound start w -> worldSound start (snd (run reshape requests w)).
Proof.
  revert w. induction requests as [|[delay request] rest IH]; intros w Hs.
  - exact Hs.
  - cbn [run].
    pose proof (handle_sound start request (tick delay w) (tick_sound start delay w Hs))
      as Hs1.
    destruct (handle reshape request (tick delay w)) as [result w1].
    specialize (IH w1 Hs1). destruct (run reshape rest w1) as [results w2].
    exact IH.
Qed.

(** X3: whatever the server has handled since it started, each cache
    slot is either empty (no payload, no time stamp) or holds a payload
    with the time it was stored, which lies between the start of the
    process and now; only the forecast slot carries a cache key. *)
Theorem cache_slots_written_whole (start : Z) (bra : list (Reply BRA))
    (om : list (Reply OpenMeteo)) (requests : list (N * Request)) :
  worldSound start (snd (run reshape requests (boot start bra om))).
Proof.
  apply run_sound. unfold worldSound, slotWritten. cbn. repeat split; lia.
Qed.

(** ** The health endpoint *)

Lemma isoOrNull_written {A : Type} (keyed : bool) (start now : Z) (e : CacheEntry A) :
  0 < start -> slotWritten keyed start now e ->
  isoOrNull (timestamp e) = timestamp e /\
  (timestamp e = None <-> data e = None).
Proof.
  unfold slotWritten, isoOrNull, not_timestamp. intros Hpos H.
  destruct (data e) as [d|], (timestamp e) as [t|]; try contradiction.
  - destruct H as [Ht _]. destruct (Z.eqb_spec t 0) as [H0|_]; [lia|].
    split; [reflexivity|]. split; discriminate.
  - split; [reflexivity|]. split; reflexivity.
Qed.

(** X4: on a server started at a positive clock, the health endpoint,
    asked after any sequence of requests, reports for each of the three
    slots the time its payload was stored and null exactly for a slot
    without payload; it changes nothing and contacts no upstream
    service. *)
Theorem health_reports_slots (start : Z) (bra : list (Reply BRA))
    (om : list (Reply OpenMeteo)) (requests : list (N * Request)) :
  0 < start ->
  let w := snd (run reshape requests (boot start bra om)) in
  get_api_health w
  = (Ok (res_json (JHealth (clock w)
                     (timestamp (avalanche (cache w)))
                     (timestamp (warnings (cache w)))
                     (timestamp (extendedForecast (cache w))))), w) /\
  (timestamp (avalanche (cache w)) = None <-> data (avalanche (cache w)) = None) /\
  (timestamp (warnings (cache w)) = None <-> data (warnings (cache w)) = None) /\
  (timestamp (extendedForecast (cache w)) = None
   <-> data (extendedForecast (cache w)) = None).
Proof.
  intros Hpos w.
  assert (Hs : worldSound start w).
  { apply run_sound. unfold worldSound, slotWritten. cbn. repeat split; lia. }
  destruct Hs as (_ & Ha & Hw & Hf).
  destruct (isoOrNull_written _ _ _ _ Hpos Ha) as [Ea Na].
  destruct (isoOrNull_written _ _ _ _ Hpos Hw) as [Ew Nw].
  destruct (isoOrNull_written _ _ _ _ Hpos Hf) as [Ef Nf].
  split; [|split; [exact Na | split; [exact Nw | exact Nf]]].
  unfold get_api_health, bind, readCache, Date_now, ret.
  rewrite Ea, Ew, Ef. reflexivity.
Qed.

(** ** Upstream requests *)

Lemma handle_outbound (request : Request) (w : World') :
  exists more,
    outbound (snd (handle reshape request w)) = (outbound w ++ more)%list /\
    (List.length more <= if hasUpstream request then 1 else 0)%nat.
Proof.
  destruct request as [| |query| |]; cbn [handle hasUpstream].
  - destruct (isCacheValid (clock w) (avalanche (cache w))) eqn:Hv.
    + rewrite (avalanche_hit w Hv). exists []. rewrite app_nil_r. split; [reflexivity | simpl; lia].
    + rewrite (avalanche_miss_outbound w Hv). eexists. split; [reflexivity | simpl; lia].
  - exists []. rewrite app_nil_r. split; [|simpl; lia].
    destruct (isCacheValid (clock w) (warnings (cache w))) eqn:Hv.
    + rewrite (warnings_hit w Hv). reflexivity.
    + destruct (warnings_miss w Hv) as (r & w1 & Heq & _ & _ & _ & Ho).
      rewrite Heq. exact Ho.
  - destruct (forecastHit query w) eqn:Hv.
    + rewrite (forecast_hit reshape query w Hv). exists []. rewrite app_nil_r.
      split; [reflexivity | simpl; lia].
    + destruct (forecast_miss_world query w Hv) as (_ & Ho & _).
      rewrite Ho, axios_get_forecast_outbound. eexists. split; [reflexivity | simpl; lia].
  - exists []. rewrite app_nil_r. split; [reflexivity | simpl; lia].
  - exists []. rewrite app_nil_r. split; [reflexivity | simpl; lia].
Qed.

(** X5: the log of upstream requests only grows, and by at most one
    request for each avalanche or forecast request served; warnings,
    health and root requests never reach an upstream service. *)
Theorem upstream_requests_bounded (requests : list (N * Request)) (w : World') :
  exists more,
    outbound (snd (run reshape requests w)) = (outbound w ++ more)%list /\
    (List.length more
     <= List.length (filter (fun entry => hasUpstream (snd entry)) requests))%nat.
Proof.
  revert w. induction requests as [|[delay request] rest IH]; intros w.
  - exists []. rewrite app_nil_r. split; [reflexivity | simpl; lia].
  - cbn [run filter snd].
    destruct (handle_outbound request (tick delay w)) as (m1 & Ho1 & Hl1).
    destruct (handle reshape request (tick delay w)) as [result w1].
    cbn [snd] in Ho1. destruct (IH w1) as (m2 & Ho2 & Hl2).
    destruct (run reshape rest w1) as [results w2]. cbn [snd] in *.
    exists (m1 ++ m2)%list. split.
    + rewrite Ho2, Ho1. cbn [tick outbound]. rewrite app_assoc. reflexivity.
    + rewrite length_app. destruct (hasUpstream request); simpl in *; lia.
Qed.

(** ** Expiry *)

(** X6: after a bulletin has been fetched and stored, a second avalanche
    request goes upstream again exactly when six hours or more have passed
    since the bulletin was stored; before that it is answered from the
    cache. *)
Theorem avalanche_refetch_exactly_after_ttl (w : World') (latency : N) (xml : BRA)
    (rest : list (Reply BRA)) (delay : N) :
  isCacheValid (clock w) (avalanche (cache w)) = false ->
  meteoFrance w = Resolves latency xml :: rest ->
  clock w + Z.of_N latency <> 0 ->
  let w1 := snd (avalancheVanoise w) in
  timestamp (avalanche (cache w1)) = Some (clock w + Z.of_N latency) /\
  outbound (snd (avalancheVanoise (tick delay w1)))
  = if Z.of_N delay <? 21600000 then outbound w1
    else push (outbound w1) GET_BRA_VANOISE_xml.
Proof.
  intros Hv Hreply Hne w1. subst w1.
  destruct (axios_get_BRA_resolves w latency xml rest Hreply) as [Hget Hclock].
  destruct (avalanche_miss_resolved w xml Hv Hget)
    as (b & w1 & Heq & _ & _ & _ & Hc & Ht & _).
  rewrite Heq. cbn [snd]. rewrite Hclock in Ht.
  assert (Hts : timestamp (avalanche (cache w1)) = Some (clock w + Z.of_N latency)).
  { rewrite Hc. cbn. rewrite Ht. reflexivity. }
  split; [exact Hts|].
  destruct (Z.ltb_spec (Z.of_N delay) 21600000) as [Hlt|Hge].
  - rewrite (avalanche_hit (tick delay w1)); [reflexivity|].
    cbn [tick cache clock].
    apply (isCacheValid_intro _ (clock w + Z.of_N latency) b);
      [rewrite Hc; reflexivity | exact Hts | exact Hne |].
    unfold CACHE_DURATION. rewrite Ht. lia.
  - apply (avalanche_miss_outbound (tick delay w1)). cbn [tick cache clock].
    destruct (isCacheValid (clock w1 + Z.of_N delay) (avalanche (cache w1))) eqn:Hv2;
      [|reflexivity].
    apply isCacheValid_iff in Hv2 as (d & t & _ & Ht2 & _ & Hlt).
    rewrite Hts in Ht2. inversion Ht2. subst t. unfold CACHE_DURATION in Hlt. lia.
Qed.

(** ** The forecast query *)

Lemma forecastDaysOf_value (query : Query) :
  let n := forecastDaysOf query in
  ge (Int 16) n = true /\ n <> Int 0 /\ n <> NaN /\
  (days query = None -> n = Int 7) /\
  (forall d, days query = Some (decimal d) ->
     n = JS.min (JS.or (toDouble d) (Int 7)) (Int 16) /\
     (Z.abs d < 2 ^ 53 -> n = Int (if d =? 0 then 7 else Z.min d 16))).
Proof.
  cbv zeta. unfold forecastDaysOf. split; [|split; [|split; [|split]]].
  - destruct (parseInt_opt (days query)) as [|z|[|]]; unfold JS.or; cbn [truthy];
      try reflexivity.
    destruct (z =? 0); cbn [negb JS.min ge]; apply Z.leb_le; lia.
  - destruct (parseInt_opt (days query)) as [|z|[|]]; unfold JS.or; cbn [truthy];
      try discriminate.
    destruct (Z.eqb_spec z 0); cbn [negb JS.min]; intros H; injection H as H; lia.
  - destruct (parseInt_opt (days query)) as [|z|[|]]; unfold JS.or; cbn [truthy];
      try discriminate.
    destruct (z =? 0); discriminate.
  - intros Hd. rewrite Hd. reflexivity.
  - intros d Hd. rewrite Hd. cbn [parseInt_opt]. rewrite parseInt_decimal.
    split; [reflexivity|]. intros Hsafe. rewrite (toDouble_exact d) by lia.
    unfold JS.or. cbn [truthy]. destruct (d =? 0); reflexivity.
Qed.

(** X8: a forecast request that misses the cache asks Open-Meteo for a
    number of days that is never above 16, never 0 and never [NaN]: 7 when
    [days] is absent; when [days] spells an integer, the double nearest to
    it, with 0 replaced by 7 and what is above 16 by 16.  A negative number
    is passed on, as it is when it is below 2^53 in magnitude. *)
Theorem forecast_days_clamped (query : Query) (w : World') :
  forecastHit query w = false ->
  let n := forecastDaysOf query in
  outbound (snd (forecastExtended query w))
  = push (outbound w)
      (GET_open_meteo_forecast (or_string (lat query) "45.4")
         (or_string (lon query) "6.57") n) /\
  ge (Int 16) n = true /\ n <> Int 0 /\ n <> NaN /\
  (days query = None -> n = Int 7) /\
  (forall d, days query = Some (decimal d) ->
     n = JS.min (JS.or (toDouble d) (Int 7)) (Int 16) /\
     (Z.abs d < 2 ^ 53 -> n = Int (if d =? 0 then 7 else Z.min d 16))).
Proof.
  intros Hv n. split; [|exact (forecastDaysOf_value query)].
  destruct (forecast_miss_world query w Hv) as (_ & Ho & _).
  rewrite Ho, axios_get_forecast_outbound. reflexivity.
Qed.

(** ** The single forecast slot *)

(** After a forecast answer that signals no failure, the slot holds that
    forecast under the key of the query. *)
Lemma forecast_slot_after (query : Query) (w : World') (r1 : Response ForecastData)
    (w1 : World') :
  forecastExtended query w = (Ok r1, w1) ->
  degraded r1 = false ->
  exists forecastData,
    r1 = res_json (JForecast forecastData) /\
    data (extendedForecast (cache w1)) = Some forecastData /\
    cacheKey (extendedForecast (cache w1)) = Some (cacheKeyOf query).
Proof.
  intros Hrun Hdeg. destruct (forecastHit query w) eqn:Hv.
  - rewrite (forecast_hit reshape query w Hv) in Hrun. inversion Hrun. subst w1.
    unfold forecastHit in Hv. apply andb_true_iff in Hv as [Hvalid Hkey].
    destruct (isCacheValid_data _ _ Hvalid) as [d Hd]. exists d. rewrite Hd.
    split; [reflexivity|]. split; [reflexivity|].
    destruct (cacheKey (extendedForecast (cache w))) as [k|]; [|discriminate].
    apply String.eqb_eq in Hkey. rewrite Hkey. reflexivity.
  - destruct (fst (axios_get_forecast query w)) as [document|message] eqn:Hget.
    + pose proof (forecast_miss_resolved reshape query w document Hv Hget) as Heq.
      cbv zeta in Heq. destruct (reshape _ _ _ _ document) as [forecastData|message].
      * rewrite Heq in Hrun. inversion Hrun. exists forecastData.
        repeat split.
      * rewrite Heq in Hrun. inversion Hrun. subst r1. discriminate Hdeg.
    + rewrite (forecast_miss_rejected reshape query w message Hv Hget) in Hrun.
      inversion Hrun. subst r1. discriminate Hdeg.
Qed.

(** X9: the forecast cache has one slot.  After a forecast request that
    was answered without failure, so that the slot holds the forecast of
    its query, a request whose query has another key goes upstream however
    soon it comes. *)
Theorem forecast_other_query_goes_upstream (query other : Query) (w : World')
    (r1 : Response ForecastData) (w1 : World') (delay : N) :
  forecastExtended query w = (Ok r1, w1) ->
  degraded r1 = false ->
  cacheKeyOf other <> cacheKeyOf query ->
  outbound (snd (forecastExtended other (tick delay w1)))
  = push (outbound w1)
      (GET_open_meteo_forecast (or_string (lat other) "45.4")
         (or_string (lon other) "6.57") (forecastDaysOf other)).
Proof.
  intros Hrun Hdeg Hkey.
  destruct (forecast_slot_after query w r1 w1 Hrun Hdeg) as (f & _ & _ & Hk).
  assert (Hv : forecastHit other (tick delay w1) = false).
  { unfold forecastHit. cbn [tick cache clock]. rewrite Hk.
    destruct (String.eqb_spec (cacheKeyOf query) (cacheKeyOf other)) as [E|_].
    - exfalso. apply Hkey. symmetry. exact E.
    - apply andb_false_r. }
  destruct (forecast_miss_world other (tick delay w1) Hv) as (_ & Ho & _).
  rewrite Ho, axios_get_forecast_outbound. reflexivity.
Qed.

(** X10: which forecast is served depends on the query only through its
    key, the text [latitude_longitude_days] after defaults and clamping:
    within the time to live a request whose query has the key of the cached
    one gets the cached response without any upstream request.  Queries
    that differ share a key when their day counts clamp to the same number,
    and also when an underscore moves between latitude and longitude. *)
Theorem forecast_same_key_shares_slot :
  (forall (query other : Query) (w : World') (r1 : Response ForecastData)
          (w1 : World') (t : Z) (delay : N),
     forecastExtended query w = (Ok r1, w1) ->
     degraded r1 = false ->
     cacheKeyOf other = cacheKeyOf query ->
     timestamp (extendedForecast (cache w1)) = Some t -> t <> 0 ->
     clock w1 + Z.of_N delay - t < 21600000 ->
     forecastExtended other (tick delay w1) = (Ok r1, tick delay w1)) /\
  cacheKeyOf {| lat := None; lon := None; days := Some "20" |}
  = cacheKeyOf {| lat := Some "45.4"; lon := Some "6.57"; days := Some "16" |} /\
  cacheKeyOf {| lat := Some "45_6"; lon := Some "7"; days := None |}
  = cacheKeyOf {| lat := Some "45"; lon := Some "6_7"; days := None |}.
Proof.
  split; [|split; reflexivity].
  intros query other w r1 w1 t delay Hrun Hdeg Hkey Ht Hne Hlt.
  destruct (forecast_slot_after query w r1 w1 Hrun Hdeg) as (f & Hr & Hd & Hk).
  rewrite (forecast_hit reshape other (tick delay w1)).
  - cbn [tick cache]. rewrite Hd, Hr. reflexivity.
  - unfold forecastHit. cbn [tick cache clock]. rewrite Hk, Hkey, String.eqb_refl.
    rewrite andb_true_r. apply (isCacheValid_intro _ t f); assumption.
Qed.

(** ** The bulletins the avalanche endpoint answers with *)

Lemma bulletinShaped_coherent (b : Bulletin) : bulletinShaped b -> bulletinCoherent b.
Proof.
  intros (high & low & Hdouble & Hrisk & Hbands & Hproblems). unfold bulletinCoherent.
  rewrite Hbands, Hproblems. split; [reflexivity|].
  split; [apply generateProblems_nonempty|].
  rewrite Hrisk. unfold generateElevationBands. cbn [map risk].
  assert (Hsub : forall h, high = Int h -> ge (Int h) (toDouble (h - 1)) = true).
  { intros h ->. cbn [isDouble] in Hdouble.
    destruct (toDouble h) as [|d|] eqn:E; try discriminate.
    apply Z.eqb_eq in Hdouble. subst d. exact (sub_one_le h E). }
  destruct high as [|h|[|]], low as [|l|[|]]; cbn [JS.max sub Bool.eqb negb];
    try (left; reflexivity); try (right; right; left; reflexivity);
    try solve [ split;
                [ repeat constructor; cbn [ge]; try reflexivity; apply Z.leb_le; lia
                | first [ left; reflexivity | right; left; reflexivity ] ] ].
  all: specialize (Hsub h eq_refl);
    destruct (toDouble (h - 1)) as [|t|[|]]; cbn [ge] in Hsub; try discriminate;
    try apply Z.leb_le in Hsub; cbn [JS.max].
  all: try solve [ split;
                   [ repeat constructor; cbn [ge]; try reflexivity; apply Z.leb_le; lia
                   | first [ left; reflexivity | right; right; left; reflexivity ] ] ].
  all: (split; [repeat constructor; cbn [ge]; try reflexivity; apply Z.leb_le; lia|]);
    destruct (Z.max_spec h l) as [[_ ->]|[_ ->]];
    [right; right; left | left]; reflexivity.
Qed.

Lemma getFallbackBulletin_shaped (now : Z) : bulletinShaped (getFallbackBulletin now).
Proof.
  exists (Int 3), (Int 2). repeat split.
Qed.

Lemma avalanche_shaped (w : World') :
  cachedShaped (cache w) ->
  exists b w1,
    avalancheVanoise w = (Ok {| status := 200; body := JBulletin b |}, w1) /\
    bulletinShaped b /\ cachedShaped (cache w1).
Proof.
  intros Hinv. destruct (isCacheValid (clock w) (avalanche (cache w))) eqn:Hv.
  - destruct (isCacheValid_data _ _ Hv) as [d Hd]. exists d, w.
    rewrite (avalanche_hit w Hv), Hd. split; [reflexivity|].
    split; [apply Hinv, Hd | exact Hinv].
  - destruct (axios_get_BRA_world w) as (Hc & _).
    destruct (fst (axios_get_BRA w)) as [xml|message] eqn:Hget.
    + unfold get_api_avalanche_vanoise, try_catch, bind, readCache, Date_now,
        writeCache, ret, throw. rewrite Hv.
      destruct (axios_get_BRA w) as [[xml'|e] w1] eqn:Hw1; [|discriminate].
      eexists. eexists. split; [reflexivity|]. cbn [cache].
      split.
      * eexists. eexists.
        split; [|cbn [overallRisk elevationBands problems]; repeat split].
        apply parseInt_isDouble.
      * intros b Hdata. cbn in Hdata. inversion Hdata.
        eexists. eexists.
        split; [|cbn [overallRisk elevationBands problems]; repeat split].
        apply parseInt_isDouble.
    + eexists. eexists. rewrite (avalanche_miss_rejected w message Hv Hget).
      split; [reflexivity|]. split; [apply getFallbackBulletin_shaped|].
      rewrite Hc. exact Hinv.
Qed.

Lemma handle_keeps_shaped (request : Request) (w : World') :
  cachedShaped (cache w) ->
  cachedShaped (cache (snd (handle reshape request w))).
Proof.
  intros Hinv. destruct request as [| |query| |]; cbn [handle].
  - destruct (avalanche_shaped w Hinv) as (b & w1 & Heq & _ & Hinv1).
    rewrite Heq. exact Hinv1.
  - destruct (isCacheValid (clock w) (warnings (cache w))) eqn:Hv.
    + rewrite (warnings_hit w Hv). exact Hinv.
    + destruct (warnings_miss w Hv) as (r & w1 & Heq & _ & Hc & _).
      rewrite Heq. cbn [snd]. rewrite Hc. exact Hinv.
  - destruct (forecastHit query w) eqn:Hv.
    + rewrite (forecast_hit reshape query w Hv). exact Hinv.
    + destruct (forecast_miss_world query w Hv) as (_ & _ & [Hc|[f Hc]]);
        rewrite Hc; exact Hinv.
  - exact Hinv.
  - exact Hinv.
Qed.

Lemma run_coherent (requests : list (N * Request)) (w : World') :
  cachedShaped (cache w) ->
  Forall avalancheAnswerCoherent (fst (run reshape requests w)).
Proof.
  revert w. induction requests as [|[delay request] rest IH]; intros w Hinv.
  - constructor.
  - cbn [run].
    assert (Hinv0 : cachedShaped (cache (tick delay w))) by exact Hinv.
    pose proof (handle_keeps_shaped request (tick delay w) Hinv0) as Hinv1.
    assert (Hhead : avalancheAnswerCoherent
                      (request, fst (handle reshape request (tick delay w)))).
    { destruct request; cbn [avalancheAnswerCoherent]; try exact I.
      cbn [handle]. destruct (avalanche_shaped (tick delay w) Hinv0)
        as (b & w1 & Heq & Hb & _).
      rewrite Heq. exists b. split; [reflexivity|].
      apply bulletinShaped_coherent, Hb. }
    destruct (handle reshape request (tick delay w)) as [result w1].
    specialize (IH w1 Hinv1). destruct (run reshape rest w1) as [results w2].
    constructor; assumption.
Qed.

(** X11: every answer of the avalanche endpoint, fetched, cached or
    fallback, whatever was handled before and whatever the bulletin
    service sent, has the three bands "Above 2500m", "2000m - 2500m" and
    "Below 2000m", at least one avalanche problem, and an overall risk that
    is the highest of the band risks. *)
Theorem avalanche_answers_coherent (start : Z) (bra : list (Reply BRA))
    (om : list (Reply OpenMeteo)) (requests : list (N * Request)) :
  Forall avalancheAnswerCoherent (fst (run reshape requests (boot start bra om))).
Proof.
  apply run_coherent. intros b Hb. discriminate Hb.
Qed.

End ServerFurther.

(** ** The further properties on sample runs *)

Lemma health_reports_slots_witness :
  fst (get_api_health
         (snd (run sampleReshape [(0%N, GET_avalanche_vanoise)] upstreamUp)))
  = Ok (res_json (JHealth 1700000000070 (Some 1700000000070) None None)).
Proof.
  exact (f_equal fst
           (proj1 (health_reports_slots sampleReshape 1700000000000
                     (meteoFrance upstreamUp) (openMeteo upstreamUp)
                     [(0%N, GET_avalanche_vanoise)] eq_refl))).
Defined.

Lemma avalanche_refetch_exactly_after_ttl_witness :
  outbound (snd (get_api_avalanche_vanoise
                   (tick 21600000 (snd (get_api_avalanche_vanoise upstreamUp)))))
  = [GET_BRA_VANOISE_xml; GET_BRA_VANOISE_xml].
Proof.
  exact (proj2 (avalanche_refetch_exactly_after_ttl upstreamUp 70
                  {| LOC1 := Some "4"; LOC2 := Some "2";
                     DateValidite := "2025-01-15T16:00:00" |} [] 21600000
                  eq_refl eq_refl ltac:(discriminate))).
Defined.

Lemma forecast_days_clamped_witness :
  outbound (snd (get_api_forecast_extended sampleReshape
                   {| lat := None; lon := None; days := Some "30" |} upstreamUp))
  = [GET_open_meteo_forecast "45.4" "6.57" (Int 16)].
Proof.
  exact (proj1 (forecast_days_clamped sampleReshape
                  {| lat := None; lon := None; days := Some "30" |} upstreamUp eq_refl)).
Defined.

Lemma forecast_other_query_goes_upstream_witness :
  outbound (snd (get_api_forecast_extended sampleReshape
                   {| lat := Some "46.0"; lon := Some "7.0"; days := None |}
                   (tick 1000 (snd (get_api_forecast_extended sampleReshape
                                      defaultQuery upstreamUp)))))
  = [ GET_open_meteo_forecast "45.4" "6.57" (Int 7);
      GET_open_meteo_forecast "46.0" "7.0" (Int 7) ].
Proof.
  exact (forecast_other_query_goes_upstream sampleReshape defaultQuery
           {| lat := Some "46.0"; lon := Some "7.0"; days := None |}
           upstreamUp
           (res_json (JForecast ["2025-01-15"; "2025-01-16"]))
           (snd (get_api_forecast_extended sampleReshape defaultQuery upstreamUp))
           1000 eq_refl eq_refl ltac:(discriminate)).
Defined.

(** * Properties of the second revision *)

Module Rev2Properties.

Import Rev2 Rev2Server.

Ltac run_monad :=
  cbv [try_catch bind ret readCache writeCache Date_now].

(** ** The scraped bulletin *)

Lemma scan_level (text : string) :
  exists n, scrapeMeteoFranceWeb_riskLevel text = Int n /\ 1 <= n <= 4.
Proof.
  rewrite scrapeMeteoFranceWeb_riskLevel_cascade.
  destruct (mentions ["4"; "fort"] text); [exists 4; split; [reflexivity | lia]|].
  destruct (mentions ["3"; "marqué"] text); [exists 3; split; [reflexivity | lia]|].
  destruct (mentions ["2"; "limité"] text); [exists 2; split; [reflexivity | lia]|].
  destruct (mentions ["1"; "faible"] text); [exists 1 | exists 3];
    (split; [reflexivity | lia]).
Qed.

Lemma lookup_In (z : Z) (v : string) (table : list (Z * string)) :
  lookup z table = Some v -> exists k, In (k, v) table.
Proof.
  induction table as [|[k x] rest IH]; [discriminate|]. simpl.
  destruct (k =? z).
  - intros H. inversion H. exists k. left. reflexivity.
  - intros H. destruct (IH H) as [k' Hin]. exists k'. right. exact Hin.
Qed.

Lemma entry_or_3_nonempty (level : number) (table : list (Z * string)) :
  (forall k v, In (k, v) table -> v <> "") ->
  (exists v, lookup 3 table = Some v) ->
  entry_or_3 level table <> "".
Proof.
  intros Hvals [v3 H3].
  assert (Hl : forall z v, lookup z table = Some v -> v <> "").
  { intros z v H. destruct (lookup_In z v table H) as [k Hin]. apply (Hvals k v Hin). }
  unfold entry_or_3, property. destruct level as [|z|negative].
  - rewrite H3. apply (Hl 3 v3 H3).
  - destruct (lookup z table) as [v|] eqn:Hz; [apply (Hl z v Hz)|].
    rewrite H3. apply (Hl 3 v3 H3).
  - rewrite H3. apply (Hl 3 v3 H3).
Qed.

Lemma generateSummary_nonempty (riskLevel : number) : generateSummary riskLevel <> "".
Proof.
  apply entry_or_3_nonempty; [|eexists; reflexivity].
  intros k v Hin. simpl in Hin.
  repeat (destruct Hin as [Hin|Hin]; [inversion Hin; discriminate|]). contradiction.
Qed.

Lemma orElse_nonempty (text fallback : string) :
  fallback <> "" -> orElse text fallback <> "".
Proof.
  intros H. destruct text as [|c r]; [exact H | discriminate].
Qed.

Lemma orElse_of_nonempty (text fallback : string) :
  text <> "" -> orElse text fallback = text.
Proof.
  destruct text as [|c r]; [contradiction | reflexivity].
Qed.

(** A replacement that is not empty never empties a text. *)
Lemma replaceAll_ci_nonempty (pattern replacement text : string) :
  replacement <> "" -> text <> "" ->
  replaceAll_ci pattern replacement text <> "".
Proof.
  unfold replaceAll_ci. destruct replacement as [|c r]; [contradiction|].
  destruct text as [|d rest]; [contradiction|]. intros _ _. cbn [replaceAll_from].
  destruct (prefix pattern (toLowerCase (String d rest))); discriminate.
Qed.

Lemma translateText_nonempty (text : string) : text <> "" -> translateText text <> "".
Proof.
  intros H. unfold translateText. cbv zeta.
  repeat (apply replaceAll_ci_nonempty; [discriminate|]). exact H.
Qed.

Lemma getDefaultProblems_cases (riskLevel : number) :
  map type (getDefaultProblems riskLevel)
  = if ge riskLevel (Int 3) then [Text "Wind Slab"; Text "Persistent Weak Layers"]
    else if ge riskLevel (Int 2) then [Text "Persistent Weak Layers"]
    else [].
Proof.
  pose proof (ge_3_2 riskLevel) as H32. unfold getDefaultProblems.
  destruct (ge riskLevel (Int 3)) eqn:H3, (ge riskLevel (Int 2)) eqn:H2;
    try (specialize (H32 eq_refl); discriminate H32); reflexivity.
Qed.

(** X12: the bulletin scraped from the web page has an overall risk
    between 1 and 4, which is the risk of its middle band; the band above
    is one level higher and the band below one level lower (not below 1),
    so the bands are in 1..5 and never go up on the way down, and the
    highest band risk is one above the overall risk.  Its summary is the
    translated text of the page, or of the generated summary when the page
    has none, and is never empty.  It lists no problem at all exactly when
    the scanned level is 1. *)
Theorem scraped_bulletin_shape (now : Z) (page : WebPage) :
  let b := scrapeMeteoFranceWeb now page in
  exists n,
    overallRisk b = Int n /\ 1 <= n <= 4 /\
    map risk (elevationBands b) = [Int (n + 1); Int n; Int (Z.max (n - 1) 1)] /\
    Forall inScale (map risk (elevationBands b)) /\
    nonIncreasing (map risk (elevationBands b)) = true /\
    summary b
    = translateText (orElse (resume page) (generateSummary (overallRisk b))) /\
    summary b <> "" /\
    (problems b = [] <-> n = 1).
Proof.
  cbv zeta. destruct (scan_level (riskNodes page)) as (n & Hn & Hrange).
  exists n. unfold scrapeMeteoFranceWeb.
  cbn [overallRisk elevationBands summary problems]. rewrite Hn.
  assert (Hsum : orElse (resume page) (generateSummary (Int n)) <> "")
    by apply orElse_nonempty, generateSummary_nonempty.
  pose proof (translateText_nonempty _ Hsum) as Htr.
  rewrite (orElse_of_nonempty _ _ Htr).
  split; [reflexivity|]. split; [exact Hrange|].
  unfold getDefaultElevationBands. cbn [map risk sub add].
  rewrite (toDouble_exact (n + 1)), (toDouble_exact (n - 1)) by lia.
  cbn [JS.max JS.min]. replace (Z.min (n + 1) 5) with (n + 1) by lia.
  split; [reflexivity|]. split; [repeat constructor; simpl; lia|].
  split; [cbn [nonIncreasing ge]; rewrite andb_true_r, andb_true_iff, !Z.leb_le; lia|].
  split; [reflexivity|]. split; [exact Htr|].
  unfold getDefaultProblems, push. cbn [ge].
  destruct (Z.leb_spec 3 n) as [H3|H3], (Z.leb_spec 2 n) as [H2|H2]; cbn;
    split; intros Hx; try discriminate Hx; try reflexivity; lia.
Qed.

(** ** The three stages of the avalanche endpoint *)

Lemma axios_get_xml_world (w : World) :
  cache (snd (axios_get_xml w)) = cache w /\
  clock w <= clock (snd (axios_get_xml w)) /\
  webSite (snd (axios_get_xml w)) = webSite w /\
  outbound (snd (axios_get_xml w)) = (outbound w ++ [GET_BRA_VANOISE_xml])%list /\
  fst (axios_get_xml w) = snd (fst (settle (bulletinService w))).
Proof.
  unfold axios_get_xml. destruct (settle (bulletinService w)) as [[l o] rest].
  cbn. repeat split. lia.
Qed.

Lemma axios_get_web_world (w : World) :
  cache (snd (axios_get_web w)) = cache w /\
  clock w <= clock (snd (axios_get_web w)) /\
  outbound (snd (axios_get_web w)) = (outbound w ++ [GET_risques_avalanche])%list /\
  fst (axios_get_web w) = snd (fst (settle (webSite w))).
Proof.
  unfold axios_get_web. destruct (settle (webSite w)) as [[l o] rest].
  cbn. repeat split. lia.
Qed.

(** X13: on a cache miss the second revision asks the bulletin service
    first and the web site only if that request failed.  The parsed
    document, or else the scraped page, is answered and stored with the
    time it was obtained; if both requests failed the mock bulletin is
    answered, marked as mock data with an error text, and the cache is left
    as it was.  The answer has status 200 in every case. *)
Theorem avalanche_three_stages (w : World) :
  isCacheValid (clock w) (avalanche (cache w)) = false ->
  exists b w1,
    get_api_avalanche_vanoise w = (Ok {| status := 200; body := JBulletin b |}, w1) /\
    clock w <= clock w1 /\
    match snd (fst (settle (bulletinService w))), snd (fst (settle (webSite w))) with
    | Ok xml, _ =>
        b = parseMeteoFranceXML (clock w1) xml /\
        outbound w1 = (outbound w ++ [GET_BRA_VANOISE_xml])%list /\
        cache w1 = set_avalanche {| data := Some b; timestamp := Some (clock w1);
                                    cacheKey := None |} (cache w)
    | Throw _, Ok page =>
        b = scrapeMeteoFranceWeb (clock w1) page /\
        outbound w1 = (outbound w ++ [GET_BRA_VANOISE_xml; GET_risques_avalanche])%list /\
        cache w1 = set_avalanche {| data := Some b; timestamp := Some (clock w1);
                                    cacheKey := None |} (cache w)
    | Throw _, Throw _ =>
        b = set_error "Using mock data - scraping temporarily unavailable"
              (getMockAvalancheBulletin (clock w1)) /\
        isMockData b = true /\
        outbound w1 = (outbound w ++ [GET_BRA_VANOISE_xml; GET_risques_avalanche])%list /\
        cache w1 = cache w
    end.
Proof.
  intros Hv. unfold get_api_avalanche_vanoise. run_monad. rewrite Hv.
  destruct (axios_get_xml_world w) as (Hc1 & Ht1 & Hweb & Ho1 & Hr1).
  destruct (axios_get_xml w) as [r1 w1]. cbn [fst snd] in *. rewrite <- Hr1.
  destruct r1 as [xml|e1].
  - eexists. eexists. split; [reflexivity|]. cbn [clock outbound cache].
    split; [exact Ht1|]. rewrite Hc1. repeat split. exact Ho1.
  - destruct (axios_get_web_world w1) as (Hc2 & Ht2 & Ho2 & Hr2).
    rewrite Hweb in Hr2.
    destruct (axios_get_web w1) as [r2 w2]. cbn [fst snd] in *. rewrite <- Hr2.
    destruct r2 as [page|e2].
    + eexists. eexists. split; [reflexivity|]. cbn [clock outbound cache].
      split; [lia|]. rewrite Hc2, Hc1, Ho2, Ho1, <- app_assoc. repeat split.
    + eexists. eexists. split; [reflexivity|]. cbn [clock outbound cache].
      split; [lia|]. rewrite Hc2, Hc1, Ho2, Ho1, <- app_assoc. repeat split.
Qed.

(** ** The bulletin parsed from the document *)

(** X14: the second revision reports the high-altitude risk alone as
    the overall risk of a parsed bulletin.  With the risks spelled in
    decimal in the two attributes, as integers below 2^53 in magnitude
    (which [parseInt] reads exactly), the bands carry high,
    max(high - 1, low) and low, and the overall risk is the highest band
    risk exactly when low is at most high; with a higher low-altitude risk
    the bulletin reports less than its lowest band. *)
Theorem parsed_bulletin_reports_high (now : Z) (xml : Xml) (high low : Z) :
  Z.abs high < 2 ^ 53 ->
  Z.abs low < 2 ^ 53 ->
  LOC1 xml = Some (decimal high) ->
  LOC2 xml = Some (decimal low) ->
  let b := parseMeteoFranceXML now xml in
  overallRisk b = Int high /\
  map risk (elevationBands b) = [Int high; Int (Z.max (high - 1) low); Int low] /\
  (Forall (fun r => exists z, r = Int z /\ z <= high) (map risk (elevationBands b))
   <-> low <= high).
Proof.
  intros Hhigh Hlow H1 H2. cbv zeta. unfold parseMeteoFranceXML.
  cbn [overallRisk elevationBands map risk].
  rewrite H1, H2, !or_string_decimal, !parseInt_decimal.
  rewrite (toDouble_exact high), (toDouble_exact low) by lia. cbn [sub].
  rewrite (toDouble_exact (high - 1)) by lia. cbn [JS.max].
  split; [reflexivity|]. split; [reflexivity|]. split.
  - intros H. inversion H as [|? ? _ H']. inversion H' as [|? ? _ H''].
    inversion H'' as [|? ? (z & Hz & Hle) _]. inversion Hz. lia.
  - intros Hle. repeat constructor; eexists; (split; [reflexivity | lia]).
Qed.

Lemma length_cons_positive {A : Type} (x : A) (l : list A) :
  (0 <? Z.of_nat (List.length (x :: l))) = true /\
  (Z.of_nat (List.length (x :: l)) =? 0) = false.
Proof.
  cbn [List.length]. split; [apply Z.ltb_lt | apply Z.eqb_neq]; lia.
Qed.

(** X15: a parsed bulletin lists one problem for each [TypeAvalanche]
    element of the document, in order, with the type and the icon looked up
    for its text.  Without such elements it lists a single "Wind Slab" from
    level 3 up, a single "Persistent Weak Layers" at level 2, and nothing
    at all below level 2 or when the level is not a number. *)
Theorem parsed_bulletin_problems (now : Z) (xml : Xml) :
  let b := parseMeteoFranceXML now xml in
  (TypeAvalanche xml <> [] ->
     map type (problems b) = map translateProblemType (TypeAvalanche xml) /\
     map icon (problems b) = map getProblemIcon (TypeAvalanche xml)) /\
  (TypeAvalanche xml = [] ->
     map type (problems b)
     = if ge (overallRisk b) (Int 3) then [Text "Wind Slab"]
       else if ge (overallRisk b) (Int 2) then [Text "Persistent Weak Layers"]
       else []).
Proof.
  cbv zeta. unfold parseMeteoFranceXML. cbn [problems overallRisk].
  set (level := parseInt (or_string (LOC1 xml) "3")).
  split.
  - destruct (TypeAvalanche xml) as [|t ts]; [intros H; contradiction|]. intros _.
    cbn [map]. rewrite !(proj2 (length_cons_positive _ _)). cbv iota.
    rewrite !(proj1 (length_cons_positive _ _)). cbn [map type icon].
    rewrite !map_map. cbn [type icon]. split; reflexivity.
  - intros ->. cbn [map List.length].
    change (Z.of_nat 0 =? 0) with true. cbv iota.
    destruct (ge level (Int 3)) eqn:H3; [reflexivity|].
    change (0 <? Z.of_nat (List.length (@nil Problem))) with false. cbv iota.
    rewrite getDefaultProblems_cases, H3. reflexivity.
Qed.

(** ** The warnings of the second revision *)

Lemma scrapeAlerts_spec (nodes : list AlertNode) :
  Forall avalancheAlert (scrapeAlerts nodes) /\
  List.length (scrapeAlerts nodes) = List.length (filter hasTitle nodes).
Proof.
  unfold scrapeAlerts. induction nodes as [|elem rest [IHf IHl]];
    [split; [constructor | reflexivity]|].
  cbn [flat_map filter]. unfold hasTitle at 1.
  destruct (node_title elem) as [|c r] eqn:Ht.
  - split; [exact IHf | exact IHl].
  - split.
    + constructor; [|exact IHf]. unfold avalancheAlert. cbn.
      repeat split. discriminate.
    + cbn [app List.length]. rewrite IHl. reflexivity.
Qed.

(** X16: on a cache miss the warnings endpoint of the second revision
    answers, when the vigilance page was fetched, one alert for each node
    that has a title, or one standard alert if there is none, and stores
    the answer; when the request failed it answers the mock resource, with
    no alert, and stores nothing.  So its list of alerts is empty exactly
    when the answer is mock data.  Every alert is of type "avalanche", of
    level number 3, and has a title. *)
Theorem warnings_alerts_of_page (w : World) :
  isCacheValid (clock w) (warnings (cache w)) = false ->
  exists r w1,
    get_api_warnings_savoie w = (Ok {| status := 200; body := JWarnings r |}, w1) /\
    Forall avalancheAlert (alerts (resource r)) /\
    (alerts (resource r) = [] <-> warnings_isMockData r = true) /\
    match snd (fst (settle (vigilance w))) with
    | Ok nodes =>
        warnings_isMockData r = false /\
        List.length (alerts (resource r))
        = Nat.max 1 (List.length (filter hasTitle nodes)) /\
        (filter hasTitle nodes <> [] -> alerts (resource r) = scrapeAlerts nodes) /\
        data (warnings (cache w1)) = Some r /\
        timestamp (warnings (cache w1)) = Some (clock w1)
    | Throw _ => warnings_isMockData r = true /\ cache w1 = cache w
    end.
Proof.
  intros Hv. unfold get_api_warnings_savoie. run_monad. rewrite Hv.
  unfold axios_get_vigilance. destruct (settle (vigilance w)) as [[l o] rest].
  cbn [fst snd]. destruct o as [nodes|e].
  - destruct (scrapeAlerts_spec nodes) as [Hall Hlen].
    eexists. eexists. split; [reflexivity|].
    cbn [resource alerts warnings_isMockData cache clock warnings set_warnings
         data timestamp].
    destruct (scrapeAlerts nodes) as [|a more] eqn:Hs.
    + cbn [List.length Z.of_nat Z.ltb Z.compare]. cbv iota.
      split; [constructor; [|constructor]; unfold avalancheAlert; cbn;
              repeat split; discriminate|].
      split; [split; discriminate|]. split; [reflexivity|].
      split; [cbn in Hlen; rewrite <- Hlen; reflexivity|].
      split; [|split; reflexivity].
      intros Hne. destruct (filter hasTitle nodes); [contradiction | discriminate Hlen].
    + assert (Hpos : (0 <? Z.of_nat (List.length (a :: more))) = true)
        by (apply Z.ltb_lt; cbn [List.length]; lia).
      rewrite Hpos. split; [exact Hall|].
      split; [split; discriminate|]. split; [reflexivity|].
      split; [rewrite Hlen; cbn [List.length] in Hlen; lia|].
      split; [reflexivity | split; reflexivity].
  - eexists. eexists. split; [reflexivity|].
    cbn [resource alerts warnings_isMockData getMockWeatherWarnings cache].
    split; [constructor|]. split; [split; reflexivity|]. split; reflexivity.
Qed.

(** ** A fetched or scraped bulletin stays *)

Lemma avalanche_stored (w : World) (r1 : Response) (w1 : World) :
  isCacheValid (clock w) (avalanche (cache w)) = false ->
  get_api_avalanche_vanoise w = (Ok r1, w1) ->
  (exists b, r1 = res_json (JBulletin b) /\ isMockData b = true) \/
  (exists b, r1 = res_json (JBulletin b) /\
             data (avalanche (cache w1)) = Some b /\
             timestamp (avalanche (cache w1)) = Some (clock w1)).
Proof.
  intros Hv. unfold get_api_avalanche_vanoise. run_monad. rewrite Hv.
  destruct (axios_get_xml w) as [[xml|e1] w2].
  - intros H. inversion H. right. eexists. repeat split.
  - destruct (axios_get_web w2) as [[page|e2] w3]; intros H; inversion H.
    + right. eexists. repeat split.
    + left. eexists. repeat split.
Qed.

(** X19: a bulletin of the second revision that was parsed or scraped,
    not mocked, is served again, identical and without any upstream
    request, to a request that comes less than six hours after it was
    stored.  So a scraped bulletin keeps the bulletin service from being
    asked again for six hours. *)
Theorem stored_bulletin_served_again (w : World) (r1 : Response) (w1 : World)
    (delay : N) :
  isCacheValid (clock w) (avalanche (cache w)) = false ->
  get_api_avalanche_vanoise w = (Ok r1, w1) ->
  (forall b, body r1 = JBulletin b -> isMockData b = false) ->
  clock w1 <> 0 ->
  Z.of_N delay < 21600000 ->
  get_api_avalanche_vanoise (tick delay w1) = (Ok r1, tick delay w1).
Proof.
  intros Hv Hrun Hreal Hne Hlt.
  destruct (avalanche_stored w r1 w1 Hv Hrun) as [(b & Hr & Hmock)|(b & Hr & Hd & Ht)].
  - subst r1. specialize (Hreal b eq_refl). congruence.
  - subst r1. unfold get_api_avalanche_vanoise. run_monad. cbn [tick cache clock].
    assert (Hvalid : isCacheValid (clock w1 + Z.of_N delay) (avalanche (cache w1)) = true).
    { apply (isCacheValid_intro _ (clock w1) b); try assumption.
      unfold CACHE_DURATION. lia. }
    rewrite Hvalid, Hd. reflexivity.
Qed.

(** ** The properties on sample documents *)

Lemma avalanche_three_stages_witness :
  exists b w1,
    get_api_avalanche_vanoise xmlDown
    = (Ok {| status := 200; body := JBulletin b |}, w1) /\
    b = scrapeMeteoFranceWeb (clock w1) samplePage /\
    outbound w1 = [GET_BRA_VANOISE_xml; GET_risques_avalanche].
Proof.
  destruct (avalanche_three_stages xmlDown eq_refl)
    as (b & w1 & Heq & _ & Hb & Ho & _).
  exists b, w1. split; [exact Heq|]. split; [exact Hb | exact Ho].
Defined.

Lemma parsed_bulletin_reports_high_witness :
  overallRisk (parseMeteoFranceXML 1700000000000 sampleXml) = Int 2 /\
  map risk (elevationBands (parseMeteoFranceXML 1700000000000 sampleXml))
  = [Int 2; Int 3; Int 3].
Proof.
  destruct (parsed_bulletin_reports_high 1700000000000 sampleXml 2 3
              eq_refl eq_refl eq_refl eq_refl)
    as (Hrisk & Hbands & _).
  split; [exact Hrisk | exact Hbands].
Defined.

Lemma warnings_alerts_of_page_witness :
  exists r w1,
    get_api_warnings_savoie xmlDown
    = (Ok {| status := 200; body := JWarnings r |}, w1) /\
    List.length (alerts (resource r)) = 1%nat.
Proof.
  destruct (warnings_alerts_of_page xmlDown eq_refl)
    as (r & w1 & Heq & _ & _ & _ & Hlen & _).
  exists r, w1. split; [exact Heq | exact Hlen].
Defined.

Lemma stored_bulletin_served_again_witness :
  outbound (snd (get_api_avalanche_vanoise
                   (tick 3600000 (snd (get_api_avalanche_vanoise xmlDown)))))
  = [GET_BRA_VANOISE_xml; GET_risques_avalanche].
Proof.
  exact (f_equal (fun run => outbound (snd run))
           (stored_bulletin_served_again xmlDown
              (res_json (JBulletin (scrapeMeteoFranceWeb 1700000010300 samplePage)))
              (snd (get_api_avalanche_vanoise xmlDown)) 3600000
              eq_refl eq_refl
              ltac:(intros b H; inversion H; reflexivity)
              ltac:(discriminate) eq_refl)).
Defined.

End Rev2Properties.
